(** * Telco churn classification utilities: a shallow embedding

    The development follows the four library modules of the project,
    [util/prepare.py], [util/acquire.py], [util/model.py] and
    [util/explore.py].  Each Python function is embedded under its own
    name.  The calls into pandas, numpy and scikit-learn are embedded from
    the documented behaviour of these libraries; where a library routine
    is randomised, numerical, talks to the outside world or differs from
    one version of the library to the next, it is a [Variable] of the
    enclosing [Section], and a statement that needs a part of its contract
    names it as a premise.

    Conventions.
    - Python exceptions are values of [py_error]; a call that can raise
      returns a [result].
    - A float is modelled by the rational it denotes ([Qc]); the statements
      only mention the floats [0.0] and [1.0], which are exact.
    - A function with a statement that assigns into an object it was
      handed (a frame, a dictionary, the files, a random generator) has
      that object as the state of a [stateful] computation: the state
      after the call is the object as the caller sees it afterwards.  A
      function embedded as a plain function has no such statement. *)

From Stdlib Require Import ZArith QArith Qcanon Qround Permutation Ascii.
From stdpp Require Import base strings list gmap.

Open Scope string_scope.
Open Scope list_scope.
Open Scope nat_scope.

(** ** Python values, exceptions *)

Inductive py_error :=
| NameError (name : string)
| KeyError (key : string)
| AttributeError (attr : string)
| IndexError
| ValueError (msg : string)
| OtherError (msg : string).

Inductive result (A : Type) :=
| Ok (a : A)
| Err (e : py_error).
Arguments Ok {A} a.
Arguments Err {A} e.

#[global] Instance result_ret : MRet result := fun A a => Ok a.
#[global] Instance result_bind : MBind result := fun A B f m =>
  match m with
  | Ok a => f a
  | Err e => Err e
  end.

Definition of_option {A} (o : option A) (e : py_error) : result A :=
  match o with
  | Some a => Ok a
  | None => Err e
  end.

Definition is_ok {A} (r : result A) : bool :=
  match r with
  | Ok _ => true
  | Err _ => false
  end.

(** Code with effects: a state is threaded through, and an exception
    leaves the state as it was when it was raised. *)
Definition stateful (S A : Type) : Type := S -> result A * S.

#[global] Instance stateful_ret {S} : MRet (stateful S) :=
  fun A a s => (Ok a, s).
#[global] Instance stateful_bind {S} : MBind (stateful S) :=
  fun A B f m s =>
    match m s with
    | (Ok a, s') => f a s'
    | (Err e, s') => (Err e, s')
    end.

Definition lift {S A} (r : result A) : stateful S A := fun s => (r, s).
Definition get_state {S} : stateful S S := fun s => (Ok s, s).
Definition put_state {S} (s : S) : stateful S unit := fun _ => (Ok tt, s).

(** The value of one cell of a table.  [CNaN] is the missing value. *)
Inductive cell :=
| CInt (z : Z)
| CFloat (q : Qc)
| CStr (s : string)
| CNaN.

#[global] Instance cell_eq_dec : EqDecision cell.
Proof. solve_decision. Defined.

Inductive dtype := int64 | float64 | object | uint8.

#[global] Instance dtype_eq_dec : EqDecision dtype.
Proof. solve_decision. Defined.

(** Python's [==] between two scalars, as numpy applies it elementwise.
    The missing value is different from everything, itself included. *)
Definition py_eq (a b : cell) : bool :=
  match a, b with
  | CInt x, CInt y => bool_decide (x = y)
  | CInt x, CFloat y => bool_decide (Q2Qc (inject_Z x) = y)
  | CFloat x, CInt y => bool_decide (x = Q2Qc (inject_Z y))
  | CFloat x, CFloat y => bool_decide (x = y)
  | CStr x, CStr y => bool_decide (x = y)
  | _, _ => false
  end.

(** ** Tables

    A [DataFrame] is column-major, as in pandas: an index of row labels and
    a list of named, typed columns.  A [Series] is one column with its
    index. *)

Record Column := mkColumn {
  c_name : string;
  c_dtype : dtype;
  c_values : list cell
}.

Record DataFrame := mkDataFrame {
  index : list Z;
  columns : list Column
}.

Record Series := mkSeries {
  s_index : list Z;
  s_dtype : dtype;
  s_values : list cell
}.

Definition column_names (df : DataFrame) : list string :=
  map c_name (columns df).

Definition n_rows (df : DataFrame) : nat := length (index df).

(** Every column is as long as the index. *)
Definition well_formed (df : DataFrame) : Prop :=
  Forall (fun c => length (c_values c) = n_rows df) (columns df).

(** [range(n)] as an index. *)
Definition RangeIndex (n : nat) : list Z := map Z.of_nat (seq 0 n).

(** [df[name]] and [df.name]: the first column carrying the label. *)
Definition find_column (name : string) (df : DataFrame) : option Column :=
  List.find (fun c => bool_decide (c_name c = name)) (columns df).

Definition to_series (df : DataFrame) (c : Column) : Series :=
  mkSeries (index df) (c_dtype c) (c_values c).

Definition getitem (df : DataFrame) (name : string) : result Series :=
  of_option (to_series df <$> find_column name df) (KeyError name).

Definition getattr (df : DataFrame) (name : string) : result Series :=
  of_option (to_series df <$> find_column name df) (AttributeError name).

(** [df[name] = values]: replaces the column in place when the label
    exists, appends a new last column otherwise. *)
Fixpoint set_column (name : string) (d : dtype) (vs : list cell)
    (cs : list Column) : list Column :=
  match cs with
  | [] => [mkColumn name d vs]
  | c :: cs' =>
      if bool_decide (c_name c = name)
      then mkColumn name d vs :: cs'
      else c :: set_column name d vs cs'
  end.

Definition setitem (df : DataFrame) (name : string) (d : dtype)
    (vs : list cell) : DataFrame :=
  mkDataFrame (index df) (set_column name d vs (columns df)).

(** Boolean-mask row selection [df[mask]]. *)
Fixpoint mask_filter {A} (mask : list bool) (l : list A) : list A :=
  match mask, l with
  | b :: mask', x :: l' =>
      if b then x :: mask_filter mask' l' else mask_filter mask' l'
  | _, _ => []
  end.

Definition select_rows (mask : list bool) (df : DataFrame) : DataFrame :=
  mkDataFrame (mask_filter mask (index df))
    (map (fun c => mkColumn (c_name c) (c_dtype c)
                     (mask_filter mask (c_values c))) (columns df)).

(** Positional row selection [df.iloc[positions]].  Every use below
    passes positions that are in range; a position out of range, on which
    pandas raises, is skipped here. *)
Definition take {A} (positions : list nat) (l : list A) : list A :=
  omap (fun p => l !! p) positions.

Definition iloc (positions : list nat) (df : DataFrame) : DataFrame :=
  mkDataFrame (take positions (index df))
    (map (fun c => mkColumn (c_name c) (c_dtype c)
                     (take positions (c_values c))) (columns df)).

(** The values of row [i], one per column. *)
Definition row_at (df : DataFrame) (i : nat) : list cell :=
  map (fun c => nth i (c_values c) CNaN) (columns df).

Definition row_values (df : DataFrame) : list (list cell) :=
  map (row_at df) (seq 0 (n_rows df)).

(** ** Strings *)

Fixpoint string_map (f : Ascii.ascii -> string) (s : string) : string :=
  match s with
  | EmptyString => EmptyString
  | String a s' => f a +:+ string_map f s'
  end.

Definition char (a : Ascii.ascii) : string := String a EmptyString.

(** [str.lower] on ASCII letters (column labels of the data set are
    ASCII). *)
Definition ascii_lower (a : Ascii.ascii) : Ascii.ascii :=
  let n := Ascii.N_of_ascii a in
  if ((65 <=? n) && (n <=? 90))%N then Ascii.ascii_of_N (n + 32) else a.

Definition str_lower (s : string) : string :=
  string_map (fun a => char (ascii_lower a)) s.

(** [str.replace(' ', '_', regex = False)]. *)
Definition replace_spaces (s : string) : string :=
  string_map (fun a => if Ascii.eqb a " "%char then "_" else char a) s.

(** [str.replace('\(|\)', '', regex = True)]. *)
Definition remove_parens (s : string) : string :=
  string_map (fun a => if Ascii.eqb a "("%char || Ascii.eqb a ")"%char then "" else char a) s.

(** Sorting of labels, as [sorted] orders Python strings. *)
Fixpoint insert_sorted {A} (leb : A -> A -> bool) (x : A) (l : list A) : list A :=
  match l with
  | [] => [x]
  | y :: l' => if leb x y then x :: l else y :: insert_sorted leb x l'
  end.

Definition sort_by {A} (leb : A -> A -> bool) (l : list A) : list A :=
  foldr (insert_sorted leb) [] l.

(** The head of a list is least in it. *)
Definition head_least {A} (leb : A -> A -> bool) (l : list A) : Prop :=
  forall h, head l = Some h -> forall y, y ∈ l -> leb h y = true.

(** ** The module namespace

    A function body resolves a free name in the globals of the module that
    defines it, at the time of the call. *)

Inductive library := pandas | numpy.

(** What a global name of the project can be bound to: a library module,
    or a function. *)
Inductive py_object :=
| Module (lib : library)
| Function (qualname : string).

#[global] Instance library_eq_dec : EqDecision library.
Proof. solve_decision. Defined.

#[global] Instance py_object_eq_dec : EqDecision py_object.
Proof. solve_decision. Defined.

(** Loop over a Python list with a body that may raise. *)
Fixpoint for_each {A S} (body : S -> A -> result S) (s : S) (l : list A) : result S :=
  match l with
  | [] => Ok s
  | x :: l' => s' ← body s x; for_each body s' l'
  end.

(** The same loop with a body that changes an object in place: when a
    turn raises, the turns before it have left their changes. *)
Fixpoint for_each_in_place {A S} (body : A -> stateful S unit) (l : list A)
    : stateful S unit :=
  match l with
  | [] => mret tt
  | x :: l' => _ ← body x; for_each_in_place body l'
  end.

(** * util/prepare.py *)

Module prepare.

(** The globals of [util/prepare.py] once the module is imported: the two
    [import] statements at its top and its own [def]s. *)
Definition module_globals : gmap string py_object :=
  list_to_map [
    ("pd", Module pandas);
    ("train_test_split", Function "sklearn.model_selection.train_test_split");
    ("_drop_useless_columns", Function "util.prepare._drop_useless_columns");
    ("_remove_missing_values", Function "util.prepare._remove_missing_values");
    ("_combine_duplicate_values", Function "util.prepare._combine_duplicate_values");
    ("_encode_categorical_features", Function "util.prepare._encode_categorical_features");
    ("_clean_column_names", Function "util.prepare._clean_column_names");
    ("prep_telco_data", Function "util.prepare.prep_telco_data");
    ("split_data", Function "util.prepare.split_data")
  ].

(** [DataFrame.drop(columns = labels)]: every label must be present. *)
Definition drop (labels : list string) (df : DataFrame) : result DataFrame :=
  match List.filter (fun l => bool_decide (l ∉ column_names df)) labels with
  | [] =>
      Ok (mkDataFrame (index df)
            (List.filter (fun c => bool_decide (c_name c ∉ labels)) (columns df)))
  | missing :: _ => Err (KeyError missing)
  end.

Definition cols_to_drop : list string :=
  ["customer_id"; "contract_type_id"; "internet_service_type_id"; "payment_type_id"].

Definition _drop_useless_columns (df : DataFrame) : result DataFrame :=
  drop cols_to_drop df.

(** [DataFrame.drop_duplicates()]: a row is dropped when an earlier row has
    the same values; an empty frame is returned as it is. *)
Fixpoint duplicated (seen rows : list (list cell)) : list bool :=
  match rows with
  | [] => []
  | r :: rows' => bool_decide (r ∈ seen) :: duplicated (r :: seen) rows'
  end.

Definition empty (df : DataFrame) : bool :=
  bool_decide (index df = []) || bool_decide (columns df = []).

Definition drop_duplicates (df : DataFrame) : DataFrame :=
  if empty df then df
  else select_rows (map negb (duplicated [] (row_values df))) df.

Section WithPandas.

(** Python's [float(s)] on a string; [None] when it raises [ValueError]. *)
Variable float_of_str : string -> option cell.

(** [Series.astype('float')]. *)
Definition to_float (v : cell) : result cell :=
  match v with
  | CInt z => Ok (CFloat (Q2Qc (inject_Z z)))
  | CFloat q => Ok (CFloat q)
  | CNaN => Ok CNaN
  | CStr s =>
      of_option (float_of_str s)
        (ValueError ("could not convert string to float: " +:+ s))
  end.

Definition astype_float (vs : list cell) : result (list cell) :=
  for_each (fun acc v => v' ← to_float v; Ok (acc ++ [v'])) [] vs.

Definition _remove_missing_values (df : DataFrame) : result DataFrame :=
  tenure ← getattr df "tenure";
  let does_not_have_zero_tenure :=
    map (fun v => negb (py_eq v (CInt 0))) (s_values tenure) in
  let df := select_rows does_not_have_zero_tenure df in
  total_charges ← getattr df "total_charges";
  as_float ← astype_float (s_values total_charges);
  Ok (setitem df "total_charges" float64 as_float).

Definition service_columns : list string :=
  ["multiple_lines"; "online_security"; "online_backup"; "device_protection";
   "tech_support"; "streaming_tv"; "streaming_movies"].

(** The two values the stage is to leave in these columns. *)
Definition yes_or_no (v : cell) : Prop := v = CStr "Yes" \/ v = CStr "No".

(** [numpy.where(cond, x, y)] with two scalars. *)
Definition numpy_where (cond : list bool) (x y : cell) : list cell :=
  map (fun b : bool => if b then x else y) cond.

(** The attribute [where] of an object a global name can be bound to:
    numpy has it; the module pandas and a plain function have none. *)
Definition attribute_where (o : py_object)
    : result (list bool -> cell -> cell -> list cell) :=
  match o with
  | Module numpy => Ok numpy_where
  | Module pandas | Function _ => Err (AttributeError "where")
  end.

(** Evaluating the callee [np.where]: the name [np] is looked up in the
    globals of the module, then its attribute [where]. *)
Definition np_where : result (list bool -> cell -> cell -> list cell) :=
  match module_globals !! "np" with
  | None => Err (NameError "np")
  | Some o => attribute_where o
  end.

(** One turn of the loop: [df[column] = np.where(df[column] == 'Yes', 'Yes', 'No')].
    The callee is evaluated before its arguments; the assignment is made
    on the frame the function received. *)
Definition combine_column (column : string) : stateful DataFrame unit :=
  where_ ← lift np_where;
  df ← get_state;
  col ← lift (getitem df column);
  put_state (setitem df column object
               (where_ (map (fun v => py_eq v (CStr "Yes")) (s_values col))
                  (CStr "Yes") (CStr "No"))).

(** The state threaded through is the frame the function received; the
    function returns that frame. *)
Definition _combine_duplicate_values : stateful DataFrame DataFrame :=
  _ ← for_each_in_place combine_column service_columns;
  get_state.

(** [pd.get_dummies(frame, dummy_na = False, drop_first = True)] on a
    frame of at least one column: the indicator columns pandas makes, over
    the rows of the frame. *)
Variable get_dummies : list Column -> list Column.

(** [df[labels]] with a list of labels that are all present: for every
    label, in turn, the columns that carry it. *)
Definition select_columns (labels : list string) (df : DataFrame) : list Column :=
  flat_map (fun l => List.filter (fun c => bool_decide (c_name c = l)) (columns df))
    labels.

(** With no column to encode [get_dummies] has nothing to concatenate and
    raises. *)
Definition _encode_categorical_features (df : DataFrame) : result DataFrame :=
  let categorical_cols :=
    map c_name (List.filter (fun c => bool_decide (c_dtype c = object)) (columns df)) in
  match select_columns categorical_cols df with
  | [] => Err (ValueError "No objects to concatenate")
  | selected =>
      let dummy_df := get_dummies selected in
      Ok (mkDataFrame (index df) (columns df ++ dummy_df))
  end.

Definition clean_name (s : string) : string :=
  remove_parens (str_lower (replace_spaces s)).

(** [df.columns = labels]: the frame with its columns relabelled. *)
Definition rename (f : string -> string) (df : DataFrame) : DataFrame :=
  mkDataFrame (index df)
    (map (fun c => mkColumn (f (c_name c)) (c_dtype c) (c_values c)) (columns df)).

(** The two assignments to [df.columns] are made on the frame the function
    received (the state threaded through); the function returns that
    frame. *)
Definition _clean_column_names : stateful DataFrame DataFrame :=
  df ← get_state;
  _ ← put_state (rename (fun s => str_lower (replace_spaces s)) df);
  df ← get_state;
  _ ← put_state (rename remove_parens df);
  get_state.

(** The state threaded through is the frame of the caller.  The first
    statement rebinds [df] to the new frame that [drop_duplicates] returns:
    what the stages change from there on is that frame. *)
Definition prep_telco_data : stateful DataFrame DataFrame :=
  fun original =>
    let prepared :=
      let df := drop_duplicates original in
      df ← _drop_useless_columns df;
      df ← _remove_missing_values df;
      df ← (_combine_duplicate_values df).1;
      df ← _encode_categorical_features df;
      (_clean_column_names df).1 in
    (prepared, original).

End WithPandas.

(** ** split_data *)

Section WithSplitter.

(** The state of a numpy random generator. *)
Variable rng : Type.

(** [np.random.RandomState(seed)]: a fresh generator, seeded. *)
Variable RandomState : Z -> rng.

(** The stratified shuffle split of scikit-learn
    ([StratifiedShuffleSplit.split]): from a generator, the number of
    samples, the number of test samples and the stratification labels, the
    positions of the train rows and of the test rows, or a [ValueError]
    when a class is too small; the generator is consumed. *)
Variable stratified_shuffle_split :
  rng -> nat -> nat -> list cell -> result (list nat * list nat) * rng.

(** [ceil(test_size * n_samples)].  The float literals [0.2] and [0.3] are
    modelled by the fractions they denote; the rounded product has the
    same ceiling. *)
Definition n_test_of (test_size : Q) (n_samples : nat) : nat :=
  Z.to_nat (Qceiling (test_size * inject_Z (Z.of_nat n_samples))).

(** [train_test_split(df, test_size = ..., random_state = ..., stratify = ...)].
    An integer [random_state] seeds a generator of its own; with [None]
    the process-wide generator (the state threaded here) is used. *)
Definition train_test_split (df : DataFrame) (test_size : Q)
    (random_state : option Z) (stratify : Series)
    : stateful rng (DataFrame * DataFrame) :=
  let n_samples := n_rows df in
  let n_test := n_test_of test_size n_samples in
  let n_train := n_samples - n_test in
  if bool_decide (n_train = 0)
  then lift (Err (ValueError "the resulting train set will be empty"))
  else
    positions ← match random_state with
                | Some seed =>
                    lift (fst (stratified_shuffle_split (RandomState seed)
                                 n_samples n_test (s_values stratify)))
                | None =>
                    fun ambient =>
                      stratified_shuffle_split ambient n_samples n_test
                        (s_values stratify)
                end;
    mret (iloc positions.1 df, iloc positions.2 df).

Definition test_split : Q := 2 # 10.
Definition train_validate_split : Q := 3 # 10.

Definition split_data (df : DataFrame) (stratify : string) (random_seed : Z)
    : stateful rng (DataFrame * DataFrame * DataFrame) :=
  col ← lift (getitem df stratify);
  '(train_validate, test) ←
    train_test_split df test_split (Some random_seed) col;
  col' ← lift (getitem train_validate stratify);
  '(train, validate) ←
    train_test_split train_validate train_validate_split (Some random_seed) col';
  mret (train, validate, test).

End WithSplitter.

End prepare.


(** * util/acquire.py *)

Module acquire.

(** What the process does to the outside world, in order. *)
Inductive event :=
| FileRead (path : string)
| FileWrite (path contents : string)
| SqlQuery (url sql : string).

(** The outside world: the files of the working directory and the record
    of the accesses made so far. *)
Record World := mkWorld {
  files : gmap string string;
  trace : list event
}.

Definition log (e : event) : stateful World unit :=
  fun w => (Ok tt, mkWorld (files w) (trace w ++ [e])).

Definition _telco_file : string := "telco.csv".
Definition _telco_db : string := "telco_churn".

Definition get_db_url (database_name username password hostname : string) : string :=
  "mysql+pymysql://" +:+ username +:+ ":" +:+ password +:+ "@" +:+ hostname
    +:+ "/" +:+ database_name.

Definition _get_telco_sql : string :=
"
        SELECT *
        FROM customers
        JOIN payment_types USING (payment_type_id)
        JOIN internet_service_types USING (internet_service_type_id)
        JOIN contract_types USING (contract_type_id);
    ".

Section WithEnvironment.

(** The credentials bound at import time (from [env.py], or empty). *)
Variables username password hostname : string.

(** The csv parser and printer of pandas, on file contents. *)
Variable parse_csv : string -> result DataFrame.
Variable print_csv : DataFrame -> string.

(** The data source: what the server at a url answers to a query. *)
Variable run_query : string -> string -> result DataFrame.

(** [os.path.exists(path)]. *)
Definition path_exists (path : string) : stateful World bool :=
  fun w => (Ok (bool_decide (is_Some (files w !! path))), w).

(** [pd.read_csv(path)]. *)
Definition read_csv (path : string) : stateful World DataFrame :=
  fun w =>
    match files w !! path with
    | Some contents =>
        (parse_csv contents, mkWorld (files w) (trace w ++ [FileRead path]))
    | None => (Err (OtherError "FileNotFoundError"), w)
    end.

(** [pd.read_sql(sql, url)]. *)
Definition read_sql (sql url : string) : stateful World DataFrame :=
  fun w => (run_query url sql, mkWorld (files w) (trace w ++ [SqlQuery url sql])).

(** [df.to_csv(path, index = False)]. *)
Definition to_csv (df : DataFrame) (path : string) : stateful World unit :=
  fun w =>
    (Ok tt, mkWorld (<[path := print_csv df]> (files w))
              (trace w ++ [FileWrite path (print_csv df)])).

Definition get_telco_data (use_cache : bool) : stateful World DataFrame :=
  cached ← path_exists _telco_file;
  if cached && use_cache
  then read_csv _telco_file
  else
    df ← read_sql _get_telco_sql (get_db_url _telco_db username password hostname);
    _ ← to_csv df _telco_file;
    mret df.

End WithEnvironment.

End acquire.

(** * util/model.py *)

Module model.

(** ** create_baseline_model *)

(** The distinct values of a list, in the order of their first
    occurrence (the order of pandas' hash table). *)
Fixpoint unique (l : list cell) : list cell :=
  match l with
  | [] => []
  | x :: l' => x :: List.filter (fun y => bool_decide (y ≠ x)) (unique l')
  end.

Definition occurrences (v : cell) (vs : list cell) : nat :=
  length (List.filter (fun x => bool_decide (x = v)) vs).

Definition is_str (v : cell) : bool :=
  match v with CStr _ => true | _ => false end.

Definition numeric_value (v : cell) : option Qc :=
  match v with
  | CInt z => Some (Q2Qc (inject_Z z))
  | CFloat q => Some q
  | _ => None
  end.

(** Python's [<=] between two values of one kind. *)
Definition cell_leb (a b : cell) : bool :=
  match a, b with
  | CStr x, CStr y => String.leb x y
  | _, _ =>
      match numeric_value a, numeric_value b with
      | Some x, Some y => bool_decide (x ≤ y)%Qc
      | _, _ => false
      end
  end.

Definition is_number (v : cell) : bool := bool_decide (is_Some (numeric_value v)).

(** [np.sort] succeeds on strings alone and on numbers alone. *)
Definition sortable (l : list cell) : bool :=
  forallb is_str l || forallb is_number l.

(** [Series.mode()] (with [dropna = True]): the most frequent values,
    missing values aside, sorted; when the values cannot be sorted pandas
    warns and leaves them in the order of first occurrence. *)
Definition mode (vs : list cell) : list cell :=
  let present := List.filter (fun v => bool_decide (v ≠ CNaN)) vs in
  let candidates := unique present in
  let best := foldr Nat.max 0 (map (fun v => occurrences v present) candidates) in
  let modes :=
    List.filter (fun v => bool_decide (occurrences v present = best)) candidates in
  if sortable modes then sort_by cell_leb modes else modes.

Definition Series_mode (s : Series) : Series :=
  let m := mode (s_values s) in
  mkSeries (RangeIndex (length m)) (s_dtype s) m.

(** [s[label]]: the value at the first position carrying the label. *)
Fixpoint lookup_label (label : Z) (idx : list Z) (vs : list cell) : option cell :=
  match idx, vs with
  | i :: idx', v :: vs' =>
      if bool_decide (i = label) then Some v else lookup_label label idx' vs'
  | _, _ => None
  end.

Definition series_getitem (s : Series) (label : Z) : result cell :=
  of_option (lookup_label label (s_index s) (s_values s)) (KeyError "0").

Definition infer_dtype (vs : list cell) : dtype :=
  if forallb (fun v => match v with CInt _ => true | _ => false end) vs then int64
  else if forallb (fun v => match v with CStr _ => false | _ => true end) vs then float64
  else object.

(** [pd.Series(values)] from a plain list: the index is [range(len)]. *)
Definition pd_Series (vs : list cell) : Series :=
  mkSeries (RangeIndex (length vs)) (infer_dtype vs) vs.

(** [column.size]. *)
Definition size (s : Series) : nat := length (s_values s).

Definition create_baseline_model (column : Series) : result Series :=
  most_common_value ← series_getitem (Series_mode column) 0;
  Ok (pd_Series (repeat most_common_value (size column))).

(** ** measure_model_performance *)

(** A metric value: a float, or the float [nan]. *)
Inductive score :=
| Score (q : Qc)
| ScoreNaN.

Definition ratio (num den : nat) (zero_division : score) : score :=
  if bool_decide (den = 0) then zero_division
  else Score (Q2Qc (Z.of_nat num # Pos.of_nat den)).

Definition count_pairs (p : cell -> cell -> bool) (a b : list cell) : nat :=
  length (List.filter (fun xy => p xy.1 xy.2) (zip a b)).

(** Equality of two labels as numpy compares the elements of two arrays:
    by value, so that [1 == 1.0]; a missing value equals nothing, itself
    included. *)
Definition same_label (a b : cell) : bool := py_eq a b.

(** How often a label occurs in an array. *)
Definition count_label (v : cell) (vs : list cell) : nat :=
  length (List.filter (fun x => same_label x v) vs).

(** [np.unique]: the distinct values of an array. *)
Fixpoint distinct (l : list cell) : list cell :=
  match l with
  | [] => []
  | x :: l' => x :: List.filter (fun y => negb (same_label y x)) (distinct l')
  end.

Definition is_nan (v : cell) : bool :=
  match v with CNaN => true | _ => false end.

(** A number equal to an integer. *)
Definition integral (v : cell) : bool :=
  match v with
  | CInt _ => true
  | CFloat q => bool_decide (Qden q = 1%positive)
  | _ => false
  end.

Definition check_consistent_length (y_true y_pred : list cell) : result unit :=
  if bool_decide (length y_true = length y_pred) then Ok tt
  else Err (ValueError "Found input variables with inconsistent numbers of samples").

(** The kinds of target that scikit-learn tells apart in a
    one-dimensional array. *)
Inductive target := binary | multiclass | continuous | unknown.

Definition classes (vs : list cell) : target :=
  if bool_decide (2 < length (distinct vs)) then multiclass else binary.

(** [sklearn.utils.multiclass.type_of_target] on a one-dimensional
    array.  An empty array is binary.  An array is an array of objects
    when its dtype says so, and in any case when it holds a string: it is
    unknown unless its first element is a string, and its distinct values
    cannot be sorted, hence not counted, when it holds a string and
    something else.  An array of numbers must not hold a missing value,
    and is continuous when a value is not an integer. *)
Definition type_of_target (d : dtype) (vs : list cell) : result target :=
  match vs with
  | [] => Ok binary
  | v :: _ =>
      if bool_decide (d = object) || existsb is_str vs
      then
        if negb (is_str v) then Ok unknown
        else if forallb is_str vs then Ok (classes vs)
        else Err (OtherError "TypeError")
      else
        if existsb is_nan vs then Err (ValueError "Input contains NaN")
        else if forallb integral vs then Ok (classes vs)
        else Ok continuous
  end.

(** The targets the classification metrics take. *)
Definition classification (t : target) : bool :=
  match t with
  | binary | multiclass => true
  | continuous | unknown => false
  end.

(** [sklearn.metrics._classification._check_targets].  The truth is a
    series; a prediction set is given by its values and has the dtype
    that holds them.  In the binary case the labels of the two arrays are
    merged, which fails for strings against numbers. *)
Definition _check_targets (y_true : Series) (y_pred : list cell) : result target :=
  _ ← check_consistent_length (s_values y_true) y_pred;
  type_true ← type_of_target (s_dtype y_true) (s_values y_true);
  type_pred ← type_of_target (infer_dtype y_pred) y_pred;
  if negb (classification type_true && classification type_pred)
  then Err (ValueError "Classification metrics can't handle these targets")
  else
    match type_true, type_pred with
    | binary, binary =>
        if xorb (forallb is_str (s_values y_true)) (forallb is_str y_pred)
        then Err (OtherError "TypeError")
        else Ok (classes (s_values y_true ++ y_pred))
    | _, _ => Ok multiclass
    end.

(** [sklearn.metrics.accuracy_score]: the share of the positions at which
    the two arrays agree. *)
Definition accuracy_score (y_true : Series) (y_pred : list cell) : result score :=
  _ ← _check_targets y_true y_pred;
  Ok (ratio (count_pairs same_label (s_values y_true) y_pred)
        (length (s_values y_true)) ScoreNaN).

(** Strings on one side, numbers on the other. *)
Definition same_kind (a b : cell) : bool := eqb (is_str a) (is_str b).

Section WithLabelEncoder.

(** What becomes of a positive label that is a string where the one label
    present is a number, or the other way round, when scikit-learn encodes
    the two together: whether that raises, and what, depends on the
    versions of numpy and scikit-learn. *)
Variable encode_foreign_label : cell -> cell -> result unit.

(** The checks of the binary average: the target is binary, and
    [pos_label] is one of the labels present unless fewer than two are. *)
Definition check_binary (y_true : Series) (y_pred : list cell) (pos_label : cell)
    : result unit :=
  y_type ← _check_targets y_true y_pred;
  match y_type with
  | binary =>
      let present_labels := distinct (s_values y_true ++ y_pred) in
      if existsb (same_label pos_label) present_labels then Ok tt
      else
        match present_labels with
        | [] => Ok tt
        | [l] =>
            if same_kind pos_label l then Ok tt
            else encode_foreign_label pos_label l
        | _ => Err (ValueError "pos_label is not a valid label")
        end
  | _ => Err (ValueError "Target is multiclass but average='binary'")
  end.

Definition true_positives (y_true y_pred : list cell) (pos_label : cell) : nat :=
  count_pairs (fun t p => same_label t pos_label && same_label p pos_label)
    y_true y_pred.

(** [sklearn.metrics.precision_score(..., pos_label, zero_division)]. *)
Definition precision_score (y_true : Series) (y_pred : list cell) (pos_label : cell)
    (zero_division : score) : result score :=
  _ ← check_binary y_true y_pred pos_label;
  Ok (ratio (true_positives (s_values y_true) y_pred pos_label)
        (count_label pos_label y_pred) zero_division).

(** [sklearn.metrics.recall_score(..., pos_label, zero_division)]. *)
Definition recall_score (y_true : Series) (y_pred : list cell) (pos_label : cell)
    (zero_division : score) : result score :=
  _ ← check_binary y_true y_pred pos_label;
  Ok (ratio (true_positives (s_values y_true) y_pred pos_label)
        (count_label pos_label (s_values y_true)) zero_division).

(** The row label of a model in the table of scores: its position among
    the prediction sets, or the label given for it. *)
Inductive model_name :=
| Position (i : nat)
| Label (s : string).

Record ScoreRow := mkScoreRow {
  model : model_name;
  accuracy : score;
  precision : score;
  recall : score
}.

Definition enumerate {A} (l : list A) : list (nat * A) :=
  zip (seq 0 (length l)) l.

(** The dictionary built for one prediction set; its entries are
    evaluated in the order they are written. *)
Definition score_row (y_true : Series) (positive_label : cell)
    (labels : option (list string)) (index : nat) (predictions : list cell)
    : result ScoreRow :=
  name ← match labels with
         | None | Some [] => Ok (Position index)
         | Some ls => of_option (Label <$> ls !! index) IndexError
         end;
  acc ← accuracy_score y_true predictions;
  prec ← precision_score y_true predictions positive_label (Score 0);
  rec ← recall_score y_true predictions positive_label (Score 0);
  Ok (mkScoreRow name acc prec rec).

Definition default_positive_label : cell := CInt 1.

(** The table returned is represented by its rows, in order;
    [set_index('model')] needs the column, which an empty table lacks. *)
Definition measure_model_performance (y_true : Series)
    (y_pred : list (list cell)) (positive_label : cell)
    (labels : option (list string)) : result (list ScoreRow) :=
  scores ← for_each
              (fun scores ip =>
                 row ← score_row y_true positive_label labels ip.1 ip.2;
                 Ok (scores ++ [row]))
              [] (enumerate y_pred);
  match scores with
  | [] => Err (KeyError "model")
  | _ => Ok scores
  end.

(** ** Classifiers *)

Inductive weights := uniform | distance.

(** The estimators of scikit-learn that the module constructs, with the
    parameters it passes. *)
Inductive estimator :=
| DecisionTreeClassifier (max_depth : option nat) (random_state : option Z)
| RandomForestClassifier (max_depth : option nat) (random_state : option Z)
| KNeighborsClassifier (n_neighbors : nat) (weights_ : weights).

Definition features : list string :=
  ["monthly_charges"; "tenure"; "contract_type_one_year";
   "contract_type_two_year"; "payment_type_credit_card_automatic";
   "payment_type_electronic_check"; "payment_type_mailed_check"].

(** [df[names]] with a list of labels. *)
Definition getitem_list (df : DataFrame) (names : list string) : result DataFrame :=
  cols ← for_each
            (fun acc name =>
               c ← of_option (find_column name df) (KeyError name);
               Ok (acc ++ [c]))
            [] names;
  Ok (mkDataFrame (index df) cols).

Definition split_into_X_and_y (df : DataFrame) : result (DataFrame * Series) :=
  X ← getitem_list df features;
  y ← getattr df "churn";
  Ok (X, y).

(** Python dictionaries keep their keys in insertion order; assigning to
    a key that exists keeps its place. *)
Fixpoint dict_set {V} (key : string) (v : V) (d : list (string * V)) : list (string * V) :=
  match d with
  | [] => [(key, v)]
  | (k, v') :: d' =>
      if bool_decide (k = key) then (key, v) :: d' else (k, v') :: dict_set key v d'
  end.

Fixpoint dict_lookup {V} (key : string) (d : list (string * V)) : option V :=
  match d with
  | [] => None
  | (k, v) :: d' => if bool_decide (k = key) then Some v else dict_lookup key d'
  end.

Definition dict_get {V} (d : list (string * V)) (key : string) : result V :=
  of_option (dict_lookup key d) (KeyError key).

Definition keys {V} (d : list (string * V)) : list string := map fst d.

Section WithLearner.

(** What an estimator learns from a training set, and how it predicts:
    the algorithms of scikit-learn. *)
Variable learned : Type.
Variable fit : estimator -> DataFrame -> Series -> result learned.
Variable predict : estimator -> learned -> DataFrame -> result (list cell).
Variable predict_proba : estimator -> learned -> DataFrame -> result (list (list Qc)).

Record classifier := mkClassifier {
  params : estimator;
  state : learned
}.

(** A value of the [models] dictionary. *)
Inductive entry :=
| PyNone
| Fitted (m : classifier)
| BaselineSeries (s : Series).

(** [est = Estimator(...); est.fit(X, y)]. *)
Definition fitted (e : estimator) (X : DataFrame) (y : Series) : result classifier :=
  st ← fit e X y;
  Ok (mkClassifier e st).

Definition create_models (df : DataFrame) (random_seed : Z)
    : result (list (string * entry)) :=
  '(X, y) ← split_into_X_and_y df;
  model_1 ← fitted (DecisionTreeClassifier (Some 5) (Some random_seed)) X y;
  model_2 ← fitted (RandomForestClassifier (Some 5) (Some random_seed)) X y;
  model_3 ← fitted (KNeighborsClassifier 10 uniform) X y;
  Ok [("Baseline", PyNone);
      ("Decision Tree", Fitted model_1);
      ("Random Forest", Fitted model_2);
      ("K Nearest Neighbors", Fitted model_3)].

Definition model_predict (m : classifier) (X : DataFrame) : result (list cell) :=
  predict (params m) (state m) X.

Definition model_predict_proba (m : classifier) (X : DataFrame)
    : result (list (list Qc)) :=
  predict_proba (params m) (state m) X.

(** [models[key].predict(X)]. *)
Definition entry_predict (e : entry) (X : DataFrame) : result (list cell) :=
  match e with
  | Fitted m => model_predict m X
  | PyNone | BaselineSeries _ => Err (AttributeError "predict")
  end.

(** A dictionary value handed to the metrics as a prediction set. *)
Definition entry_values (e : entry) : result (list cell) :=
  match e with
  | BaselineSeries s => Ok (s_values s)
  | PyNone | Fitted _ => Err (ValueError "Expected array-like")
  end.

(** The state threaded through is the [models] dictionary of the caller:
    the function receives a reference to it. *)
Definition visualize_performance_of_models (df : DataFrame)
    : stateful (list (string * entry)) (list ScoreRow) :=
  '(X, y) ← lift (split_into_X_and_y df);
  baseline ← lift (create_baseline_model y);
  models ← get_state;
  _ ← put_state (dict_set "Baseline" (BaselineSeries baseline) models);
  models ← get_state;
  pred_0 ← lift (e ← dict_get models "Baseline"; entry_values e);
  pred_1 ← lift (e ← dict_get models "Decision Tree"; entry_predict e X);
  pred_2 ← lift (e ← dict_get models "Random Forest"; entry_predict e X);
  pred_3 ← lift (e ← dict_get models "K Nearest Neighbors"; entry_predict e X);
  lift (measure_model_performance y [pred_0; pred_1; pred_2; pred_3]
          (CStr "Yes") (Some (keys models))).

(** ** Predictions on the test set *)

(** The objects [make_predictions_on_test] can change: the frame
    [original_df] of its caller and the files of the working directory. *)
Record Env := mkEnv {
  customers : DataFrame;
  files : gmap string string
}.

(** [df.to_csv(path, index = False)], with the printer of pandas. *)
Variable print_csv : DataFrame -> string.

Definition to_csv (df : DataFrame) (path : string) : stateful Env unit :=
  fun env => (Ok tt, mkEnv (customers env) (<[path := print_csv df]> (files env))).

(** [list(pd.DataFrame(prob)[1])]: the second column of the array. *)
Definition second_column (prob : list (list Qc)) : result (list cell) :=
  for_each
    (fun acc row => p ← of_option (row !! 1) (KeyError "1"); Ok (acc ++ [CFloat p]))
    [] prob.

(** [pd.DataFrame({...})] from three columns, which must agree in length. *)
Definition predictions_frame (idx : list Z) (probability prediction : list cell)
    : result DataFrame :=
  if bool_decide (length idx = length probability)
     && bool_decide (length idx = length prediction)
  then Ok (mkDataFrame (RangeIndex (length idx))
             [mkColumn "index" int64 (map CInt idx);
              mkColumn "probability" float64 probability;
              mkColumn "prediction" (infer_dtype prediction) prediction])
  else Err (ValueError "All arrays must be of the same length").

(** The pairs of positions (left, right) whose keys agree, in the order
    of the left then of the right frame. *)
Definition matching_rows (left_keys right_keys : list cell) : list (nat * nat) :=
  flat_map
    (fun ik : nat * cell =>
       omap (fun jk : nat * cell =>
               if bool_decide (ik.2 = jk.2) then Some (ik.1, jk.1) else None)
         (enumerate right_keys))
    (enumerate left_keys).

(** [left.merge(right, left_on = ['index'], right_on = ['index'])[columns]]
    with [columns = ['customer_id', 'probability', 'prediction']].  A label
    that both frames carry is suffixed by the merge and then missing. *)
Definition merge_on_index (left right : DataFrame) : result DataFrame :=
  left_key ← of_option (find_column "index" left) (KeyError "index");
  right_key ← of_option (find_column "index" right) (KeyError "index");
  customer_id ← of_option (find_column "customer_id" left) (KeyError "customer_id");
  probability ← of_option (find_column "probability" right) (KeyError "probability");
  prediction ← of_option (find_column "prediction" right) (KeyError "prediction");
  if bool_decide ("probability" ∈ column_names left) then Err (KeyError "probability")
  else if bool_decide ("prediction" ∈ column_names left) then Err (KeyError "prediction")
  else
    let pairs := matching_rows (c_values left_key) (c_values right_key) in
    Ok (mkDataFrame (RangeIndex (length pairs))
          [mkColumn "customer_id" (c_dtype customer_id)
             (take (map fst pairs) (c_values customer_id));
           mkColumn "probability" (c_dtype probability)
             (take (map snd pairs) (c_values probability));
           mkColumn "prediction" (c_dtype prediction)
             (take (map snd pairs) (c_values prediction))]).

(** [customers['index'] = customers.index], on the caller's frame. *)
Definition set_index_column : stateful Env unit :=
  fun env =>
    (Ok tt,
     mkEnv (setitem (customers env) "index" int64 (map CInt (index (customers env))))
       (files env)).

Definition write_predictions_to_file (y : Series) (prob : list (list Qc))
    (pred : list cell) : stateful Env unit :=
  probability ← lift (second_column prob);
  predictions ← lift (predictions_frame (s_index y) probability pred);
  _ ← set_index_column;
  env ← get_state;
  predictions ← lift (merge_on_index (customers env) predictions);
  to_csv predictions "predictions.csv".

Definition make_predictions_on_test (df : DataFrame) (model_ : classifier)
    : stateful Env (list ScoreRow) :=
  '(X, y) ← lift (split_into_X_and_y df);
  pred ← lift (model_predict model_ X);
  metrics ← lift (measure_model_performance y [pred] (CStr "Yes")
                    (Some ["Decision Tree"]));
  prob ← lift (model_predict_proba model_ X);
  pred ← lift (model_predict model_ X);
  _ ← write_predictions_to_file y prob pred;
  mret metrics.

End WithLearner.

End WithLabelEncoder.

Arguments mkClassifier {learned} params state.
Arguments params {learned} c.
Arguments state {learned} c.
Arguments PyNone {learned}.
Arguments Fitted {learned} m.
Arguments BaselineSeries {learned} s.

End model.

(** * The specification's reading of the baseline *)

Module spec.

(** The baseline value as the specification words it: the most frequent
    value of the column and, among equally frequent values, the one
    encountered first. *)
Definition first_encountered_most_frequent (vs : list cell) : option cell :=
  let candidates := model.unique vs in
  let best :=
    foldr Nat.max 0 (map (fun v => model.occurrences v vs) candidates) in
  head (List.filter (fun v => bool_decide (model.occurrences v vs = best))
          candidates).

End spec.

(** * Sample data

    Small tables with the columns of the telco data set, used to run the
    functions above. *)

Module samples.

Definition strs (name : string) (vs : list string) : Column :=
  mkColumn name object (map CStr vs).

Definition ints (name : string) (vs : list Z) : Column :=
  mkColumn name int64 (map CInt vs).

Definition floats (name : string) (vs : list Q) : Column :=
  mkColumn name float64 (map (fun q => CFloat (Q2Qc q)) vs).

(** Python's [float] on the strings that occur in the samples. *)
Definition float_of_str (s : string) : option cell :=
  if bool_decide (s = "593.3") then Some (CFloat (Q2Qc (5933 # 10)%Q))
  else if bool_decide (s = "542.4") then Some (CFloat (Q2Qc (5424 # 10)%Q))
  else if bool_decide (s = "280.85") then Some (CFloat (Q2Qc (28085 # 100)%Q))
  else None.

(** Four customers as the join query returns them; the second has zero
    tenure and a blank total, the fourth repeats the third. *)
Definition telco_sample : DataFrame :=
  mkDataFrame [0; 1; 2; 3]%Z [
    ints "payment_type_id" [2; 2; 1; 1]%Z;
    ints "internet_service_type_id" [1; 3; 2; 2]%Z;
    ints "contract_type_id" [2; 3; 1; 1]%Z;
    strs "customer_id" ["0002-ORFBO"; "0003-MKNFE"; "0004-TLHLJ"; "0004-TLHLJ"];
    strs "gender" ["Female"; "Male"; "Male"; "Male"];
    ints "senior_citizen" [0; 0; 0; 0]%Z;
    strs "partner" ["Yes"; "No"; "No"; "No"];
    strs "dependents" ["Yes"; "No"; "No"; "No"];
    ints "tenure" [9; 0; 4; 4]%Z;
    strs "phone_service" ["Yes"; "No"; "Yes"; "Yes"];
    strs "multiple_lines" ["No"; "No phone service"; "Yes"; "Yes"];
    strs "online_security" ["No"; "No internet service"; "No"; "No"];
    strs "online_backup" ["Yes"; "No internet service"; "No"; "No"];
    strs "device_protection" ["No"; "No internet service"; "Yes"; "Yes"];
    strs "tech_support" ["Yes"; "No internet service"; "No"; "No"];
    strs "streaming_tv" ["Yes"; "No internet service"; "No"; "No"];
    strs "streaming_movies" ["No"; "No internet service"; "No"; "No"];
    strs "paperless_billing" ["Yes"; "No"; "Yes"; "Yes"];
    floats "monthly_charges" [656 # 10; 599 # 10; 739 # 10; 739 # 10]%Q;
    strs "total_charges" ["593.3"; " "; "280.85"; "280.85"];
    strs "churn" ["No"; "No"; "Yes"; "Yes"];
    strs "contract_type" ["One year"; "Two year"; "Month-to-month"; "Month-to-month"];
    strs "internet_service_type" ["DSL"; "None"; "Fiber optic"; "Fiber optic"];
    strs "payment_type"
      ["Mailed check"; "Mailed check"; "Electronic check"; "Electronic check"]
  ].

(** A splitter to run [split_data] with: it ignores the generator and the
    labels and puts the last rows in the test set. *)
Definition split_tail (r : unit) (n_samples n_test : nat) (labels : list cell)
    : result (list nat * list nat) * unit :=
  if bool_decide (n_test ≤ n_samples)
  then (Ok (seq 0 (n_samples - n_test), seq (n_samples - n_test) n_test), r)
  else (Err (ValueError "test_size is larger than the number of samples"), r).

Definition seed_unit (seed : Z) : unit := tt.

(** A csv printer and parser to run the acquisition with: the printer
    writes the header line, the parser knows the header of the sample. *)
Definition print_header (df : DataFrame) : string :=
  String.concat "," (column_names df).

Definition parse_sample (contents : string) : result DataFrame :=
  if bool_decide (contents = print_header telco_sample) then Ok telco_sample
  else Err (OtherError "ParserError").

(** A data source that answers the join query with the sample. *)
Definition sample_source (url sql : string) : result DataFrame :=
  if bool_decide (sql = acquire._get_telco_sql) then Ok telco_sample
  else Err (OtherError "ProgrammingError").

Definition cold : acquire.World := acquire.mkWorld ∅ [].

Definition warm : acquire.World :=
  acquire.mkWorld {[ acquire._telco_file := print_header telco_sample ]} [].

(** Target columns: a tie between the two classes, and a column whose row
    labels are not [0..n-1], as a split leaves them. *)
Definition churn_tie : Series :=
  mkSeries [0; 1]%Z object [CStr "Yes"; CStr "No"].

Definition churn_after_split : Series :=
  mkSeries [7; 3; 5]%Z object [CStr "No"; CStr "Yes"; CStr "No"].

(** A prepared table with the feature columns and the target, holding
    the first, third and fourth customer of the sample. *)
Definition prepared : DataFrame :=
  mkDataFrame [0; 2; 3]%Z [
    floats "monthly_charges" [656 # 10; 739 # 10; 739 # 10]%Q;
    ints "tenure" [9; 4; 4]%Z;
    mkColumn "contract_type_one_year" uint8 [CInt 1; CInt 0; CInt 0];
    mkColumn "contract_type_two_year" uint8 [CInt 0; CInt 0; CInt 0];
    mkColumn "payment_type_credit_card_automatic" uint8 [CInt 0; CInt 0; CInt 0];
    mkColumn "payment_type_electronic_check" uint8 [CInt 0; CInt 1; CInt 1];
    mkColumn "payment_type_mailed_check" uint8 [CInt 1; CInt 0; CInt 0];
    strs "churn" ["No"; "Yes"; "Yes"]
  ].

(** A learner to run the model functions with: nothing is learned, every
    customer is predicted to stay, with probability 3/4. *)
Definition fit_nothing (e : model.estimator) (X : DataFrame) (y : Series)
    : result unit := Ok tt.

Definition predict_no (e : model.estimator) (st : unit) (X : DataFrame)
    : result (list cell) :=
  Ok (repeat (CStr "No") (n_rows X)).

Definition predict_proba_no (e : model.estimator) (st : unit) (X : DataFrame)
    : result (list (list Qc)) :=
  Ok (repeat [Q2Qc (3 # 4); Q2Qc (1 # 4)] (n_rows X)).

(** A label encoder that takes no positive label of another kind. *)
Definition refuse_foreign_label (pos_label l : cell) : result unit :=
  Err (OtherError "TypeError").

(** The dictionary [create_models] returns for the seed 24. *)
Definition models_24 : list (string * model.entry unit) :=
  [("Baseline", model.PyNone);
   ("Decision Tree",
    model.Fitted (model.mkClassifier
                    (model.DecisionTreeClassifier (Some 5) (Some 24%Z)) tt));
   ("Random Forest",
    model.Fitted (model.mkClassifier
                    (model.RandomForestClassifier (Some 5) (Some 24%Z)) tt));
   ("K Nearest Neighbors",
    model.Fitted (model.mkClassifier (model.KNeighborsClassifier 10 model.uniform) tt))].


(** The caller's frame [original_df] and an empty working directory. *)
Definition env_0 : model.Env := model.mkEnv telco_sample ∅.

End samples.

(** * Vocabulary of the statements *)

(** Class labels of one kind, none missing: strings, as pandas holds them
    in a column of objects, or integers in a column of numbers. *)
Inductive label_kind := Strings | Integers.

Definition of_kind (k : label_kind) (v : cell) : bool :=
  match k with
  | Strings => model.is_str v
  | Integers => match v with CInt _ => true | _ => false end
  end.


(** A character that [_clean_column_names] leaves in a label: no space,
    no parenthesis, no ASCII capital. *)
Definition clean_char (a : Ascii.ascii) : bool :=
  negb (Ascii.eqb a " "%char) && negb (Ascii.eqb a "("%char)
  && negb (Ascii.eqb a ")"%char)
  && negb ((65 <=? Ascii.N_of_ascii a) && (Ascii.N_of_ascii a <=? 90))%N.

Definition clean_label (s : string) : Prop :=
  Forall (fun a => clean_char a = true) (String.list_ascii_of_string s).

(** * util/explore.py

    The plotting functions return nothing; what they do is draw and
    print.  They are embedded with the list of what has been drawn and
    printed so far as their state.  The statistical tests of the module
    call [util/stats_util.py] and are left out. *)

Module explore.

(** One call into seaborn or matplotlib, or one line printed. *)
Inductive output :=
| Printed (text : string)
| Histplot (data : list cell) (label color : option string)
| HistplotOf (data : DataFrame) (x : string)
| Title (text : string)
| Legend
| PltShow.

Definition emit (o : output) : stateful (list output) unit :=
  fun out => (Ok tt, out ++ [o]).

(** [series == value], elementwise. *)
Definition eq_mask (s : Series) (v : cell) : list bool :=
  map (fun x => py_eq x v) (s_values s).

(** [value <= bound] for a number; a missing value compares false, a
    string cannot be compared with a number. *)
Definition py_le (v : cell) (bound : Z) : result bool :=
  match v with
  | CInt z => Ok (bool_decide (z ≤ bound)%Z)
  | CFloat q => Ok (bool_decide (q ≤ Q2Qc (inject_Z bound))%Qc)
  | CNaN => Ok false
  | CStr _ => Err (OtherError "TypeError")
  end.

(** [series <= bound], elementwise. *)
Definition le_mask (s : Series) (bound : Z) : result (list bool) :=
  for_each (fun acc v => b ← py_le v bound; Ok (acc ++ [b])) [] (s_values s).

(** [mask.mean()]: the share of [True]; [nan] on an empty series. *)
Definition mean (mask : list bool) : model.score :=
  model.ratio (length (List.filter id mask)) (length mask) model.ScoreNaN.

Definition distribution_of_customer_churn (df : DataFrame)
    : stateful (list output) unit :=
  churn ← lift (getattr df "churn");
  _ ← emit (Histplot (s_values churn) None None);
  _ ← emit (Title "Customers that churn make up roughly a quarter of the customer population");
  emit PltShow.

(** The body shared, up to the column drawn and the title, by the three
    functions that set churned against not churned customers. *)
Definition churn_rate_versus (column title : string) (df : DataFrame)
    : stateful (list output) unit :=
  churn ← lift (getattr df "churn");
  let churned := select_rows (eq_mask churn (CStr "Yes")) df in
  churn ← lift (getattr df "churn");
  let not_churned := select_rows (eq_mask churn (CStr "No")) df in
  data ← lift (getattr not_churned column);
  _ ← emit (Histplot (s_values data) (Some "Not Churned") (Some "green"));
  data ← lift (getattr churned column);
  _ ← emit (Histplot (s_values data) (Some "Churned") (Some "red"));
  _ ← emit (Title title);
  _ ← emit Legend;
  emit PltShow.

Definition visualize_churn_rate_versus_contract_type : DataFrame -> stateful (list output) unit :=
  churn_rate_versus "contract_type"
    "Most customers that are churning are on the month-to-month contract".

Definition visualize_churn_rate_versus_tech_support : DataFrame -> stateful (list output) unit :=
  churn_rate_versus "tech_support"
    "Customers without tech support and higher monthly charges churn".

Definition visualize_churn_rate_versus_tenure : DataFrame -> stateful (list output) unit :=
  churn_rate_versus "tenure" "Most customers that are churning have low tenure".

Section WithFormat.

(** Python's format [:.2%] of a float. *)
Variable format_percent : model.score -> string.

Definition visualize_monthly_charges_versus_tenure (df : DataFrame)
    : stateful (list output) unit :=
  churn ← lift (getattr df "churn");
  let churn_customers := select_rows (eq_mask churn (CStr "Yes")) df in
  tenure ← lift (getattr churn_customers "tenure");
  mask ← lift (le_mask tenure 24);
  _ ← emit (Printed ("Tenure less than or equal to 24, percentage of churn pop.: "
                       +:+ format_percent (mean mask)));
  tenure ← lift (getattr churn_customers "tenure");
  mask ← lift (le_mask tenure 24);
  let data := select_rows mask churn_customers in
  _ ← (if bool_decide ("monthly_charges" ∈ column_names data)
       then emit (HistplotOf data "monthly_charges")
       else lift (Err (ValueError "Could not interpret value `monthly_charges` for `x`")));
  _ ← emit (Title "Customers with 2 years or less of tenure that have churned");
  emit PltShow.

End WithFormat.

End explore.

(** * More sample data *)

Module more_samples.

(** A dictionary with the keys of [create_models] in another order. *)
Definition models_reordered : list (string * model.entry unit) :=
  [("Decision Tree",
    model.Fitted (model.mkClassifier
                    (model.DecisionTreeClassifier (Some 5) (Some 24%Z)) tt));
   ("Baseline", model.PyNone);
   ("Random Forest",
    model.Fitted (model.mkClassifier
                    (model.RandomForestClassifier (Some 5) (Some 24%Z)) tt));
   ("K Nearest Neighbors",
    model.Fitted (model.mkClassifier (model.KNeighborsClassifier 10 model.uniform) tt))].

(** A stand-in for the percent format: the digits are not modelled. *)
Definition format_share (s : model.score) : string :=
  match s with
  | model.Score _ => "share"
  | model.ScoreNaN => "nan%"
  end.

End more_samples.
(** * Facts about tables *)

Section TableFacts.

Lemma mask_filter_length {A} (mask : list bool) (l : list A) :
  length (mask_filter mask l) ≤ length l.
Proof.
  revert l; induction mask as [|b mask IH]; intros [|x l]; simpl; try lia.
  specialize (IH l). destruct b; simpl; lia.
Qed.

Lemma select_rows_n_rows mask df : n_rows (select_rows mask df) ≤ n_rows df.
Proof. apply mask_filter_length. Qed.

Lemma select_rows_names mask df :
  column_names (select_rows mask df) = column_names df.
Proof.
  unfold column_names, select_rows; simpl.
  rewrite map_map. reflexivity.
Qed.

Lemma find_column_name name df c :
  find_column name df = Some c -> c_name c = name.
Proof.
  unfold find_column. intros H. apply find_some in H as [_ H].
  by apply bool_decide_eq_true in H.
Qed.

Lemma find_column_elem name df c :
  find_column name df = Some c -> name ∈ column_names df.
Proof.
  intros H. pose proof (find_column_name _ _ _ H) as <-.
  apply find_some in H as [H _]. apply list_elem_of_In in H.
  unfold column_names. by apply list_elem_of_fmap_2.
Qed.

Lemma set_column_names name d vs cs :
  name ∈ map c_name cs -> map c_name (set_column name d vs cs) = map c_name cs.
Proof.
  induction cs as [|c cs IH]; simpl; intros H.
  - by apply elem_of_nil in H.
  - case_bool_decide as Hn; simpl.
    + by rewrite Hn.
    + f_equal. apply IH. apply elem_of_cons in H as [H|H]; [congruence|done].
Qed.

Lemma find_set_column_eq name d vs cs :
  List.find (fun c => bool_decide (c_name c = name)) (set_column name d vs cs)
  = Some (mkColumn name d vs).
Proof.
  induction cs as [|c cs IH]; simpl.
  - by rewrite bool_decide_eq_true_2.
  - case_bool_decide as Hn; simpl.
    + by rewrite bool_decide_eq_true_2.
    + by rewrite bool_decide_eq_false_2.
Qed.

Lemma find_set_column_ne name name' d vs cs :
  name ≠ name' ->
  List.find (fun c => bool_decide (c_name c = name')) (set_column name d vs cs)
  = List.find (fun c => bool_decide (c_name c = name')) cs.
Proof.
  intros Hne. induction cs as [|c cs IH]; simpl.
  - by rewrite bool_decide_eq_false_2.
  - case_bool_decide as Hn; simpl.
    + rewrite !bool_decide_eq_false_2; congruence.
    + by rewrite IH.
Qed.

Lemma getitem_ok df name s :
  getitem df name = Ok s ->
  exists c, find_column name df = Some c /\ s = to_series df c.
Proof.
  unfold getitem. destruct (find_column name df) as [c|]; simpl; [|done].
  intros [= <-]. eauto.
Qed.

Lemma getattr_ok df name s :
  getattr df name = Ok s ->
  exists c, find_column name df = Some c /\ s = to_series df c.
Proof.
  unfold getattr. destruct (find_column name df) as [c|]; simpl; [|done].
  intros [= <-]. eauto.
Qed.

End TableFacts.

(** * util/prepare.py: the preparation pipeline *)

(** Case analysis on the first call of a sequence that returned [Ok]. *)
Ltac bind_ok H :=
  match type of H with
  | mbind _ ?m = Ok _ =>
      let E := fresh "E" in
      destruct m eqn:E; simpl in H; [|discriminate H]
  | match ?m with Ok _ => _ | Err _ => _ end = Ok _ =>
      let E := fresh "E" in
      destruct m eqn:E; simpl in H; [|discriminate H]
  end.

Section PrepareFacts.

Import prepare.

Variable float_of_str : string -> option cell.

Lemma filter_names (p : string -> bool) cs :
  map c_name (List.filter (fun c => p (c_name c)) cs)
  = List.filter p (map c_name cs).
Proof.
  induction cs as [|c cs IH]; simpl; [done|].
  destruct (p (c_name c)); simpl; by rewrite IH.
Qed.

Lemma drop_ok labels df df' :
  drop labels df = Ok df' ->
  index df' = index df /\
  column_names df' =
    List.filter (fun c => bool_decide (c ∉ labels)) (column_names df).
Proof.
  unfold drop. destruct (List.filter _ labels); [|done].
  intros [= <-]. split; [done|].
  unfold column_names; simpl.
  set (p := fun c : string => bool_decide (c ∉ labels)).
  exact (filter_names p (columns df)).
Qed.


Lemma setitem_names df name d vs :
  name ∈ column_names df ->
  column_names (setitem df name d vs) = column_names df.
Proof. intros H. unfold column_names, setitem; simpl. by apply set_column_names. Qed.

Lemma remove_missing_values_ok df df' :
  _remove_missing_values float_of_str df = Ok df' ->
  n_rows df' ≤ n_rows df /\ column_names df' = column_names df.
Proof.
  unfold _remove_missing_values. intros H.
  bind_ok H. bind_ok H. bind_ok H. injection H as <-.
  apply getattr_ok in E0 as (c & Hc & _).
  split.
  - apply select_rows_n_rows.
  - rewrite setitem_names; [apply select_rows_names|].
    by eapply find_column_elem.
Qed.

Lemma rename_names f df : column_names (rename f df) = map f (column_names df).
Proof. unfold column_names, rename; simpl. by rewrite !map_map. Qed.

Lemma rename_rename f g df : rename g (rename f df) = rename (fun s => g (f s)) df.
Proof. unfold rename; simpl. by rewrite map_map. Qed.

(** The two assignments of [_clean_column_names], taken together. *)
Lemma clean_column_names_run df :
  _clean_column_names df = (Ok (rename clean_name df), rename clean_name df).
Proof.
  unfold _clean_column_names, mbind, stateful_bind, get_state, put_state.
  by rewrite rename_rename.
Qed.

(** The namespace the module builds for itself does not bind [np]. *)
Lemma np_where_name_error : np_where = Err (NameError "np").
Proof. reflexivity. Qed.

Lemma combine_duplicate_values_name_error df :
  _combine_duplicate_values df = (Err (NameError "np"), df).
Proof. reflexivity. Qed.


End PrepareFacts.

(** C1 (the defect).  [util/prepare.py] never imports numpy, so in the
    namespace of the module the name [np] is unbound: the stage
    [_combine_duplicate_values] raises [NameError] on every table, before
    it has looked at a single column and with the table as it was, and
    [prep_telco_data], which runs the stage, returns no table at all. *)
Theorem combine_duplicate_values_raises_name_error :
  (forall df,
     prepare._combine_duplicate_values df = (Err (NameError "np"), df)) /\
  (forall float_of_str get_dummies df,
     is_ok (prepare.prep_telco_data float_of_str get_dummies df).1 = false) /\
  prepare._combine_duplicate_values samples.telco_sample
  = (Err (NameError "np"), samples.telco_sample).
Proof.
  split; [exact combine_duplicate_values_name_error|].
  split; [|apply combine_duplicate_values_name_error].
  intros fos gd df. unfold prepare.prep_telco_data. simpl.
  destruct (prepare._drop_useless_columns _) as [d1|]; simpl; [|done].
  destruct (prepare._remove_missing_values _ _) as [d2|]; simpl; [|done].
  by rewrite combine_duplicate_values_name_error.
Qed.


(** * util/prepare.py: split_data *)

Lemma take_cons {A} p ps (l : list A) :
  take (p :: ps) l
  = match l !! p with Some x => x :: take ps l | None => take ps l end.
Proof. reflexivity. Qed.

Section TakeFacts.

Context {A : Type}.
Implicit Types (l : list A) (ps qs : list nat).

Lemma take_lookup qs l i :
  Forall (fun q => q < length l) qs ->
  take qs l !! i = qs !! i ≫= (fun q => l !! q).
Proof.
  intros H. revert i.
  induction H as [|q qs Hq _ IH]; intros i; [done|].
  rewrite take_cons.
  destruct (lookup_lt_is_Some_2 l q Hq) as [x Hx]. rewrite Hx.
  destruct i as [|i]; simpl; [done|]. apply IH.
Qed.

Lemma take_length qs l :
  Forall (fun q => q < length l) qs -> length (take qs l) = length qs.
Proof.
  induction 1 as [|q qs Hq _ IH]; [done|].
  rewrite take_cons.
  destruct (lookup_lt_is_Some_2 l q Hq) as [x Hx]. rewrite Hx. simpl. by rewrite IH.
Qed.

Lemma take_take ps qs l :
  Forall (fun q => q < length l) qs ->
  take ps (take qs l) = take (take ps qs) l.
Proof.
  intros H. induction ps as [|p ps IH]; [done|].
  rewrite (take_cons p ps (take qs l)), (take_cons p ps qs).
  rewrite (take_lookup qs l p H).
  destruct (qs !! p) as [q|] eqn:Hq; simpl; [|exact IH].
  assert (q < length l) as Hlt.
  { eapply Forall_forall in H; [exact H|]. eapply list_elem_of_lookup_2, Hq. }
  destruct (lookup_lt_is_Some_2 l q Hlt) as [x Hx]. rewrite Hx.
  by rewrite IH.
Qed.

Lemma take_seq_app l1 l2 : take (seq (length l1) (length l2)) (l1 ++ l2) = l2.
Proof.
  revert l1. induction l2 as [|x l2 IH]; intros l1; [done|].
  cbn [length seq]. rewrite take_cons, list_lookup_middle by done. f_equal.
  specialize (IH (l1 ++ [x])). rewrite length_app in IH. simpl in IH.
  rewrite <- (assoc (++)) in IH. simpl in IH.
  replace (length l1 + 1) with (S (length l1)) in IH by lia. exact IH.
Qed.

Lemma take_seq l : take (seq 0 (length l)) l = l.
Proof. exact (take_seq_app [] l). Qed.

Lemma take_app ps qs l : take (ps ++ qs) l = take ps l ++ take qs l.
Proof. apply omap_app. Qed.

Lemma take_Permutation ps qs l : ps ≡ₚ qs -> take ps l ≡ₚ take qs l.
Proof. intros H. unfold take. by rewrite H. Qed.

End TakeFacts.

Lemma Permutation_seq_bound ps n :
  ps ≡ₚ seq 0 n -> Forall (fun p => p < n) ps.
Proof.
  intros H. apply Forall_forall. intros p Hp. rewrite H in Hp.
  apply elem_of_seq in Hp. lia.
Qed.

Lemma iloc_iloc ps qs df :
  well_formed df ->
  Forall (fun q => q < n_rows df) qs ->
  iloc ps (iloc qs df) = iloc (take ps qs) df.
Proof.
  intros Hwf Hq. unfold iloc; simpl. f_equal.
  - by apply take_take.
  - rewrite map_map. apply map_ext_in. intros c Hc. simpl. f_equal.
    apply take_take.
    unfold well_formed in Hwf. rewrite Forall_forall in Hwf.
    rewrite (Hwf c) by (by apply list_elem_of_In). exact Hq.
Qed.

Lemma iloc_n_rows ps df :
  Forall (fun p => p < n_rows df) ps -> n_rows (iloc ps df) = length ps.
Proof. intros H. unfold n_rows, iloc; simpl. by apply take_length. Qed.

Lemma n_test_of_fifth n :
  Z.of_nat (prepare.n_test_of prepare.test_split n)
  = ((Z.of_nat n + 4) / 5)%Z.
Proof.
  unfold prepare.n_test_of, prepare.test_split, Qceiling, Qfloor, Qopp, Qmult, inject_Z.
  cbn [Qnum Qden]. change (Z.pos (10 * 1)) with 10%Z.
  pose proof (Z.div_mod (- (2 * Z.of_nat n)) 10 ltac:(lia)).
  pose proof (Z.mod_pos_bound (- (2 * Z.of_nat n)) 10 ltac:(lia)).
  pose proof (Z.div_mod (Z.of_nat n + 4) 5 ltac:(lia)).
  pose proof (Z.mod_pos_bound (Z.of_nat n + 4) 5 ltac:(lia)).
  rewrite Z2Nat.id by lia. lia.
Qed.

Lemma n_test_of_three_tenths n :
  Z.of_nat (prepare.n_test_of prepare.train_validate_split n)
  = ((3 * Z.of_nat n + 9) / 10)%Z.
Proof.
  unfold prepare.n_test_of, prepare.train_validate_split, Qceiling, Qfloor, Qopp,
    Qmult, inject_Z.
  cbn [Qnum Qden]. change (Z.pos (10 * 1)) with 10%Z.
  pose proof (Z.div_mod (- (3 * Z.of_nat n)) 10 ltac:(lia)).
  pose proof (Z.mod_pos_bound (- (3 * Z.of_nat n)) 10 ltac:(lia)).
  pose proof (Z.div_mod (3 * Z.of_nat n + 9) 10 ltac:(lia)).
  pose proof (Z.mod_pos_bound (3 * Z.of_nat n + 9) 10 ltac:(lia)).
  rewrite Z2Nat.id by lia. lia.
Qed.

Section SplitFacts.

Variable rng : Type.
Variable RandomState : Z -> rng.
Variable stratified_shuffle_split :
  rng -> nat -> nat -> list cell -> result (list nat * list nat) * rng.

Local Abbreviation train_test_split :=
  (prepare.train_test_split rng RandomState stratified_shuffle_split).
Local Abbreviation split_data :=
  (prepare.split_data rng RandomState stratified_shuffle_split).

(** With an integer [random_state] the split does not read the generator
    of the process and leaves it as it was. *)
Lemma train_test_split_seeded df test_size seed col :
  exists res, forall g,
    train_test_split df test_size (Some seed) col g = (res, g).
Proof.
  unfold prepare.train_test_split. case_bool_decide.
  - eexists. intros g. reflexivity.
  - unfold mbind, stateful_bind, lift.
    destruct (stratified_shuffle_split _ _ _ _) as [[[tr te]|e] r];
      eexists; intros g; reflexivity.
Qed.

Lemma split_data_seeded df col seed :
  exists res, forall g, split_data df col seed g = (res, g).
Proof.
  unfold prepare.split_data, mbind, stateful_bind, lift.
  destruct (getitem df col) as [c|e]; [|by eexists].
  destruct (train_test_split_seeded df prepare.test_split seed c) as [res1 H1].
  destruct res1 as [[tv te]|e].
  - destruct (getitem tv col) as [c'|e] eqn:Hc'.
    + destruct (train_test_split_seeded tv prepare.train_validate_split seed c')
        as [res2 H2].
      destruct res2 as [[tr va]|e].
      * eexists. intros g. rewrite H1, Hc', H2. reflexivity.
      * eexists. intros g. rewrite H1, Hc', H2. reflexivity.
    + eexists. intros g. rewrite H1, Hc'. reflexivity.
  - eexists. intros g. rewrite H1. reflexivity.
Qed.

(** C8.  With the same table, stratify column and seed, [split_data]
    returns the same three tables, or raises the same error, whatever the
    state of the random generator of the process, which it leaves
    untouched: the seed alone drives both shuffles. *)
Theorem split_data_deterministic df col seed g1 g2 :
  fst (split_data df col seed g1) = fst (split_data df col seed g2) /\
  snd (split_data df col seed g1) = g1.
Proof.
  destruct (split_data_seeded df col seed) as [res H].
  by rewrite !H.
Qed.

(** The contract of the stratified shuffle split: the positions returned
    are the positions of the samples, each once, and the test positions
    are as many as asked for. *)
Hypothesis stratified_shuffle_split_partition :
  forall r n_samples n_test labels train test r',
    stratified_shuffle_split r n_samples n_test labels = (Ok (train, test), r') ->
    train ++ test ≡ₚ seq 0 n_samples /\ length test = n_test.

Lemma train_test_split_ok df test_size random_state col g train test g' :
  train_test_split df test_size random_state col g = (Ok (train, test), g') ->
  exists p_train p_test,
    p_train ++ p_test ≡ₚ seq 0 (n_rows df) /\
    length p_test = prepare.n_test_of test_size (n_rows df) /\
    train = iloc p_train df /\ test = iloc p_test df.
Proof.
  unfold prepare.train_test_split. case_bool_decide; [done|].
  unfold mbind, stateful_bind, lift, mret, stateful_ret.
  destruct random_state as [seed|].
  - destruct (stratified_shuffle_split _ _ _ _) as [[[tr te]|e] r] eqn:E;
      simpl; [|done].
    intros [= <- <- <-]. exists tr, te.
    destruct (stratified_shuffle_split_partition _ _ _ _ _ _ _ E). done.
  - destruct (stratified_shuffle_split _ _ _ _) as [[[tr te]|e] r] eqn:E;
      simpl; [|done].
    intros [= <- <- <-]. exists tr, te.
    destruct (stratified_shuffle_split_partition _ _ _ _ _ _ _ E). done.
Qed.

(** C2.  When [split_data] accepts a table and a stratify column, the
    three tables it returns are the rows of the input at three lists of
    positions that together hold every position of the input exactly once:
    the row sets are pairwise disjoint and their union is the input.  The
    test table has ceil(n/5) rows, the validate table ceil(3m/10) of the m
    remaining rows, the train table the rest, so the sizes are within two
    rows of 56%, 24% and 20% of the n input rows. *)
Theorem split_data_partition df col seed g train validate test :
  well_formed df ->
  fst (split_data df col seed g) = Ok (train, validate, test) ->
  exists p_train p_validate p_test,
    p_train ++ p_validate ++ p_test ≡ₚ seq 0 (n_rows df) /\
    NoDup (p_train ++ p_validate ++ p_test) /\
    train = iloc p_train df /\ validate = iloc p_validate df /\
    test = iloc p_test df /\
    n_rows train = length p_train /\ n_rows validate = length p_validate /\
    n_rows test = length p_test /\
    n_rows train + n_rows validate + n_rows test = n_rows df /\
    Z.of_nat (n_rows test) = ((Z.of_nat (n_rows df) + 4) / 5)%Z /\
    Z.of_nat (n_rows validate)
    = ((3 * Z.of_nat (n_rows df - n_rows test) + 9) / 10)%Z /\
    (n_rows df ≤ 5 * n_rows test < n_rows df + 5) /\
    (24 * n_rows df < 100 * n_rows validate + 30 /\
     100 * n_rows validate < 24 * n_rows df + 100) /\
    (56 * n_rows df < 100 * n_rows train + 170 /\
     100 * n_rows train ≤ 56 * n_rows df).
Proof.
  intros Hwf. unfold prepare.split_data, mbind, stateful_bind, lift, mret, stateful_ret.
  destruct (getitem df col) as [c|e]; [|done].
  destruct (train_test_split df _ (Some seed) c g) as [[[tv te]|e] r] eqn:E1;
    simpl; [|done].
  destruct (getitem tv col) as [c'|e]; [|done].
  destruct (train_test_split tv _ (Some seed) c' r) as [[[tr va]|e] r'] eqn:E2;
    simpl; [|done].
  intros [= <- <- <-].
  apply train_test_split_ok in E1 as (p_tv & p_te & Hp1 & Hl1 & -> & ->).
  apply train_test_split_ok in E2 as (p_tr & p_va & Hp2 & Hl2 & -> & ->).
  pose proof (Permutation_seq_bound _ _ Hp1) as Hb1.
  apply Forall_app in Hb1 as [Hb_tv Hb_te].
  rewrite (iloc_n_rows p_tv df Hb_tv) in Hp2, Hl2.
  pose proof (Permutation_seq_bound _ _ Hp2) as Hb2.
  apply Forall_app in Hb2 as [Hb_tr Hb_va].
  assert (take p_tr p_tv ++ take p_va p_tv ≡ₚ p_tv) as Hp3.
  { rewrite <- take_app, (take_Permutation _ _ p_tv Hp2). by rewrite take_seq. }
  assert (take p_tr p_tv ++ take p_va p_tv ++ p_te ≡ₚ seq 0 (n_rows df)) as Hp.
  { by rewrite (assoc (++)), Hp3. }
  exists (take p_tr p_tv), (take p_va p_tv), p_te.
  rewrite !(iloc_iloc _ p_tv df Hwf Hb_tv).
  assert (Forall (fun p => p < n_rows df) (take p_tr p_tv)) as Hb_tr'.
  { apply Permutation_seq_bound in Hp. by apply Forall_app in Hp as [? _]. }
  assert (Forall (fun p => p < n_rows df) (take p_va p_tv)) as Hb_va'.
  { apply Permutation_seq_bound in Hp.
    apply Forall_app in Hp as [_ Hp]. by apply Forall_app in Hp as [? _]. }
  rewrite !iloc_n_rows by done.
  rewrite !take_length by done.
  pose proof (Permutation_length Hp1) as Hn1.
  pose proof (Permutation_length Hp2) as Hn2.
  rewrite length_app, length_seq in Hn1, Hn2.
  pose proof (n_test_of_fifth (n_rows df)) as Ht.
  pose proof (n_test_of_three_tenths (length p_tv)) as Hv.
  rewrite <- Hl1 in Ht. rewrite <- Hl2 in Hv.
  pose proof (Z.div_mod (Z.of_nat (n_rows df) + 4) 5 ltac:(lia)).
  pose proof (Z.mod_pos_bound (Z.of_nat (n_rows df) + 4) 5 ltac:(lia)).
  pose proof (Z.div_mod (3 * Z.of_nat (length p_tv) + 9) 10 ltac:(lia)).
  pose proof (Z.mod_pos_bound (3 * Z.of_nat (length p_tv) + 9) 10 ltac:(lia)).
  replace (n_rows df - length p_te) with (length p_tv) by lia.
  split; [exact Hp|]. split.
  { rewrite Hp. apply NoDup_seq. }
  repeat split; try done; lia.
Qed.

End SplitFacts.

Lemma split_tail_partition r n_samples n_test labels train test r' :
  samples.split_tail r n_samples n_test labels = (Ok (train, test), r') ->
  train ++ test ≡ₚ seq 0 n_samples /\ length test = n_test.
Proof.
  unfold samples.split_tail. case_bool_decide as Hle; [|done].
  intros [= <- <- <-]. rewrite length_seq. split; [|done].
  rewrite <- seq_app. by replace (n_samples - n_test + n_test) with n_samples by lia.
Qed.

Lemma telco_sample_well_formed : well_formed samples.telco_sample.
Proof. repeat constructor. Qed.

(** The statement of C2 at the sample table, split on [churn] with seed 24
    by the splitter that puts the last rows in the test set: four rows
    give two train rows, one validate row and one test row. *)
Lemma split_data_partition_witness :
  exists train validate test,
    fst (prepare.split_data unit samples.seed_unit samples.split_tail
           samples.telco_sample "churn" 24 tt) = Ok (train, validate, test) /\
    (n_rows train, n_rows validate, n_rows test) = (2, 1, 1) /\
    exists p_train p_validate p_test,
      p_train ++ p_validate ++ p_test ≡ₚ seq 0 (n_rows samples.telco_sample) /\
      train = iloc p_train samples.telco_sample /\
      validate = iloc p_validate samples.telco_sample /\
      test = iloc p_test samples.telco_sample.
Proof.
  eexists _, _, _. split; [vm_compute; reflexivity|].
  split; [vm_compute; reflexivity|].
  destruct (split_data_partition unit samples.seed_unit samples.split_tail
              split_tail_partition samples.telco_sample "churn" 24 tt _ _ _
              telco_sample_well_formed ltac:(vm_compute; reflexivity))
    as (p_train & p_validate & p_test & Hp & _ & Htr & Hva & Hte & _).
  exists p_train, p_validate, p_test. repeat split; assumption.
Defined.

(** * util/acquire.py *)

Section AcquireFacts.

Import acquire.

Variables username password hostname : string.
Variable parse_csv : string -> result DataFrame.
Variable print_csv : DataFrame -> string.
Variable run_query : string -> string -> result DataFrame.

Local Abbreviation get_telco_data :=
  (acquire.get_telco_data username password hostname parse_csv print_csv run_query).

Lemma get_telco_data_hit contents w :
  files w !! _telco_file = Some contents ->
  get_telco_data true w
  = (parse_csv contents, mkWorld (files w) (trace w ++ [FileRead _telco_file])).
Proof.
  intros H. unfold acquire.get_telco_data, mbind, stateful_bind, path_exists, read_csv.
  rewrite H. rewrite bool_decide_eq_true_2 by eauto. simpl.
  rewrite H. by destruct (parse_csv contents).
Qed.

Lemma get_telco_data_miss use_cache w :
  use_cache = false \/ files w !! _telco_file = None ->
  get_telco_data use_cache w
  = let url := get_db_url _telco_db username password hostname in
    match run_query url _get_telco_sql with
    | Ok df =>
        (Ok df,
         mkWorld (<[_telco_file := print_csv df]> (files w))
           (trace w ++ [SqlQuery url _get_telco_sql;
                        FileWrite _telco_file (print_csv df)]))
    | Err e => (Err e, mkWorld (files w) (trace w ++ [SqlQuery url _get_telco_sql]))
    end.
Proof.
  intros H. unfold acquire.get_telco_data, mbind, stateful_bind, path_exists.
  assert (bool_decide (is_Some (files w !! _telco_file)) && use_cache = false) as ->.
  { destruct H as [-> | ->]; [apply andb_false_r|].
    rewrite bool_decide_eq_false_2; [done|]. by intros [? ?]. }
  unfold read_sql, to_csv, mret, stateful_ret. simpl.
  destruct (run_query _ _) as [df|e]; simpl; [|done].
  by rewrite <- (assoc (++)).
Qed.

End AcquireFacts.

Lemma get_telco_data_cases username password hostname parse_csv print_csv run_query
    use_cache w :
  let get_telco_data :=
    acquire.get_telco_data username password hostname parse_csv print_csv run_query in
  let url := acquire.get_db_url acquire._telco_db username password hostname in
  let sql := acquire._get_telco_sql in
  (exists contents,
     acquire.files w !! acquire._telco_file = Some contents /\ use_cache = true /\
     get_telco_data use_cache w
     = (parse_csv contents,
        acquire.mkWorld (acquire.files w)
          (acquire.trace w ++ [acquire.FileRead acquire._telco_file]))) \/
  (exists df,
     run_query url sql = Ok df /\
     get_telco_data use_cache w
     = (Ok df,
        acquire.mkWorld (<[acquire._telco_file := print_csv df]> (acquire.files w))
          (acquire.trace w ++
             [acquire.SqlQuery url sql;
              acquire.FileWrite acquire._telco_file (print_csv df)]))) \/
  (exists e,
     get_telco_data use_cache w
     = (Err e,
        acquire.mkWorld (acquire.files w)
          (acquire.trace w ++ [acquire.SqlQuery url sql]))).
Proof.
  intros get url sql.
  destruct (acquire.files w !! acquire._telco_file) as [contents|] eqn:Hfile.
  - destruct use_cache.
    + left. exists contents. split; [done|]. split; [done|].
      by apply get_telco_data_hit.
    + right. unfold get. rewrite get_telco_data_miss by (by left). simpl.
      fold url sql. destruct (run_query url sql) as [df|e] eqn:Hq.
      * left. by exists df.
      * right. by exists e.
  - right. unfold get. rewrite get_telco_data_miss by (by right). simpl.
    fold url sql. destruct (run_query url sql) as [df|e] eqn:Hq.
    + left. by exists df.
    + right. by exists e.
Qed.

(** C3.  With the cache file present and [use_cache] true,
    [get_telco_data] returns what the csv parser makes of the contents of
    the file, and all it does to the world is read that file: no query is
    sent.  With [use_cache] false or the file absent, it sends the fixed
    join query to the telco database; when the source answers with a
    table, it writes the table to the cache file, replacing what was
    there, and after that returns the same table; when the source fails,
    the error is raised and no file is touched. *)
Theorem get_telco_data_cache username password hostname parse_csv print_csv
    run_query use_cache w :
  let get_telco_data :=
    acquire.get_telco_data username password hostname parse_csv print_csv run_query in
  let url := acquire.get_db_url acquire._telco_db username password hostname in
  let sql := acquire._get_telco_sql in
  (forall contents,
     acquire.files w !! acquire._telco_file = Some contents ->
     use_cache = true ->
     get_telco_data use_cache w
     = (parse_csv contents,
        acquire.mkWorld (acquire.files w)
          (acquire.trace w ++ [acquire.FileRead acquire._telco_file]))) /\
  (use_cache = false \/ acquire.files w !! acquire._telco_file = None ->
   match run_query url sql with
   | Ok df =>
       get_telco_data use_cache w
       = (Ok df,
          acquire.mkWorld
            (<[acquire._telco_file := print_csv df]> (acquire.files w))
            (acquire.trace w ++
               [acquire.SqlQuery url sql;
                acquire.FileWrite acquire._telco_file (print_csv df)]))
   | Err e =>
       get_telco_data use_cache w
       = (Err e,
          acquire.mkWorld (acquire.files w)
            (acquire.trace w ++ [acquire.SqlQuery url sql]))
   end).
Proof.
  intros get url sql. split.
  - intros contents Hfile ->. by apply get_telco_data_hit.
  - intros H. unfold get. rewrite get_telco_data_miss by exact H.
    simpl. fold url sql. by destruct (run_query url sql).
Qed.

(** The two cases of C3 in a run: a first call in a directory without the
    cache file queries the source and leaves the file behind; a call in a
    directory with the file reads it back and sends no query. *)
Lemma get_telco_data_cache_witness :
  let get_telco_data :=
    acquire.get_telco_data "user" "secret" "db.example.org"
      samples.parse_sample samples.print_header samples.sample_source in
  let url := acquire.get_db_url acquire._telco_db "user" "secret" "db.example.org" in
  get_telco_data true samples.cold
  = (Ok samples.telco_sample,
     acquire.mkWorld
       {[ acquire._telco_file := samples.print_header samples.telco_sample ]}
       [acquire.SqlQuery url acquire._get_telco_sql;
        acquire.FileWrite acquire._telco_file
          (samples.print_header samples.telco_sample)]) /\
  get_telco_data true samples.warm
  = (Ok samples.telco_sample,
     acquire.mkWorld (acquire.files samples.warm)
       [acquire.FileRead acquire._telco_file]).
Proof.
  intros get url.
  destruct (get_telco_data_cache "user" "secret" "db.example.org"
              samples.parse_sample samples.print_header samples.sample_source
              true samples.cold) as [_ Hmiss].
  destruct (get_telco_data_cache "user" "secret" "db.example.org"
              samples.parse_sample samples.print_header samples.sample_source
              true samples.warm) as [Hhit _].
  split.
  - exact (Hmiss (or_intror eq_refl)).
  - exact (Hhit _ eq_refl eq_refl).
Defined.

(** * util/model.py: the baseline *)

Section SortFacts.

Context {A : Type} (leb : A -> A -> bool) (D : A -> Prop).
Hypothesis leb_total : forall a b, D a -> D b -> leb a b = true \/ leb b a = true.
Hypothesis leb_trans :
  forall a b c, D a -> D b -> D c -> leb a b = true -> leb b c = true -> leb a c = true.

Lemma insert_sorted_elem x l y :
  y ∈ insert_sorted leb x l <-> y = x \/ y ∈ l.
Proof.
  induction l as [|z l IH]; simpl.
  - rewrite elem_of_cons, elem_of_nil. tauto.
  - destruct (leb x z).
    + by rewrite elem_of_cons.
    + rewrite !elem_of_cons, IH. tauto.
Qed.

Lemma sort_by_elem l y : y ∈ sort_by leb l <-> y ∈ l.
Proof.
  unfold sort_by. induction l as [|x l IH]; simpl; [done|].
  by rewrite insert_sorted_elem, elem_of_cons, IH.
Qed.

Lemma sort_by_length l : length (sort_by leb l) = length l.
Proof.
  unfold sort_by. induction l as [|x l IH]; simpl; [done|].
  rewrite <- IH. generalize (foldr (insert_sorted leb) [] l). intros k.
  induction k as [|z k IHk]; simpl; [done|].
  destruct (leb x z); simpl; by rewrite ?IHk.
Qed.

Lemma insert_sorted_head_least x l :
  D x -> Forall D l -> head_least leb l -> head_least leb (insert_sorted leb x l).
Proof.
  intros Hx Hl Hleast. destruct l as [|z l]; simpl.
  - intros h [= <-] y Hy. apply list_elem_of_singleton in Hy as ->.
    by destruct (leb_total x x Hx Hx).
  - apply Forall_cons in Hl as [Hz Hl].
    destruct (leb x z) eqn:Hxz; intros h [= <-] y Hy.
    + apply elem_of_cons in Hy as [->|Hy].
      * by destruct (leb_total x x Hx Hx).
      * assert (D y) as Dy.
        { apply elem_of_cons in Hy as [->|Hy]; [done|].
          rewrite Forall_forall in Hl. by apply Hl. }
        apply (leb_trans x z y); [done|done|done|done|].
        by apply (Hleast z).
    + apply elem_of_cons in Hy as [->|Hy].
      * by destruct (leb_total z z Hz Hz).
      * apply insert_sorted_elem in Hy as [->|Hy].
        -- destruct (leb_total x z Hx Hz); [congruence|done].
        -- apply (Hleast z); [done|]. apply elem_of_cons. by right.
Qed.

Lemma sort_by_head_least l : Forall D l -> head_least leb (sort_by leb l).
Proof.
  unfold sort_by. induction 1 as [|x l Hx Hl IH]; simpl.
  - intros h [=].
  - apply insert_sorted_head_least; [done| |done].
    apply Forall_forall. intros y Hy.
    apply (proj1 (sort_by_elem l y)) in Hy.
    rewrite Forall_forall in Hl. by apply Hl.
Qed.

End SortFacts.

Lemma ascii_compare_N a b :
  Ascii.compare a b = (N_of_ascii a ?= N_of_ascii b)%N.
Proof. reflexivity. Qed.

Lemma string_compare_trans_le a :
  forall b c,
    String.compare a b <> Gt -> String.compare b c <> Gt -> String.compare a c <> Gt.
Proof.
  induction a as [|x a IH]; intros [|y b] [|z c]; simpl; try done.
  rewrite !ascii_compare_N.
  destruct (N.compare_spec (N_of_ascii x) (N_of_ascii y)) as [Exy|Lxy|Gxy];
    destruct (N.compare_spec (N_of_ascii y) (N_of_ascii z)) as [Eyz|Lyz|Gyz];
    try done; intros Hab Hbc.
  - rewrite Exy, Eyz, N.compare_refl. by apply (IH b c).
  - rewrite Exy. by apply N.compare_lt_iff in Lyz as ->.
  - assert (N_of_ascii x < N_of_ascii z)%N as Hlt by lia.
    by apply N.compare_lt_iff in Hlt as ->.
  - assert (N_of_ascii x < N_of_ascii z)%N as Hlt by lia.
    by apply N.compare_lt_iff in Hlt as ->.
Qed.

Lemma string_leb_trans a b c :
  String.leb a b = true -> String.leb b c = true -> String.leb a c = true.
Proof.
  unfold String.leb. intros Hab Hbc.
  pose proof (string_compare_trans_le a b c) as H.
  destruct (String.compare a b), (String.compare b c), (String.compare a c);
    try done; exfalso; by apply H.
Qed.

Section ModeFacts.

Import model.

Lemma elem_of_bool_filter {A} (p : A -> bool) l x :
  x ∈ List.filter p l <-> x ∈ l /\ p x = true.
Proof. rewrite !list_elem_of_In. apply filter_In. Qed.

Lemma elem_of_unique x l : x ∈ unique l <-> x ∈ l.
Proof.
  induction l as [|y l IH]; simpl; [done|].
  rewrite !elem_of_cons, elem_of_bool_filter, IH, bool_decide_eq_true.
  destruct (decide (x = y)); tauto.
Qed.



Lemma occurrences_present v vs :
  v ≠ CNaN ->
  occurrences v (List.filter (fun x => bool_decide (x ≠ CNaN)) vs) = occurrences v vs.
Proof.
  intros Hv. unfold occurrences. induction vs as [|x vs IH]; simpl; [done|].
  case_bool_decide as Hx; simpl.
  - case_bool_decide; simpl; by rewrite IH.
  - subst x.
    rewrite bool_decide_eq_false_2 by congruence. exact IH.
Qed.

Lemma occurrences_elem v vs : v ∈ vs <-> 0 < occurrences v vs.
Proof.
  unfold occurrences. induction vs as [|x vs IH]; simpl.
  - rewrite elem_of_nil. lia.
  - rewrite elem_of_cons. case_bool_decide; simpl.
    + split; [lia|]. intros _. left. congruence.
    + rewrite <- IH. split; [intros [?|?]; [congruence|done]|tauto].
Qed.

Lemma foldr_max_ge {A} (f : A -> nat) l x :
  x ∈ l -> f x ≤ foldr Nat.max 0 (map f l).
Proof.
  induction l as [|y l IH]; simpl; intros H.
  - by apply elem_of_nil in H.
  - apply elem_of_cons in H as [->|H]; [lia|]. specialize (IH H). lia.
Qed.

Lemma foldr_max_attained {A} (f : A -> nat) l :
  l ≠ [] -> exists x, x ∈ l /\ f x = foldr Nat.max 0 (map f l).
Proof.
  induction l as [|y l IH]; [done|]. intros _. simpl.
  destruct l as [|z l].
  - exists y. split; [apply elem_of_cons; by left|simpl; lia].
  - destruct (IH ltac:(done)) as (x & Hx & Hfx).
    destruct (Nat.max_spec (f y) (foldr Nat.max 0 (map f (z :: l)))) as [[_ ->]|[_ ->]].
    + exists x. split; [apply elem_of_cons; by right|done].
    + exists y. split; [apply elem_of_cons; by left|done].
Qed.

Lemma cell_leb_str_total a b :
  is_str a = true -> is_str b = true ->
  cell_leb a b = true \/ cell_leb b a = true.
Proof. destruct a, b; try done. intros _ _. apply String.leb_total. Qed.

Lemma cell_leb_str_trans a b c :
  is_str a = true -> is_str b = true -> is_str c = true ->
  cell_leb a b = true -> cell_leb b c = true -> cell_leb a c = true.
Proof. destruct a, b, c; try done. intros _ _ _. apply string_leb_trans. Qed.

Lemma cell_leb_num a b x y :
  numeric_value a = Some x -> numeric_value b = Some y ->
  cell_leb a b = bool_decide (x ≤ y)%Qc.
Proof. destruct a, b; simpl; try done; by intros [= <-] [= <-]. Qed.

Lemma cell_leb_num_total a b :
  is_number a = true -> is_number b = true ->
  cell_leb a b = true \/ cell_leb b a = true.
Proof.
  unfold is_number. rewrite !bool_decide_eq_true. intros [x Hx] [y Hy].
  rewrite (cell_leb_num a b x y Hx Hy), (cell_leb_num b a y x Hy Hx).
  rewrite !bool_decide_eq_true.
  destruct (Qclt_le_dec x y) as [H|H]; [left; by apply Qclt_le_weak|by right].
Qed.

Lemma cell_leb_num_trans a b c :
  is_number a = true -> is_number b = true -> is_number c = true ->
  cell_leb a b = true -> cell_leb b c = true -> cell_leb a c = true.
Proof.
  unfold is_number. rewrite !bool_decide_eq_true. intros [x Hx] [y Hy] [z Hz].
  rewrite (cell_leb_num a b x y Hx Hy), (cell_leb_num b c y z Hy Hz),
    (cell_leb_num a c x z Hx Hz).
  rewrite !bool_decide_eq_true. apply Qcle_trans.
Qed.

(** The head of a sortable list, once sorted, is least in it. *)
Lemma sort_cells_head_least l h w :
  sortable l = true -> head (sort_by cell_leb l) = Some h -> w ∈ l ->
  cell_leb h w = true.
Proof.
  unfold sortable. intros Hs Hh Hw.
  apply orb_true_iff in Hs as [Hs|Hs]; rewrite forallb_forall in Hs.
  - apply (sort_by_head_least cell_leb (fun v => is_str v = true)
             cell_leb_str_total cell_leb_str_trans l) with (h := h); [|done|].
    + apply Forall_forall. intros y Hy. by apply Hs, list_elem_of_In.
    + by apply sort_by_elem.
  - apply (sort_by_head_least cell_leb (fun v => is_number v = true)
             cell_leb_num_total cell_leb_num_trans l) with (h := h); [|done|].
    + apply Forall_forall. intros y Hy. by apply Hs, list_elem_of_In.
    + by apply sort_by_elem.
Qed.

(** What [Series.mode] puts first. *)
Lemma mode_head vs :
  (exists x, x ∈ vs /\ x ≠ CNaN) ->
  exists v,
    head (mode vs) = Some v /\ v ∈ vs /\ v ≠ CNaN /\
    (forall w, w ≠ CNaN -> occurrences w vs ≤ occurrences v vs) /\
    (forall ties,
       (forall w, w ∈ ties <->
                  w ∈ vs /\ w ≠ CNaN /\ occurrences w vs = occurrences v vs) ->
       sortable ties = true ->
       forall w, w ∈ ties -> cell_leb v w = true).
Proof.
  intros (x0 & Hx0 & Hx0n). unfold mode.
  set (present := List.filter (fun v => bool_decide (v ≠ CNaN)) vs).
  set (count := fun v => occurrences v present).
  set (best := foldr Nat.max 0 (map count (unique present))).
  set (modes := List.filter (fun v => bool_decide (count v = best)) (unique present)).
  assert (forall w, w ∈ present <-> w ∈ vs /\ w ≠ CNaN) as Hpresent.
  { intros w. unfold present. by rewrite elem_of_bool_filter, bool_decide_eq_true. }
  assert (forall w, w ≠ CNaN -> count w = occurrences w vs) as Hcount.
  { intros w Hw. by apply occurrences_present. }
  assert (forall w, w ∈ modes <-> w ∈ vs /\ w ≠ CNaN /\ count w = best) as Hmodes.
  { intros w. unfold modes.
    rewrite elem_of_bool_filter, elem_of_unique, Hpresent, bool_decide_eq_true. tauto. }
  assert (forall w, w ≠ CNaN -> count w ≤ best) as Hbest.
  { intros w Hw. destruct (decide (w ∈ vs)) as [Hin|Hout].
    - apply (foldr_max_ge count). apply elem_of_unique, Hpresent. done.
    - rewrite Hcount by done.
      assert (~ 0 < occurrences w vs) by (by rewrite <- occurrences_elem). lia. }
  assert (unique present ≠ []) as Hne.
  { intros Hnil. assert (x0 ∈ unique present) as Hin by (by apply elem_of_unique, Hpresent).
    rewrite Hnil in Hin. by apply elem_of_nil in Hin. }
  destruct (foldr_max_attained count _ Hne) as (m & Hm & Hmbest). fold best in Hmbest.
  assert (m ∈ modes) as Hmmodes.
  { apply Hmodes. apply elem_of_unique, Hpresent in Hm. tauto. }
  assert (exists v, head (if sortable modes then sort_by cell_leb modes else modes) = Some v)
    as [v Hv].
  { destruct (sortable modes).
    - destruct (sort_by cell_leb modes) as [|v ?] eqn:Hsort; [|by eexists].
      apply (f_equal length) in Hsort. rewrite sort_by_length in Hsort.
      destruct modes; [by apply elem_of_nil in Hmmodes|done].
    - destruct modes as [|v ?]; [by apply elem_of_nil in Hmmodes|by eexists]. }
  exists v. split; [exact Hv|].
  assert (v ∈ modes) as Hvmodes.
  { destruct (sortable modes).
    - apply (sort_by_elem cell_leb). by apply head_Some_elem_of.
    - by apply head_Some_elem_of. }
  apply Hmodes in Hvmodes as (Hvin & Hvn & Hvbest).
  split; [done|]. split; [done|]. split.
  - intros w Hw. rewrite <- !Hcount by done. rewrite Hvbest. by apply Hbest.
  - intros ties Hties Hsortable w Hw.
    assert (forall u, u ∈ ties <-> u ∈ modes) as Hsame.
    { intros u. rewrite Hties, Hmodes. split.
      - intros (? & ? & Hocc). split; [done|]. split; [done|].
        rewrite (Hcount u) by done. rewrite Hocc.
        rewrite <- (Hcount v) by done. exact Hvbest.
      - intros (? & ? & Hocc). split; [done|]. split; [done|].
        rewrite <- (Hcount u), <- (Hcount v) by done. by rewrite Hocc, Hvbest. }
    assert (sortable modes = true) as Hsm.
    { unfold sortable in *. apply orb_true_iff in Hsortable.
      apply orb_true_iff. destruct Hsortable as [H|H]; [left|right];
        rewrite forallb_forall in *; intros u Hu;
        apply H, list_elem_of_In, Hsame, list_elem_of_In, Hu. }
    rewrite Hsm in Hv.
    apply (sort_cells_head_least modes v w Hsm Hv). by apply Hsame.
Qed.

End ModeFacts.

Lemma lookup_label_head vs :
  model.lookup_label 0 (RangeIndex (length vs)) vs = head vs.
Proof. by destruct vs. Qed.

Lemma create_baseline_model_head column :
  model.create_baseline_model column
  = match head (model.mode (s_values column)) with
    | Some v => Ok (model.pd_Series (repeat v (model.size column)))
    | None => Err (KeyError "0")
    end.
Proof.
  unfold model.create_baseline_model, model.series_getitem, model.Series_mode.
  simpl. rewrite lookup_label_head. by destruct (head _).
Qed.

(** C4 (as amended).  On a column with at least one value that is not
    missing, [create_baseline_model] returns a constant series as long as
    the column; its value occurs in the column, is not missing, and no
    other value that is not missing occurs more often; when the equally
    frequent values are all strings, or all numbers, it is the least of
    them in their order (alphabetical, numerical). *)
Theorem create_baseline_model_most_frequent column :
  (exists x, x ∈ s_values column /\ x ≠ CNaN) ->
  exists v,
    model.create_baseline_model column
    = Ok (model.pd_Series (repeat v (model.size column))) /\
    length (repeat v (model.size column)) = length (s_values column) /\
    v ∈ s_values column /\ v ≠ CNaN /\
    (forall w, w ≠ CNaN ->
       model.occurrences w (s_values column)
       ≤ model.occurrences v (s_values column)) /\
    let tied w :=
      w ∈ s_values column /\ w ≠ CNaN /\
      model.occurrences w (s_values column) = model.occurrences v (s_values column) in
    ((forall w, tied w -> model.is_str w = true) \/
     (forall w, tied w -> model.is_number w = true)) ->
    forall w, tied w -> model.cell_leb v w = true.
Proof.
  intros Hne. destruct (mode_head (s_values column) Hne)
    as (v & Hhead & Hin & Hnan & Hmost & Hleast).
  exists v. rewrite create_baseline_model_head, Hhead.
  split; [done|]. split; [apply repeat_length|].
  split; [done|]. split; [done|]. split; [done|].
  intros tied Hkind w Hw.
  set (ties := List.filter
         (fun w => bool_decide
            (w ≠ CNaN /\
             model.occurrences w (s_values column)
             = model.occurrences v (s_values column)))
         (s_values column)).
  assert (forall u, u ∈ ties <-> tied u) as Hties.
  { intros u. unfold ties, tied.
    rewrite elem_of_bool_filter, bool_decide_eq_true. tauto. }
  apply (Hleast ties).
  - intros u. rewrite Hties. done.
  - unfold model.sortable. apply orb_true_iff.
    destruct Hkind as [H|H]; [left|right]; apply forallb_forall; intros u Hu;
      apply H, Hties, list_elem_of_In, Hu.
  - by apply Hties.
Qed.

(** The amended statement at a column where "No" is the more frequent
    value. *)
Lemma create_baseline_model_most_frequent_witness :
  exists v,
    model.create_baseline_model samples.churn_after_split
    = Ok (model.pd_Series (repeat v 3)) /\
    v ∈ s_values samples.churn_after_split /\
    model.occurrences (CStr "Yes") (s_values samples.churn_after_split)
    ≤ model.occurrences v (s_values samples.churn_after_split).
Proof.
  destruct (create_baseline_model_most_frequent samples.churn_after_split)
    as (v & Hres & _ & Hin & _ & Hmost & _).
  - exists (CStr "No"). split; [|done]. apply (bool_decide_unpack _). vm_compute. exact I.
  - exists v. split; [exact Hres|]. split; [exact Hin|]. by apply Hmost.
Defined.

(** C4 (as stated) fails on a tie: in the two-row column "Yes", "No" both
    values occur once and "Yes" is encountered first, but the series
    returned repeats "No", the first of the two in sorted order. *)
Lemma create_baseline_model_tie_not_first_encountered :
  ~ (forall column,
       s_values column ≠ [] ->
       exists v,
         spec.first_encountered_most_frequent (s_values column) = Some v /\
         model.create_baseline_model column
         = Ok (model.pd_Series (repeat v (model.size column)))).
Proof.
  intros H. destruct (H samples.churn_tie ltac:(done)) as (v & Hv & Hres).
  vm_compute in Hv. injection Hv as <-.
  vm_compute in Hres. discriminate Hres.
Qed.

(** A column of missing values only has no mode: [mode()[0]] raises. *)
Example create_baseline_model_all_missing :
  model.create_baseline_model (mkSeries [0; 1]%Z float64 [CNaN; CNaN])
  = Err (KeyError "0").
Proof. reflexivity. Qed.

(** Values that cannot be compared are left in the order of their first
    occurrence. *)
Example create_baseline_model_mixed_tie :
  model.create_baseline_model (mkSeries [0; 1]%Z object [CStr "b"; CInt 1])
  = Ok (model.pd_Series [CStr "b"; CStr "b"]).
Proof. reflexivity. Qed.

(** C10.  The series returned by [create_baseline_model] is indexed
    [0..n-1], with [n] the size of the column, and it is the same series
    whatever the row labels of the column: the labels of the input do not
    reach the output. *)
Theorem create_baseline_model_fresh_index column s :
  model.create_baseline_model column = Ok s ->
  s_index s = RangeIndex (model.size column) /\
  forall idx,
    model.create_baseline_model (mkSeries idx (s_dtype column) (s_values column))
    = Ok s.
Proof.
  rewrite create_baseline_model_head. intros H. split.
  - destruct (head _) as [v|]; [|done]. injection H as <-. simpl.
    by rewrite repeat_length.
  - intros idx. by rewrite create_baseline_model_head.
Qed.

(** C10 at a column that kept the row labels 7, 3, 5 of a split: the
    baseline is labelled 0, 1, 2, so that pandas would align none of its
    rows with the rows of the column. *)
Lemma create_baseline_model_fresh_index_witness :
  exists s,
    model.create_baseline_model samples.churn_after_split = Ok s /\
    s_index s = [0; 1; 2]%Z /\
    s_index samples.churn_after_split = [7; 3; 5]%Z /\
    model.create_baseline_model
      (mkSeries [0; 1; 2]%Z object (s_values samples.churn_after_split)) = Ok s.
Proof.
  eexists. split; [vm_compute; reflexivity|].
  split; [reflexivity|]. split; [reflexivity|].
  refine (proj2 (create_baseline_model_fresh_index samples.churn_after_split _ _) _).
  vm_compute. reflexivity.
Defined.

(** * util/model.py: the scores *)

Section ScoreFacts.

Import model.

Variable encode : cell -> cell -> result unit.

Lemma ratio_same n z : n ≠ 0 -> ratio n n z = Score 1.
Proof.
  intros Hn. unfold ratio. rewrite bool_decide_eq_false_2 by done. f_equal.
  apply Qc_is_canon. simpl. rewrite Qred_correct. unfold Qeq. simpl. lia.
Qed.

Lemma ratio_zero d : ratio 0 d (Score 0) = Score 0.
Proof.
  unfold ratio. case_bool_decide; [done|]. f_equal.
  apply Qc_is_canon. simpl. rewrite Qred_correct. done.
Qed.

Lemma of_kind_same_label k a b :
  of_kind k a = true -> of_kind k b = true ->
  same_label a b = bool_decide (a = b).
Proof.
  unfold same_label.
  destruct k, a, b; simpl; try done; intros _ _; apply bool_decide_ext;
    split; congruence.
Qed.




Lemma count_label_occurrences k v l :
  of_kind k v = true -> Forall (fun x => of_kind k x = true) l ->
  count_label v l = occurrences v l.
Proof.
  intros Hv. unfold count_label, occurrences.
  induction 1 as [|x l Hx _ IH]; simpl; [done|].
  rewrite (of_kind_same_label k) by done. case_bool_decide; simpl; by rewrite IH.
Qed.






Lemma existsb_false {A} (p : A -> bool) l :
  (forall x, x ∈ l -> p x = false) -> existsb p l = false.
Proof.
  intros H. apply not_true_is_false. intros Hex.
  apply existsb_exists in Hex as (x & Hx & Hp).
  apply list_elem_of_In, H in Hx. congruence.
Qed.






End ScoreFacts.




(** With three labels the binary precision is refused, perfect
    predictions or not. *)
Example measure_model_performance_multiclass :
  model.measure_model_performance samples.refuse_foreign_label
    (mkSeries [0; 1; 2]%Z object [CStr "a"; CStr "b"; CStr "c"])
    [[CStr "a"; CStr "b"; CStr "c"]] (CStr "a") None
  = Err (ValueError "Target is multiclass but average='binary'").
Proof. reflexivity. Qed.

(** * util/model.py: the classifiers *)

(** C6 (as amended).  The dictionary [create_models] returns holds, in
    this order, the placeholder for the baseline and three fitted
    classifiers: a decision tree of maximal depth 5, a random forest of
    maximal depth 5, both seeded with [random_seed], and a
    k-nearest-neighbours classifier with 10 neighbours and uniform
    weights. *)
Theorem create_models_hyperparameters learned fit df random_seed models :
  model.create_models learned fit df random_seed = Ok models ->
  exists s1 s2 s3,
    models =
      [("Baseline", model.PyNone);
       ("Decision Tree",
        model.Fitted (model.mkClassifier
          (model.DecisionTreeClassifier (Some 5) (Some random_seed)) s1));
       ("Random Forest",
        model.Fitted (model.mkClassifier
          (model.RandomForestClassifier (Some 5) (Some random_seed)) s2));
       ("K Nearest Neighbors",
        model.Fitted (model.mkClassifier
          (model.KNeighborsClassifier 10 model.uniform) s3))].
Proof.
  unfold model.create_models, model.fitted. intros H.
  bind_ok H. destruct a as [X y].
  destruct (fit (model.DecisionTreeClassifier _ _) X y) as [s1|]; simpl in H; [|done].
  destruct (fit (model.RandomForestClassifier _ _) X y) as [s2|]; simpl in H; [|done].
  destruct (fit (model.KNeighborsClassifier _ _) X y) as [s3|]; simpl in H; [|done].
  injection H as <-. by exists s1, s2, s3.
Qed.

(** The amended statement on the prepared sample, with seed 24. *)
Lemma create_models_hyperparameters_witness :
  exists s1 s2 s3,
    samples.models_24 =
      [("Baseline", model.PyNone);
       ("Decision Tree",
        model.Fitted (model.mkClassifier
          (model.DecisionTreeClassifier (Some 5) (Some 24%Z)) s1));
       ("Random Forest",
        model.Fitted (model.mkClassifier
          (model.RandomForestClassifier (Some 5) (Some 24%Z)) s2));
       ("K Nearest Neighbors",
        model.Fitted (model.mkClassifier
          (model.KNeighborsClassifier 10 model.uniform) s3))].
Proof.
  apply (create_models_hyperparameters unit samples.fit_nothing samples.prepared 24).
  vm_compute. reflexivity.
Defined.

(** C6 (as stated) fails: the k-nearest-neighbours classifier that
    [create_models] builds weighs its neighbours uniformly, not by
    distance. *)
Lemma create_models_knn_not_distance_weighted :
  ~ (forall learned fit df random_seed models,
       model.create_models learned fit df random_seed = Ok models ->
       exists s3,
         model.dict_lookup "K Nearest Neighbors" models
         = Some (model.Fitted (model.mkClassifier
                   (model.KNeighborsClassifier 10 model.distance) s3))).
Proof.
  intros H.
  destruct (H unit samples.fit_nothing samples.prepared 24%Z samples.models_24)
    as [s3 Hs3]; [vm_compute; reflexivity|].
  vm_compute in Hs3. discriminate Hs3.
Qed.

(** * util/model.py: what the functions change *)

Section MutationFacts.

Import model.

Variable encode : cell -> cell -> result unit.

Variable learned : Type.
Variable predict : estimator -> learned -> DataFrame -> result (list cell).
Variable predict_proba : estimator -> learned -> DataFrame -> result (list (list Qc)).
Variable print_csv : DataFrame -> string.


Lemma dict_lookup_set_eq {V} k (v : V) d : dict_lookup k (dict_set k v d) = Some v.
Proof.
  induction d as [|[k' v'] d IH]; simpl.
  - by rewrite bool_decide_eq_true_2.
  - case_bool_decide as Hk; simpl.
    + by rewrite bool_decide_eq_true_2.
    + by rewrite bool_decide_eq_false_2.
Qed.


Lemma write_predictions_to_file_env y prob pred env res env' :
  write_predictions_to_file print_csv y prob pred env = (res, env') ->
  (env' = env /\ is_ok res = false) \/
  (customers env'
   = setitem (customers env) "index" int64 (map CInt (index (customers env))) /\
   ((files env' = files env /\ is_ok res = false) \/
    (exists predictions,
       files env' = <["predictions.csv" := print_csv predictions]> (files env) /\
       res = Ok tt))).
Proof.
  unfold write_predictions_to_file, mbind, stateful_bind, lift, get_state,
    set_index_column, to_csv.
  destruct (second_column prob) as [probability|]; [|intros [= <- <-]; by left].
  destruct (predictions_frame _ _ _) as [frame|]; [|intros [= <- <-]; by left].
  simpl. destruct (merge_on_index _ frame) as [merged|]; intros [= <- <-]; right.
  - split; [done|]. right. by exists merged.
  - split; [done|]. by left.
Qed.

Lemma make_predictions_on_test_env df model_ env res env' :
  make_predictions_on_test encode learned predict predict_proba print_csv df model_ env
  = (res, env') ->
  (env' = env /\ is_ok res = false) \/
  (customers env'
   = setitem (customers env) "index" int64 (map CInt (index (customers env))) /\
   ((files env' = files env /\ is_ok res = false) \/
    (exists predictions,
       files env' = <["predictions.csv" := print_csv predictions]> (files env) /\
       is_ok res = true))).
Proof.
  unfold make_predictions_on_test, mbind, stateful_bind, lift, mret, stateful_ret.
  destruct (split_into_X_and_y df) as [[X y]|]; [|intros [= <- <-]; by left].
  destruct (model_predict learned predict model_ X) as [pred|];
    [|intros [= <- <-]; by left].
  destruct (measure_model_performance encode _ _ _ _) as [metrics|];
    [|intros [= <- <-]; by left].
  destruct (model_predict_proba learned predict_proba model_ X) as [prob|];
    [|intros [= <- <-]; by left].
  destruct (write_predictions_to_file print_csv y prob pred env) as [r e] eqn:Hw.
  apply write_predictions_to_file_env in Hw.
  destruct r as [[]|err]; intros [= <- <-].
  - destruct Hw as [[_ Hw]|[Hc [[_ Hw]|(p & Hf & _)]]]; try done.
    right. split; [done|]. right. by exists p.
  - destruct Hw as [[-> _]|[Hc [[Hf _]|(p & _ & Hw)]]]; try done.
    + by left.
    + right. split; [done|]. by left.
Qed.

End MutationFacts.




(** * Further properties of util/prepare.py *)

Lemma find_filter_implied {A} (p q : A -> bool) l :
  (forall x, p x = true -> q x = true) ->
  List.find p (List.filter q l) = List.find p l.
Proof.
  intros Hpq. induction l as [|x l IH]; simpl; [done|].
  destruct (q x) eqn:Hq; simpl.
  - destruct (p x); [done|exact IH].
  - destruct (p x) eqn:Hp; [|exact IH]. apply Hpq in Hp. congruence.
Qed.

(** X1.  [_drop_useless_columns] needs all four identifier columns: when
    one is missing it raises [KeyError] with a missing label.  Otherwise
    the output has the row labels of the input and its other columns, in
    their order and unchanged, and no column under one of the four
    labels. *)
Theorem drop_useless_columns_result df :
  match prepare._drop_useless_columns df with
  | Ok out =>
      (forall c, c ∈ prepare.cols_to_drop -> c ∈ column_names df) /\
      index out = index df /\
      column_names out
      = List.filter (fun c => bool_decide (c ∉ prepare.cols_to_drop)) (column_names df) /\
      (forall c, c ∈ prepare.cols_to_drop -> c ∉ column_names out) /\
      (forall name, name ∉ prepare.cols_to_drop ->
         find_column name out = find_column name df)
  | Err e =>
      exists c, e = KeyError c /\ c ∈ prepare.cols_to_drop /\ c ∉ column_names df
  end.
Proof.
  destruct (prepare._drop_useless_columns df) as [out|e] eqn:H.
  - pose proof (drop_ok _ _ _ H) as [Hi Hn].
    unfold prepare._drop_useless_columns, prepare.drop in H.
    destruct (List.filter _ prepare.cols_to_drop) as [|m ms] eqn:Hf; [|done].
    injection H as <-. split; [|split; [done|split; [done|split]]].
    + intros c Hc. destruct (decide (c ∈ column_names df)) as [|Hout]; [done|].
      assert (c ∈ List.filter
                (fun l => bool_decide (l ∉ column_names df)) prepare.cols_to_drop) as Hin.
      { apply elem_of_bool_filter. split; [done|]. by apply bool_decide_eq_true. }
      rewrite Hf in Hin. by apply elem_of_nil in Hin.
    + intros c Hc Hin. rewrite Hn in Hin.
      apply elem_of_bool_filter in Hin as [_ Hin].
      by apply bool_decide_eq_true in Hin.
    + intros name Hname. unfold find_column. simpl.
      apply find_filter_implied. intros c Hc.
      apply bool_decide_eq_true in Hc. apply bool_decide_eq_true. by rewrite Hc.
  - unfold prepare._drop_useless_columns, prepare.drop in H.
    destruct (List.filter _ prepare.cols_to_drop) as [|m ms] eqn:Hf; [done|].
    injection H as <-. exists m. split; [done|].
    assert (m ∈ List.filter
              (fun l => bool_decide (l ∉ column_names df)) prepare.cols_to_drop) as Hin.
    { rewrite Hf. apply elem_of_cons. by left. }
    apply elem_of_bool_filter in Hin as [Hin Hout].
    by apply bool_decide_eq_true in Hout.
Qed.

Lemma mask_filter_map {A} (f : A -> bool) l :
  mask_filter (map f l) l = List.filter f l.
Proof.
  induction l as [|x l IH]; simpl; [done|].
  destruct (f x); by rewrite IH.
Qed.

Lemma mask_filter_length_eq {A B} mask (l1 : list A) (l2 : list B) :
  length l1 = length l2 ->
  length (mask_filter mask l1) = length (mask_filter mask l2).
Proof.
  revert l1 l2. induction mask as [|b mask IH]; intros [|x l1] [|y l2]; simpl;
    try done.
  intros [= H]. destruct b; simpl; by rewrite (IH l1 l2 H).
Qed.

Lemma find_column_select_rows name mask df :
  find_column name (select_rows mask df)
  = (fun c => mkColumn (c_name c) (c_dtype c) (mask_filter mask (c_values c)))
      <$> find_column name df.
Proof.
  unfold find_column, select_rows. simpl.
  induction (columns df) as [|c cs IH]; simpl; [done|].
  destruct (bool_decide (c_name c = name)); [done|exact IH].
Qed.

Lemma select_rows_well_formed mask df :
  well_formed df -> well_formed (select_rows mask df).
Proof.
  unfold well_formed, select_rows, n_rows. simpl. intros H.
  apply Forall_fmap. eapply Forall_impl; [exact H|].
  intros c Hc. simpl. by apply mask_filter_length_eq.
Qed.

(** Collecting the results of a function that may raise, one element at
    a time. *)
Lemma for_each_collect {A B} (f : A -> result B) l :
  forall acc out,
    for_each (fun acc x => y ← f x; Ok (acc ++ [y])) acc l = Ok out ->
    exists ys, out = acc ++ ys /\ Forall2 (fun x y => f x = Ok y) l ys.
Proof.
  induction l as [|x l IH]; simpl; intros acc out H.
  - injection H as <-. exists []. by rewrite app_nil_r.
  - destruct (f x) as [y|] eqn:Hy; simpl in H; [|done].
    destruct (IH _ _ H) as (ys & -> & Hys). exists (y :: ys).
    split; [by rewrite <- (assoc (++))|]. by constructor.
Qed.

Lemma for_each_collect_total {A B} (f : A -> result B) l :
  Forall (fun x => is_ok (f x) = true) l ->
  forall acc, is_ok (for_each (fun acc x => y ← f x; Ok (acc ++ [y])) acc l) = true.
Proof.
  induction 1 as [|x l Hx _ IH]; simpl; intros acc; [done|].
  destruct (f x) as [y|]; [|done]. simpl. apply IH.
Qed.

Lemma set_column_well_formed name d vs df :
  well_formed df -> length vs = n_rows df -> well_formed (setitem df name d vs).
Proof.
  unfold well_formed, setitem, n_rows. simpl. intros H Hvs.
  generalize dependent (columns df). intros cs H.
  induction H as [|c cs Hc H IH]; simpl.
  - by constructor.
  - case_bool_decide; constructor; done.
Qed.

(** X2.  On a well-formed table that [_remove_missing_values] accepts,
    the output holds exactly the rows whose tenure is not zero, in their
    order: its row labels are those of these rows and every column other
    than [total_charges] is the column of the input, under its label and
    with its dtype, restricted to these rows.  The column [total_charges]
    has dtype float64, each value being the conversion of the value of
    the same row.  The output is well formed. *)
Theorem remove_missing_values_result float_of_str df out :
  well_formed df ->
  prepare._remove_missing_values float_of_str df = Ok out ->
  exists tenure total total',
    find_column "tenure" df = Some tenure /\
    find_column "total_charges" df = Some total /\
    let kept := map (fun v => negb (py_eq v (CInt 0))) (c_values tenure) in
    well_formed out /\
    column_names out = column_names df /\
    index out = mask_filter kept (index df) /\
    n_rows out
    = length (List.filter (fun v => negb (py_eq v (CInt 0))) (c_values tenure)) /\
    (forall name,
       name ≠ "total_charges" ->
       find_column name out
       = (fun c => mkColumn (c_name c) (c_dtype c) (mask_filter kept (c_values c)))
           <$> find_column name df) /\
    find_column "total_charges" out = Some total' /\
    c_dtype total' = float64 /\
    Forall2 (fun v w => prepare.to_float float_of_str v = Ok w)
      (mask_filter kept (c_values total)) (c_values total').
Proof.
  intros Hwf H. pose proof (remove_missing_values_ok _ _ _ H) as [_ Hnames].
  unfold prepare._remove_missing_values in H.
  bind_ok H. bind_ok H. bind_ok H. injection H as <-.
  apply getattr_ok in E as (tenure & Htenure & ->). simpl in *.
  set (mask := map (fun v => negb (py_eq v (CInt 0))) (c_values tenure)) in *.
  apply getattr_ok in E0 as (total_sel & Htotal_sel & ->). simpl in *.
  rewrite find_column_select_rows in Htotal_sel.
  destruct (find_column "total_charges" df) as [total|] eqn:Htotal; [|done].
  injection Htotal_sel as <-. simpl in *.
  unfold prepare.astype_float in E1.
  apply for_each_collect in E1 as (ys & -> & Hys). simpl in *.
  assert (length (c_values tenure) = n_rows df) as Hlen_t.
  { unfold well_formed in Hwf. rewrite Forall_forall in Hwf. apply Hwf.
    unfold find_column in Htenure. apply find_some in Htenure as [? _].
    by apply list_elem_of_In. }
  assert (length (c_values total) = n_rows df) as Hlen_c.
  { unfold well_formed in Hwf. rewrite Forall_forall in Hwf. apply Hwf.
    unfold find_column in Htotal. apply find_some in Htotal as [? _].
    by apply list_elem_of_In. }
  exists tenure, total, (mkColumn "total_charges" float64 ys).
  split; [done|]. split; [done|]. split; [|split; [done|]].
  - apply set_column_well_formed; [by apply select_rows_well_formed|].
    apply Forall2_length in Hys. rewrite <- Hys.
    unfold n_rows, select_rows. simpl. apply mask_filter_length_eq.
    by rewrite Hlen_c.
  - split; [done|]. split.
    { unfold n_rows. simpl. rewrite <- (mask_filter_map _ (c_values tenure)).
      apply mask_filter_length_eq. by rewrite Hlen_t. }
    split.
    { intros name Hname. rewrite <- find_column_select_rows.
      unfold find_column, setitem. simpl. apply find_set_column_ne. congruence. }
    split; [|done].
    unfold find_column, setitem. simpl. apply find_set_column_eq.
Qed.

(** X2 on the sample: the customer with zero tenure goes, three rows
    stay. *)
Lemma remove_missing_values_result_witness :
  exists out,
    prepare._remove_missing_values samples.float_of_str samples.telco_sample = Ok out /\
    well_formed out /\
    column_names out = column_names samples.telco_sample /\
    n_rows out = 3.
Proof.
  eexists. split; [vm_compute; reflexivity|].
  destruct (remove_missing_values_result samples.float_of_str samples.telco_sample _
              telco_sample_well_formed ltac:(vm_compute; reflexivity))
    as (tenure & total & total' & _ & _ & Hwf & Hnames & _).
  split; [exact Hwf|]. split; [exact Hnames|]. reflexivity.
Defined.

Lemma Forall2_all_ok {A B} (f : A -> result B) l ys :
  Forall2 (fun x y => f x = Ok y) l ys -> Forall (fun x => is_ok (f x) = true) l.
Proof.
  induction 1 as [|x y l ys Hx _ IH]; constructor; [|done]. by rewrite Hx.
Qed.

Lemma getattr_find df name c :
  find_column name df = Some c -> getattr df name = Ok (to_series df c).
Proof. unfold getattr. by intros ->. Qed.

(** X3.  Rows are filtered before the totals are converted: a table with
    the columns [tenure] and [total_charges] is accepted exactly when the
    total of every customer with a tenure other than zero converts to a
    float.  The totals of customers with zero tenure, blank in the telco
    data, are never converted. *)
Theorem remove_missing_values_accepts float_of_str df tenure total :
  find_column "tenure" df = Some tenure ->
  find_column "total_charges" df = Some total ->
  is_ok (prepare._remove_missing_values float_of_str df) = true <->
  Forall (fun v => is_ok (prepare.to_float float_of_str v) = true)
    (mask_filter (map (fun v => negb (py_eq v (CInt 0))) (c_values tenure))
       (c_values total)).
Proof.
  intros Htenure Htotal. unfold prepare._remove_missing_values.
  rewrite (getattr_find _ _ _ Htenure). simpl.
  set (mask := map (fun v => negb (py_eq v (CInt 0))) (c_values tenure)).
  assert (find_column "total_charges" (select_rows mask df)
          = Some (mkColumn (c_name total) (c_dtype total)
                    (mask_filter mask (c_values total)))) as Hsel.
  { by rewrite find_column_select_rows, Htotal. }
  rewrite (getattr_find _ _ _ Hsel). simpl.
  unfold prepare.astype_float. split.
  - intros H.
    destruct (for_each _ [] (mask_filter mask (c_values total))) as [ys|] eqn:E;
      [|done].
    apply for_each_collect in E as (ys' & _ & Hys).
    by apply (Forall2_all_ok _ _ _ Hys).
  - intros H.
    pose proof (for_each_collect_total (prepare.to_float float_of_str) _ H []) as Hok.
    by destruct (for_each _ [] (mask_filter mask (c_values total))).
Qed.

(** X3 on the sample: the blank total of the customer with zero tenure
    does not stop the conversion. *)
Lemma remove_missing_values_accepts_witness :
  is_ok (prepare.to_float samples.float_of_str (CStr " ")) = false /\
  is_ok (prepare._remove_missing_values samples.float_of_str samples.telco_sample)
  = true.
Proof.
  split; [reflexivity|].
  eapply (remove_missing_values_accepts samples.float_of_str samples.telco_sample);
    [reflexivity|reflexivity|].
  apply (bool_decide_unpack _). vm_compute. exact I.
Defined.

Section CleanNames.

Import prepare.

Lemma string_app_assoc (s1 s2 s3 : string) :
  (s1 +:+ s2) +:+ s3 = s1 +:+ (s2 +:+ s3).
Proof.
  induction s1 as [|a s1 IH]; [reflexivity|].
  change (String a ((s1 +:+ s2) +:+ s3) = String a (s1 +:+ (s2 +:+ s3))).
  by rewrite IH.
Qed.

Lemma string_map_cons f a s :
  string_map f (String a s) = f a +:+ string_map f s.
Proof. reflexivity. Qed.

Lemma string_map_app f s1 s2 :
  string_map f (s1 +:+ s2) = string_map f s1 +:+ string_map f s2.
Proof.
  induction s1 as [|a s1 IH]; [reflexivity|].
  change (String a s1 +:+ s2) with (String a (s1 +:+ s2)).
  by rewrite !string_map_cons, IH, string_app_assoc.
Qed.

Lemma string_map_compose f g s :
  string_map f (string_map g s) = string_map (fun a => string_map f (g a)) s.
Proof.
  induction s as [|a s IH]; [reflexivity|].
  by rewrite !string_map_cons, string_map_app, IH.
Qed.

Lemma string_map_ext f g s :
  (forall a, f a = g a) -> string_map f s = string_map g s.
Proof.
  intros H. induction s as [|a s IH]; [reflexivity|].
  by rewrite !string_map_cons, H, IH.
Qed.

(** What the three replacements make of one character. *)
Lemma clean_name_chars s :
  clean_name s
  = string_map
      (fun a =>
         string_map
           (fun b =>
              string_map (fun c => if Ascii.eqb c "("%char || Ascii.eqb c ")"%char
                                   then "" else char c)
                (char (ascii_lower b)))
           (if Ascii.eqb a " "%char then "_" else char a))
      s.
Proof.
  unfold clean_name, remove_parens, str_lower, replace_spaces.
  by rewrite !string_map_compose.
Qed.

Lemma list_ascii_app s1 s2 :
  String.list_ascii_of_string (s1 +:+ s2)
  = String.list_ascii_of_string s1 ++ String.list_ascii_of_string s2.
Proof.
  induction s1 as [|a s1 IH]; [reflexivity|].
  change (String a s1 +:+ s2) with (String a (s1 +:+ s2)). simpl. by rewrite IH.
Qed.

Lemma string_map_clean f s :
  (forall a, clean_label (f a)) -> clean_label (string_map f s).
Proof.
  intros H. unfold clean_label in *. induction s as [|a s IH]; [constructor|].
  rewrite string_map_cons, list_ascii_app. apply Forall_app. split; [apply H|exact IH].
Qed.

Lemma clean_name_clean s : clean_label (clean_name s).
Proof.
  rewrite clean_name_chars. apply string_map_clean. intros a.
  destruct a as [[] [] [] [] [] [] [] []]; vm_compute; repeat constructor.
Qed.

Lemma clean_name_idempotent s : clean_name (clean_name s) = clean_name s.
Proof.
  rewrite !clean_name_chars, string_map_compose. apply string_map_ext. intros a.
  destruct a as [[] [] [] [] [] [] [] []]; reflexivity.
Qed.

End CleanNames.

(** X6.  [_clean_column_names] returns the frame it was given, whose
    labels it has changed in place.  Afterwards no label holds a space, a
    parenthesis or an ASCII capital letter; the row labels, the dtypes and
    the values are as before, column by column; and cleaning a cleaned
    table changes nothing. *)
Theorem clean_column_names_clean df :
  let run := prepare._clean_column_names df in
  let out := run.2 in
  run.1 = Ok out /\
  Forall clean_label (column_names out) /\
  index out = index df /\
  map c_dtype (columns out) = map c_dtype (columns df) /\
  map c_values (columns out) = map c_values (columns df) /\
  prepare._clean_column_names out = (Ok out, out).
Proof.
  rewrite clean_column_names_run. simpl.
  split; [done|]. split; [|split; [done|split; [|split]]].
  - rewrite rename_names. apply Forall_forall. intros s Hs.
    apply list_elem_of_fmap in Hs as (c & -> & _). apply clean_name_clean.
  - unfold prepare.rename. simpl. by rewrite map_map.
  - unfold prepare.rename. simpl. by rewrite map_map.
  - rewrite clean_column_names_run, rename_rename.
    assert (prepare.rename (fun s => prepare.clean_name (prepare.clean_name s)) df
            = prepare.rename prepare.clean_name df) as ->; [|done].
    unfold prepare.rename. f_equal. apply map_ext. intros c.
    by rewrite clean_name_idempotent.
Qed.

(** * Further properties of split_data *)

Lemma train_test_split_train_nonempty rng RandomState sss df test_size random_state
    col g train test g' :
  prepare.train_test_split rng RandomState sss df test_size random_state col g
  = (Ok (train, test), g') ->
  prepare.n_test_of test_size (n_rows df) < n_rows df.
Proof.
  unfold prepare.train_test_split. case_bool_decide as Hn; [done|]. intros _. lia.
Qed.

Lemma iloc_schema ps df :
  map (fun c => (c_name c, c_dtype c)) (columns (iloc ps df))
  = map (fun c => (c_name c, c_dtype c)) (columns df).
Proof. unfold iloc. simpl. by rewrite map_map. Qed.

(** X8.  [split_data] returns only on tables of three rows or more, and
    each of the three tables it returns has at least one row and the
    columns of the input, labels and dtypes in the same order. *)
Theorem split_data_parts_nonempty rng RandomState stratified_shuffle_split
    df col seed g train validate test :
  (forall r n_samples n_test labels tr te r',
     stratified_shuffle_split r n_samples n_test labels = (Ok (tr, te), r') ->
     tr ++ te ≡ₚ seq 0 n_samples /\ length te = n_test) ->
  fst (prepare.split_data rng RandomState stratified_shuffle_split df col seed g)
  = Ok (train, validate, test) ->
  3 ≤ n_rows df /\
  1 ≤ n_rows train /\ 1 ≤ n_rows validate /\ 1 ≤ n_rows test /\
  let schema d := map (fun c => (c_name c, c_dtype c)) (columns d) in
  schema train = schema df /\ schema validate = schema df /\ schema test = schema df.
Proof.
  intros Hsss.
  unfold prepare.split_data, mbind, stateful_bind, lift, mret, stateful_ret.
  destruct (getitem df col) as [c|e]; [|done].
  destruct (prepare.train_test_split _ _ _ df _ (Some seed) c g)
    as [[[tv te]|e] r] eqn:E1; simpl; [|done].
  destruct (getitem tv col) as [c'|e]; [|done].
  destruct (prepare.train_test_split _ _ _ tv _ (Some seed) c' r)
    as [[[tr va]|e] r'] eqn:E2; simpl; [|done].
  intros [= <- <- <-].
  pose proof (train_test_split_train_nonempty _ _ _ _ _ _ _ _ _ _ _ E1) as Hlt1.
  pose proof (train_test_split_train_nonempty _ _ _ _ _ _ _ _ _ _ _ E2) as Hlt2.
  apply (train_test_split_ok _ _ _ Hsss) in E1 as (p_tv & p_te & Hp1 & Hl1 & -> & ->).
  apply (train_test_split_ok _ _ _ Hsss) in E2 as (p_tr & p_va & Hp2 & Hl2 & -> & ->).
  pose proof (Permutation_seq_bound _ _ Hp1) as Hb1.
  apply Forall_app in Hb1 as [Hb_tv Hb_te].
  rewrite (iloc_n_rows p_tv df Hb_tv) in Hp2, Hl2, Hlt2.
  pose proof (Permutation_seq_bound _ _ Hp2) as Hb2.
  apply Forall_app in Hb2 as [Hb_tr Hb_va].
  assert (n_rows (iloc p_tv df) = length p_tv) as Hn_tv by (by apply iloc_n_rows).
  rewrite !iloc_n_rows by (by rewrite ?Hn_tv).
  pose proof (Permutation_length Hp1) as Hn1.
  pose proof (Permutation_length Hp2) as Hn2.
  rewrite length_app, length_seq in Hn1, Hn2.
  pose proof (n_test_of_fifth (n_rows df)) as Ht.
  pose proof (n_test_of_three_tenths (length p_tv)) as Hv.
  rewrite <- Hl1 in Ht, Hlt1. rewrite <- Hl2 in Hv, Hlt2.
  pose proof (Z.div_mod (Z.of_nat (n_rows df) + 4) 5 ltac:(lia)).
  pose proof (Z.mod_pos_bound (Z.of_nat (n_rows df) + 4) 5 ltac:(lia)).
  pose proof (Z.div_mod (3 * Z.of_nat (length p_tv) + 9) 10 ltac:(lia)).
  pose proof (Z.mod_pos_bound (3 * Z.of_nat (length p_tv) + 9) 10 ltac:(lia)).
  split; [lia|]. split; [lia|]. split; [lia|]. split; [lia|].
  unfold iloc. simpl. by rewrite !map_map.
Qed.

(** X8 on the sample of four rows. *)
Lemma split_data_parts_nonempty_witness :
  exists train validate test,
    fst (prepare.split_data unit samples.seed_unit samples.split_tail
           samples.telco_sample "churn" 24 tt) = Ok (train, validate, test) /\
    3 ≤ n_rows samples.telco_sample /\ 1 ≤ n_rows train /\
    column_names validate = column_names samples.telco_sample.
Proof.
  eexists _, _, _. split; [vm_compute; reflexivity|].
  destruct (split_data_parts_nonempty unit samples.seed_unit samples.split_tail
              samples.telco_sample "churn" 24 tt _ _ _
              split_tail_partition ltac:(vm_compute; reflexivity))
    as (H3 & Htr & _ & _ & _).
  split; [exact H3|]. split; [exact Htr|]. reflexivity.
Defined.

(** * Further properties of util/acquire.py *)

(** X9.  After a call of [get_telco_data] that returned a table, the
    cache file exists and a further call with [use_cache] true sends no
    query: it reads the file and returns what the parser makes of it.
    The file holds the printed table unless the first call itself read
    it; so the second call returns the table of the first whenever the
    parser reads back what the printer writes. *)
Theorem get_telco_data_then_cached username password hostname parse_csv print_csv
    run_query use_cache w df w' :
  let get_telco_data :=
    acquire.get_telco_data username password hostname parse_csv print_csv run_query in
  get_telco_data use_cache w = (Ok df, w') ->
  exists contents,
    acquire.files w' !! acquire._telco_file = Some contents /\
    get_telco_data true w'
    = (parse_csv contents,
       acquire.mkWorld (acquire.files w')
         (acquire.trace w' ++ [acquire.FileRead acquire._telco_file])) /\
    (contents = print_csv df \/ parse_csv contents = Ok df) /\
    (parse_csv (print_csv df) = Ok df -> fst (get_telco_data true w') = Ok df).
Proof.
  intros get H.
  destruct (get_telco_data_cases username password hostname parse_csv print_csv
              run_query use_cache w)
    as [(contents & Hfile & -> & Hrun)|[(df' & Hq & Hrun)|(e & Hrun)]];
    fold get in Hrun; rewrite Hrun in H.
  - injection H as Hparse <-. exists contents. simpl.
    split; [done|]. split; [by apply get_telco_data_hit|].
    split; [by right|]. intros _.
    unfold get. by rewrite (get_telco_data_hit _ _ _ _ _ _ contents).
  - injection H as -> <-. exists (print_csv df). simpl.
    assert (<[acquire._telco_file := print_csv df]> (acquire.files w)
              !! acquire._telco_file = Some (print_csv df)) as Hfile
      by apply lookup_insert_eq.
    split; [done|]. split; [by apply get_telco_data_hit|].
    split; [by left|]. intros Hround.
    unfold get. by rewrite (get_telco_data_hit _ _ _ _ _ _ (print_csv df)).
  - done.
Qed.

(** X9 in a run: the first call fills the cache, the second reads it. *)
Lemma get_telco_data_then_cached_witness :
  let get_telco_data :=
    acquire.get_telco_data "user" "secret" "db.example.org"
      samples.parse_sample samples.print_header samples.sample_source in
  exists w',
    get_telco_data false samples.cold = (Ok samples.telco_sample, w') /\
    fst (get_telco_data true w') = Ok samples.telco_sample.
Proof.
  intros get. eexists. split; [vm_compute; reflexivity|].
  destruct (get_telco_data_then_cached "user" "secret" "db.example.org"
              samples.parse_sample samples.print_header samples.sample_source
              false samples.cold samples.telco_sample _
              ltac:(vm_compute; reflexivity))
    as (contents & _ & _ & _ & Hround).
  apply Hround. vm_compute. reflexivity.
Defined.

(** X10.  Whatever its argument and the state of the world,
    [get_telco_data] changes no file but the cache file, never removes
    the cache file, and adds to the record of accesses one of three
    things: a read of the cache file; the join query alone, in which case
    it raises; or the join query followed by a write of the cache file. *)
Theorem get_telco_data_frame username password hostname parse_csv print_csv run_query
    use_cache w :
  let run :=
    acquire.get_telco_data username password hostname parse_csv print_csv run_query
      use_cache w in
  let url := acquire.get_db_url acquire._telco_db username password hostname in
  let sql := acquire._get_telco_sql in
  (forall path, path ≠ acquire._telco_file ->
     acquire.files run.2 !! path = acquire.files w !! path) /\
  (is_Some (acquire.files w !! acquire._telco_file) ->
   is_Some (acquire.files run.2 !! acquire._telco_file)) /\
  exists new,
    acquire.trace run.2 = acquire.trace w ++ new /\
    (new = [acquire.FileRead acquire._telco_file] \/
     (new = [acquire.SqlQuery url sql] /\ is_ok run.1 = false) \/
     (exists contents,
        new = [acquire.SqlQuery url sql;
               acquire.FileWrite acquire._telco_file contents] /\
        acquire.files run.2 !! acquire._telco_file = Some contents /\
        is_ok run.1 = true)).
Proof.
  intros run url sql.
  destruct (get_telco_data_cases username password hostname parse_csv print_csv
              run_query use_cache w)
    as [(contents & Hfile & -> & Hrun)|[(df' & Hq & Hrun)|(e & Hrun)]];
    fold run in Hrun; rewrite Hrun; simpl.
  - split; [done|]. split; [done|]. eexists. split; [done|]. by left.
  - split; [intros path Hpath; by rewrite lookup_insert_ne|].
    split; [intros _; rewrite lookup_insert_eq; by eexists|].
    eexists. split; [done|]. right. right.
    exists (print_csv df'). by rewrite lookup_insert_eq.
  - split; [done|]. split; [done|]. eexists. split; [done|]. right. by left.
Qed.

(** * Further properties of util/model.py *)

Lemma zip_seq_lookup {A} (l : list A) k i :
  zip (seq k (length l)) l !! i = (fun x => (k + i, x)) <$> l !! i.
Proof.
  revert k i. induction l as [|x l IH]; intros k i; simpl; [done|].
  destruct i as [|i]; simpl.
  - by rewrite Nat.add_0_r.
  - rewrite IH. by replace (S k + i) with (k + S i) by lia.
Qed.

Lemma enumerate_lookup {A} (l : list A) i :
  model.enumerate l !! i = (fun x => (i, x)) <$> l !! i.
Proof. unfold model.enumerate. by rewrite zip_seq_lookup. Qed.

Lemma enumerate_length {A} (l : list A) : length (model.enumerate l) = length l.
Proof.
  unfold model.enumerate. rewrite length_zip_with, length_seq. lia.
Qed.

Lemma measure_model_performance_ok encode y_true y_pred positive_label labels rows :
  model.measure_model_performance encode y_true y_pred positive_label labels = Ok rows ->
  y_pred ≠ [] /\
  Forall2 (fun ip row =>
             model.score_row encode y_true positive_label labels ip.1 ip.2 = Ok row)
    (model.enumerate y_pred) rows.
Proof.
  unfold model.measure_model_performance. intros H. bind_ok H.
  apply (for_each_collect
           (fun ip => model.score_row encode y_true positive_label labels ip.1 ip.2))
    in E as (ys & -> & Hys).
  simpl in H. destruct ys as [|row ys]; [done|]. injection H as <-.
  split; [|done]. intros ->. by apply Forall2_nil_cons_inv in Hys.
Qed.

Lemma score_row_ok encode y_true positive_label labels i predictions row :
  model.score_row encode y_true positive_label labels i predictions = Ok row ->
  length (s_values y_true) = length predictions /\
  match labels with
  | None | Some [] => model.model row = model.Position i
  | Some ls => exists l, ls !! i = Some l /\ model.model row = model.Label l
  end /\
  model.accuracy row
  = model.ratio (model.count_pairs model.same_label (s_values y_true) predictions)
      (length (s_values y_true)) model.ScoreNaN /\
  model.precision row
  = model.ratio (model.true_positives (s_values y_true) predictions positive_label)
      (model.count_label positive_label predictions) (model.Score 0) /\
  model.recall row
  = model.ratio (model.true_positives (s_values y_true) predictions positive_label)
      (model.count_label positive_label (s_values y_true)) (model.Score 0) /\
  model.check_binary encode y_true predictions positive_label = Ok tt.
Proof.
  unfold model.score_row. intros H. bind_ok H. bind_ok H. bind_ok H. bind_ok H.
  injection H as <-. simpl.
  unfold model.accuracy_score in E0. bind_ok E0. injection E0 as <-.
  unfold model._check_targets, model.check_consistent_length in E3.
  case_bool_decide as Hlen; [|done]. clear E3.
  unfold model.precision_score in E1. bind_ok E1. injection E1 as <-.
  unfold model.recall_score in E2. bind_ok E2. injection E2 as <-.
  repeat match goal with u : unit |- _ => destruct u end.
  split; [done|]. split; [|done].
  destruct labels as [[|l0 ls]|]; try (by injection E as <-).
  destruct ((l0 :: ls) !! i) as [l|] eqn:Hl; [|done].
  injection E as <-. by exists l.
Qed.

(** X12.  The table [measure_model_performance] returns has one row per
    prediction set, in their order, and there is at least one.  Every
    prediction set is as long as [y_true].  Without labels (none, or an
    empty list) row [i] is named by its position [i]; with labels it is
    named by the [i]-th label, so the labels are at least as many as the
    prediction sets. *)
Theorem measure_model_performance_rows encode y_true y_pred positive_label labels rows :
  model.measure_model_performance encode y_true y_pred positive_label labels = Ok rows ->
  y_pred ≠ [] /\
  length rows = length y_pred /\
  (forall i predictions, y_pred !! i = Some predictions ->
     length predictions = length (s_values y_true)) /\
  (forall i row, rows !! i = Some row ->
     match labels with
     | None | Some [] => model.model row = model.Position i
     | Some ls => exists l, ls !! i = Some l /\ model.model row = model.Label l
     end) /\
  (forall ls, labels = Some ls -> ls ≠ [] -> length y_pred ≤ length ls).
Proof.
  intros H. apply measure_model_performance_ok in H as [Hne Hrows].
  pose proof (Forall2_length _ _ _ Hrows) as Hlen. rewrite enumerate_length in Hlen.
  assert (forall i row, rows !! i = Some row ->
            exists predictions,
              y_pred !! i = Some predictions /\
              model.score_row encode y_true positive_label labels i predictions = Ok row)
    as Hrow.
  { intros i row Hi.
    destruct (Forall2_lookup_r _ _ _ _ _ Hrows Hi) as ([j predictions] & Hj & Hs).
    rewrite enumerate_lookup in Hj.
    destruct (y_pred !! i) as [p|] eqn:Hp; [|done]. injection Hj as <- <-.
    by exists p. }
  split; [done|]. split; [done|]. split; [|split].
  - intros i predictions Hi.
    assert (is_Some (rows !! i)) as [row Hr].
    { apply lookup_lt_is_Some. rewrite <- Hlen. by eapply lookup_lt_Some. }
    destruct (Hrow i row Hr) as (p & Hp & Hs). rewrite Hi in Hp. injection Hp as <-.
    by apply score_row_ok in Hs as [-> _].
  - intros i row Hi. destruct (Hrow i row Hi) as (p & _ & Hs).
    by apply score_row_ok in Hs as (_ & ? & _).
  - intros ls -> Hls. destruct (decide (length y_pred ≤ length ls)) as [|Hgt]; [done|].
    exfalso. assert (is_Some (rows !! length ls)) as [row Hr].
    { apply lookup_lt_is_Some. lia. }
    destruct (Hrow _ row Hr) as (p & _ & Hs).
    apply score_row_ok in Hs as (_ & Hname & _).
    destruct ls as [|l0 ls]; [done|]. destruct Hname as (l & Hl & _).
    apply lookup_lt_Some in Hl. lia.
Qed.

(** X12 on two prediction sets with two labels. *)
Lemma measure_model_performance_rows_witness :
  exists rows,
    model.measure_model_performance samples.refuse_foreign_label samples.churn_after_split
      [[CStr "No"; CStr "Yes"; CStr "No"]; [CStr "No"; CStr "No"; CStr "No"]]
      (CStr "Yes") (Some ["first"; "second"]) = Ok rows /\
    length rows = 2 /\
    map model.model rows = [model.Label "first"; model.Label "second"].
Proof.
  eexists. split; [vm_compute; reflexivity|].
  destruct (measure_model_performance_rows samples.refuse_foreign_label
    samples.churn_after_split
              [[CStr "No"; CStr "Yes"; CStr "No"]; [CStr "No"; CStr "No"; CStr "No"]]
              (CStr "Yes") (Some ["first"; "second"]) _
              ltac:(vm_compute; reflexivity)) as (_ & Hlen & _).
  split; [exact Hlen|]. reflexivity.
Defined.

Lemma ratio_bounded num den z :
  num ≤ den ->
  den ≠ 0 \/ z = model.Score 0 ->
  exists q, model.ratio num den z = model.Score q /\ (0 <= q)%Qc /\ (q <= 1)%Qc.
Proof.
  intros Hle Hz. unfold model.ratio. case_bool_decide as Hden.
  - destruct Hz as [? | ->]; [done|]. exists 0%Qc. done.
  - eexists. split; [done|]. unfold Qcle. simpl. rewrite !Qred_correct.
    unfold Qle. simpl. split; lia.
Qed.

Lemma count_pairs_le_left p a b : model.count_pairs p a b ≤ length a.
Proof.
  unfold model.count_pairs. revert b.
  induction a as [|x a IH]; intros [|y b]; simpl; try lia.
  specialize (IH b). destruct (p x y); simpl; lia.
Qed.

Lemma true_positives_le_pred y p pos :
  model.true_positives y p pos ≤ model.count_label pos p.
Proof.
  unfold model.true_positives, model.count_pairs, model.count_label.
  revert p. induction y as [|t y IH]; intros [|x p]; simpl; try lia.
  specialize (IH p).
  destruct (model.same_label t pos), (model.same_label x pos); simpl; lia.
Qed.

Lemma true_positives_le_true y p pos :
  model.true_positives y p pos ≤ model.count_label pos y.
Proof.
  unfold model.true_positives, model.count_pairs, model.count_label.
  revert p. induction y as [|t y IH]; intros [|x p]; simpl; try lia.
  specialize (IH p).
  destruct (model.same_label t pos), (model.same_label x pos); simpl; lia.
Qed.

(** X13.  When [y_true] is not empty, every accuracy, precision and
    recall in the table [measure_model_performance] returns is a number
    between 0 and 1: none is [nan], the zero divisions of precision and
    recall having been replaced by 0. *)
Theorem measure_model_performance_scores_bounded encode y_true y_pred positive_label labels
    rows row :
  s_values y_true ≠ [] ->
  model.measure_model_performance encode y_true y_pred positive_label labels = Ok rows ->
  row ∈ rows ->
  exists a p r,
    model.accuracy row = model.Score a /\
    model.precision row = model.Score p /\
    model.recall row = model.Score r /\
    (0 <= a <= 1)%Qc /\ (0 <= p <= 1)%Qc /\ (0 <= r <= 1)%Qc.
Proof.
  intros Hne H Hrow. apply measure_model_performance_ok in H as [_ Hrows].
  apply list_elem_of_lookup in Hrow as [i Hi].
  destruct (Forall2_lookup_r _ _ _ _ _ Hrows Hi) as ([j predictions] & _ & Hs).
  apply score_row_ok in Hs as (_ & _ & Ha & Hp & Hr & _). simpl in *.
  destruct (ratio_bounded
              (model.count_pairs model.same_label (s_values y_true) predictions)
              (length (s_values y_true)) model.ScoreNaN) as (a & Ha' & ? & ?).
  { apply count_pairs_le_left. }
  { left. by destruct (s_values y_true). }
  destruct (ratio_bounded
              (model.true_positives (s_values y_true) predictions positive_label)
              (model.count_label positive_label predictions) (model.Score 0))
    as (p & Hp' & ? & ?).
  { apply true_positives_le_pred. }
  { by right. }
  destruct (ratio_bounded
              (model.true_positives (s_values y_true) predictions positive_label)
              (model.count_label positive_label (s_values y_true)) (model.Score 0))
    as (r & Hr' & ? & ?).
  { apply true_positives_le_true. }
  { by right. }
  exists a, p, r. rewrite Ha, Hp, Hr. done.
Qed.

(** X13 on predictions that never name the positive label. *)
Lemma measure_model_performance_scores_bounded_witness :
  exists row a,
    model.measure_model_performance samples.refuse_foreign_label samples.churn_after_split
      [[CStr "No"; CStr "No"; CStr "No"]] (CStr "Yes") None = Ok [row] /\
    model.accuracy row = model.Score a /\ (0 <= a <= 1)%Qc.
Proof.
  eexists. 
  destruct (measure_model_performance_scores_bounded samples.refuse_foreign_label
    samples.churn_after_split
              [[CStr "No"; CStr "No"; CStr "No"]] (CStr "Yes") None _ _
              ltac:(done) ltac:(vm_compute; reflexivity)
              ltac:(apply list_elem_of_singleton; reflexivity))
    as (a & _ & _ & Ha & _ & _ & Hb & _).
  exists a. split; [reflexivity|]. split; [exact Ha|exact Hb].
Defined.

Lemma for_each_collect_err {A B} (f : A -> result B) l :
  forall acc e,
    for_each (fun acc x => y ← f x; Ok (acc ++ [y])) acc l = Err e ->
    exists x, x ∈ l /\ f x = Err e.
Proof.
  induction l as [|x l IH]; simpl; intros acc e H; [done|].
  destruct (f x) as [y|e'] eqn:Hy; simpl in H.
  - destruct (IH _ _ H) as (x' & Hin & Hx'). exists x'. split; [|done].
    apply elem_of_cons. by right.
  - injection H as ->. exists x. split; [|done]. apply elem_of_cons. by left.
Qed.

Lemma find_in_selected df names cols :
  NoDup names ->
  Forall2 (fun name c => of_option (find_column name df) (KeyError name) = Ok c)
    names cols ->
  forall name, name ∈ names ->
    List.find (fun c => bool_decide (c_name c = name)) cols = find_column name df.
Proof.
  intros Hnodup H. induction H as [|n c names cols Hc _ IH]; intros name Hin.
  - by apply elem_of_nil in Hin.
  - apply NoDup_cons in Hnodup as [Hn Hnodup].
    destruct (find_column n df) as [c'|] eqn:Hfind; [|done]. injection Hc as <-.
    pose proof (find_column_name _ _ _ Hfind) as Hname. simpl.
    apply elem_of_cons in Hin as [->|Hin].
    + by rewrite bool_decide_eq_true_2.
    + rewrite bool_decide_eq_false_2; [by apply IH|].
      rewrite Hname. intros ->. done.
Qed.

(** X14.  [split_into_X_and_y] returns the seven feature columns, in the
    order of the list of features whatever their order in the table, each
    as it is in the table and under the row labels of the table, together
    with the column [churn].  When a feature is missing it raises
    [KeyError] with the label of a missing feature; when only [churn] is
    missing, [AttributeError]. *)
Theorem split_into_X_and_y_result df :
  match model.split_into_X_and_y df with
  | Ok (X, y) =>
      column_names X = model.features /\
      index X = index df /\
      (forall name, name ∈ model.features ->
         find_column name X = find_column name df) /\
      exists c, find_column "churn" df = Some c /\ y = to_series df c
  | Err e =>
      (exists name,
         e = KeyError name /\ name ∈ model.features /\ name ∉ column_names df) \/
      (e = AttributeError "churn" /\ ("churn" ∉ column_names df) /\
       forall name, name ∈ model.features -> name ∈ column_names df)
  end.
Proof.
  assert (forall name, find_column name df = None -> name ∉ column_names df) as Hnone.
  { intros name Hf Hin. unfold find_column in Hf.
    apply list_elem_of_fmap in Hin as (c & -> & Hc).
    apply list_elem_of_In in Hc. pose proof (find_none _ _ Hf c Hc) as Hn.
    simpl in Hn. by rewrite bool_decide_eq_true_2 in Hn. }
  unfold model.split_into_X_and_y, model.getitem_list.
  destruct (for_each _ [] model.features) as [cols|e] eqn:E; simpl.
  - apply (for_each_collect
             (fun name => of_option (find_column name df) (KeyError name)))
      in E as (ys & -> & Hys). simpl.
    unfold getattr.
    destruct (find_column "churn" df) as [c|] eqn:Hchurn; simpl.
    + split; [|split; [done|split]].
      * unfold column_names. simpl. clear Hchurn.
        induction Hys as [|n col names cols Hcol _ IH]; simpl; [done|].
        destruct (find_column n df) as [c'|] eqn:Hf; [|done]. injection Hcol as <-.
        by rewrite (find_column_name _ _ _ Hf), IH.
      * intros name Hin. unfold find_column at 1. simpl.
        apply (find_in_selected df model.features); [|done..].
        apply (bool_decide_unpack (NoDup model.features)). vm_compute. exact I.
      * by exists c.
    + right. split; [done|]. split; [by apply Hnone|].
      intros name Hin. apply list_elem_of_lookup in Hin as [i Hi].
      destruct (Forall2_lookup_l _ _ _ _ _ Hys Hi) as (col & _ & Hcol).
      destruct (find_column name df) as [c'|] eqn:Hf; [|done].
      by eapply find_column_elem.
  - left. apply (for_each_collect_err
                   (fun name => of_option (find_column name df) (KeyError name)))
      in E as (name & Hin & Hname).
    destruct (find_column name df) as [c|] eqn:Hf; [done|].
    injection Hname as <-. exists name. split; [done|]. split; [done|].
    by apply Hnone.
Qed.

Lemma keys_dict_set_present {V} k (v : V) d :
  k ∈ model.keys d -> model.keys (model.dict_set k v d) = model.keys d.
Proof.
  unfold model.keys. induction d as [|[k' v'] d IH]; simpl; intros H.
  - by apply elem_of_nil in H.
  - case_bool_decide as Hk; simpl; [by subst|].
    f_equal. apply IH. apply elem_of_cons in H as [->|H]; done.
Qed.

Lemma visualize_performance_of_models_run encode learned predict df models rows models' :
  model.visualize_performance_of_models encode
    learned predict df models = (Ok rows, models') ->
  exists X y baseline p1 p2 p3,
    model.split_into_X_and_y df = Ok (X, y) /\
    model.create_baseline_model y = Ok baseline /\
    models' = model.dict_set "Baseline" (model.BaselineSeries baseline) models /\
    (e ← model.dict_get models' "Decision Tree";
     model.entry_predict learned predict e X) = Ok p1 /\
    (e ← model.dict_get models' "Random Forest";
     model.entry_predict learned predict e X) = Ok p2 /\
    (e ← model.dict_get models' "K Nearest Neighbors";
     model.entry_predict learned predict e X) = Ok p3 /\
    model.measure_model_performance encode y [s_values baseline; p1; p2; p3]
      (CStr "Yes") (Some (model.keys models')) = Ok rows.
Proof.
  unfold model.visualize_performance_of_models.
  unfold mbind at 1 2 3 4 5 6 7 8 9.
  unfold stateful_bind, lift, get_state, put_state.
  destruct (model.split_into_X_and_y df) as [[X y]|] eqn:HX; [|done].
  destruct (model.create_baseline_model y) as [baseline|] eqn:Hb; [|done].
  set (models1 := model.dict_set "Baseline" (model.BaselineSeries baseline) models).
  assert (model.dict_get models1 "Baseline"
            ≫= (fun e => model.entry_values learned e) = Ok (s_values baseline)) as ->.
  { unfold model.dict_get, models1. by rewrite dict_lookup_set_eq. }
  destruct (model.dict_get models1 "Decision Tree" ≫= _) as [p1|] eqn:H1; [|done].
  destruct (model.dict_get models1 "Random Forest" ≫= _) as [p2|] eqn:H2; [|done].
  destruct (model.dict_get models1 "K Nearest Neighbors" ≫= _) as [p3|] eqn:H3;
    [|done].
  intros [= Hm <-]. by exists X, y, baseline, p1, p2, p3.
Qed.

Lemma keys_dict_set_absent {V} k (v : V) d :
  k ∉ model.keys d -> model.keys (model.dict_set k v d) = model.keys d ++ [k].
Proof.
  unfold model.keys. induction d as [|[k' v'] d IH]; simpl; intros H; [done|].
  apply not_elem_of_cons in H as [Hne H].
  rewrite bool_decide_eq_false_2 by done. simpl. f_equal. by apply IH.
Qed.

Lemma score_rows_four encode y positive_label ls p0 p1 p2 p3 rows :
  ls ≠ [] ->
  model.measure_model_performance encode
    y [p0; p1; p2; p3] positive_label (Some ls) = Ok rows ->
  exists r0 r1 r2 r3,
    rows = [r0; r1; r2; r3] /\
    map model.model rows = map model.Label (firstn 4 ls) /\
    model.score_row encode y positive_label (Some ls) 0 p0 = Ok r0 /\
    model.score_row encode y positive_label (Some ls) 1 p1 = Ok r1 /\
    model.score_row encode y positive_label (Some ls) 2 p2 = Ok r2 /\
    model.score_row encode y positive_label (Some ls) 3 p3 = Ok r3.
Proof.
  intros Hls H. apply measure_model_performance_ok in H as [_ Hrows].
  unfold model.enumerate in Hrows. simpl in Hrows.
  apply Forall2_cons_inv_l in Hrows as (r0 & rows0 & H0 & Hrows & ->).
  apply Forall2_cons_inv_l in Hrows as (r1 & rows1 & H1 & Hrows & ->).
  apply Forall2_cons_inv_l in Hrows as (r2 & rows2 & H2 & Hrows & ->).
  apply Forall2_cons_inv_l in Hrows as (r3 & rows3 & H3 & Hrows & ->).
  apply Forall2_nil_inv_l in Hrows as ->. simpl in *.
  exists r0, r1, r2, r3. split; [done|]. split; [|done].
  destruct ls as [|l0 ls]; [done|].
  apply score_row_ok in H0 as (_ & (k0 & Hk0 & ->) & _).
  apply score_row_ok in H1 as (_ & (k1 & Hk1 & ->) & _).
  apply score_row_ok in H2 as (_ & (k2 & Hk2 & ->) & _).
  apply score_row_ok in H3 as (_ & (k3 & Hk3 & ->) & _).
  destruct ls as [|l1 [|l2 [|l3 ls]]]; try done.
  simpl in *. congruence.
Qed.

(** X15.  The table [visualize_performance_of_models] returns has four
    rows: the scores of the baseline, then of the predictions of the
    entries "Decision Tree", "Random Forest" and "K Nearest Neighbors".
    The rows are named by the first four keys of the dictionary in the
    order of the dictionary (with "Baseline" added last when it was not a
    key), not by the entry that made the predictions: the names fit the
    rows only for a dictionary whose first keys are in this order. *)
Theorem visualize_performance_of_models_row_names encode
  learned predict df models rows models' :
  model.visualize_performance_of_models encode
    learned predict df models = (Ok rows, models') ->
  length rows = 4 /\
  map model.model rows = map model.Label (firstn 4 (model.keys models')) /\
  model.keys models'
  = (if bool_decide ("Baseline" ∈ model.keys models)
     then model.keys models else model.keys models ++ ["Baseline"]) /\
  (firstn 4 (model.keys models)
   = ["Baseline"; "Decision Tree"; "Random Forest"; "K Nearest Neighbors"] ->
   map model.model rows
   = [model.Label "Baseline"; model.Label "Decision Tree";
      model.Label "Random Forest"; model.Label "K Nearest Neighbors"]).
Proof.
  intros H. apply visualize_performance_of_models_run in H
    as (X & y & baseline & p1 & p2 & p3 & _ & _ & -> & _ & _ & _ & Hm).
  assert (model.keys (model.dict_set "Baseline" (model.BaselineSeries baseline) models)
          = (if bool_decide ("Baseline" ∈ model.keys models)
             then model.keys models else model.keys models ++ ["Baseline"])) as Hkeys.
  { case_bool_decide; [by apply keys_dict_set_present|by apply keys_dict_set_absent]. }
  apply score_rows_four in Hm as (r0 & r1 & r2 & r3 & -> & Hnames & _).
  - split; [done|]. split; [done|]. split; [done|].
    intros Hfirst. rewrite Hnames, Hkeys.
    rewrite bool_decide_eq_true_2.
    + by rewrite Hfirst.
    + destruct (model.keys models) as [|k ks]; [done|].
      injection Hfirst as -> _. apply elem_of_cons. by left.
  - rewrite Hkeys. case_bool_decide as Hin.
    + intros Hnil. rewrite Hnil in Hin. by apply elem_of_nil in Hin.
    + by destruct (model.keys models).
Qed.

(** X15 on the dictionary of [create_models]. *)
Lemma visualize_performance_of_models_row_names_witness :
  exists rows models',
    model.visualize_performance_of_models samples.refuse_foreign_label
      unit samples.predict_no samples.prepared
      samples.models_24 = (Ok rows, models') /\
    map model.model rows
    = [model.Label "Baseline"; model.Label "Decision Tree";
       model.Label "Random Forest"; model.Label "K Nearest Neighbors"].
Proof.
  eexists _, _. split; [vm_compute; reflexivity|].
  refine (proj2 (proj2 (proj2
            (visualize_performance_of_models_row_names samples.refuse_foreign_label
              unit samples.predict_no
               samples.prepared samples.models_24 _ _ _))) _);
    [vm_compute; reflexivity|reflexivity].
Defined.

(** A dictionary with the same four entries in another order: the first
    row, the scores of the baseline, is named "Decision Tree". *)
Example visualize_performance_of_models_reordered :
  exists rows models',
    model.visualize_performance_of_models samples.refuse_foreign_label
      unit samples.predict_no samples.prepared
      more_samples.models_reordered = (Ok rows, models') /\
    map model.model rows
    = [model.Label "Decision Tree"; model.Label "Baseline";
       model.Label "Random Forest"; model.Label "K Nearest Neighbors"].
Proof. eexists _, _. split; vm_compute; reflexivity. Qed.

Lemma score_row_bounded encode y positive_label labels i predictions row :
  s_values y ≠ [] ->
  model.score_row encode y positive_label labels i predictions = Ok row ->
  exists a p r,
    model.accuracy row = model.Score a /\
    model.precision row = model.Score p /\
    model.recall row = model.Score r /\
    (0 <= a <= 1)%Qc /\ (0 <= p <= 1)%Qc /\ (0 <= r <= 1)%Qc.
Proof.
  intros Hne Hs. apply score_row_ok in Hs as (_ & _ & Ha & Hp & Hr & _).
  destruct (ratio_bounded
              (model.count_pairs model.same_label (s_values y) predictions)
              (length (s_values y)) model.ScoreNaN) as (a & Ha' & ? & ?).
  { apply count_pairs_le_left. }
  { left. by destruct (s_values y). }
  destruct (ratio_bounded
              (model.true_positives (s_values y) predictions positive_label)
              (model.count_label positive_label predictions) (model.Score 0))
    as (p & Hp' & ? & ?).
  { apply true_positives_le_pred. }
  { by right. }
  destruct (ratio_bounded
              (model.true_positives (s_values y) predictions positive_label)
              (model.count_label positive_label (s_values y)) (model.Score 0))
    as (r & Hr' & ? & ?).
  { apply true_positives_le_true. }
  { by right. }
  exists a, p, r. rewrite Ha, Hp, Hr. done.
Qed.

Lemma create_models_keys learned fit df random_seed models :
  model.create_models learned fit df random_seed = Ok models ->
  model.keys models
  = ["Baseline"; "Decision Tree"; "Random Forest"; "K Nearest Neighbors"] /\
  model.dict_lookup "Baseline" models = Some model.PyNone.
Proof.
  unfold model.create_models. intros H. bind_ok H. destruct a as [X y].
  bind_ok H. bind_ok H. bind_ok H. by injection H as <-.
Qed.

Lemma create_baseline_model_nonempty y baseline :
  model.create_baseline_model y = Ok baseline -> s_values y ≠ [].
Proof.
  rewrite create_baseline_model_head. intros H Hnil. by rewrite Hnil in H.
Qed.

(** X16.  The modelling pipeline end to end: handed the dictionary that
    [create_models] made, [visualize_performance_of_models], when it
    returns, returns the four rows "Baseline", "Decision Tree", "Random
    Forest", "K Nearest Neighbors" in this order, every accuracy,
    precision and recall a number between 0 and 1, and it has put the
    baseline series in the place of the [None] that [create_models] left
    under "Baseline". *)
Theorem create_models_then_visualize encode learned fit predict train seed models df rows
    models' :
  model.create_models learned fit train seed = Ok models ->
  model.visualize_performance_of_models encode
    learned predict df models = (Ok rows, models') ->
  map model.model rows
  = [model.Label "Baseline"; model.Label "Decision Tree";
     model.Label "Random Forest"; model.Label "K Nearest Neighbors"] /\
  (forall row, row ∈ rows ->
     exists a p r,
       model.accuracy row = model.Score a /\
       model.precision row = model.Score p /\
       model.recall row = model.Score r /\
       (0 <= a <= 1)%Qc /\ (0 <= p <= 1)%Qc /\ (0 <= r <= 1)%Qc) /\
  model.dict_lookup "Baseline" models = Some model.PyNone /\
  exists baseline,
    model.dict_lookup "Baseline" models' = Some (model.BaselineSeries baseline) /\
    model.keys models' = model.keys models.
Proof.
  intros Hcreate Hrun. apply create_models_keys in Hcreate as [Hkeys Hnone].
  apply visualize_performance_of_models_run in Hrun
    as (X & y & baseline & p1 & p2 & p3 & _ & Hb & -> & _ & _ & _ & Hm).
  assert (model.keys (model.dict_set "Baseline" (model.BaselineSeries baseline) models)
          = model.keys models) as Hkeys'.
  { apply keys_dict_set_present. rewrite Hkeys. apply elem_of_cons. by left. }
  pose proof (create_baseline_model_nonempty _ _ Hb) as Hne.
  apply score_rows_four in Hm as (r0 & r1 & r2 & r3 & -> & Hnames & H0 & H1 & H2 & H3).
  - split; [by rewrite Hnames, Hkeys', Hkeys|]. split; [|split; [done|]].
    + intros row Hrow.
      repeat (apply elem_of_cons in Hrow as [->|Hrow];
              [by eapply score_row_bounded|]).
      by apply elem_of_nil in Hrow.
    + exists baseline. split; [apply dict_lookup_set_eq|done].
  - by rewrite Hkeys', Hkeys.
Qed.

(** X16 on the prepared sample. *)
Lemma create_models_then_visualize_witness :
  exists rows models',
    model.visualize_performance_of_models samples.refuse_foreign_label
      unit samples.predict_no samples.prepared
      samples.models_24 = (Ok rows, models') /\
    length rows = 4 /\
    model.keys models' = model.keys samples.models_24.
Proof.
  eexists _, _. split; [vm_compute; reflexivity|]. split; [reflexivity|].
  destruct (create_models_then_visualize samples.refuse_foreign_label
    unit samples.fit_nothing samples.predict_no
              samples.prepared 24%Z samples.models_24 samples.prepared _ _
              ltac:(vm_compute; reflexivity) ltac:(vm_compute; reflexivity))
    as (_ & _ & _ & baseline & _ & Hkeys).
  exact Hkeys.
Defined.

(** ** The row of the baseline *)

Section BaselineRow.

Import model.

Variable encode : cell -> cell -> result unit.

(** A positive label that is a string is refused where the one label
    present is a number. *)
Hypothesis encode_refuses :
  forall s l, is_str l = false -> is_ok (encode (CStr s) l) = false.

Lemma distinct_elem x l : x ∈ distinct l -> x ∈ l.
Proof.
  revert x. induction l as [|y l IH]; intros x; simpl; [done|].
  intros H. apply elem_of_cons in H as [->|H]; [apply elem_of_cons; by left|].
  apply elem_of_bool_filter in H as [H _]. apply elem_of_cons. right. by apply IH.
Qed.

Lemma existsb_str_false_forallb v vs :
  existsb is_str (v :: vs) = false -> forallb is_str (v :: vs) = false.
Proof. simpl. intros H. apply orb_false_iff in H as [-> _]. done. Qed.

(** An array that scikit-learn classifies holds strings alone or no
    string at all. *)
Lemma type_of_target_classified d vs t :
  type_of_target d vs = Ok t -> classification t = true ->
  forallb is_str vs = true \/ existsb is_str vs = false.
Proof.
  unfold type_of_target. destruct vs as [|v vs]; [by left|].
  destruct (bool_decide (d = object) || existsb is_str (v :: vs)) eqn:Hobj.
  - destruct (negb (is_str v)); [by intros [= <-]|].
    destruct (forallb is_str (v :: vs)); [by left|done].
  - apply orb_false_iff in Hobj as [_ Hobj]. by right.
Qed.

(** A string is accepted as the positive label of a binary target only
    when truth and predictions hold strings alone. *)
Lemma check_binary_strings y p s :
  s_values y ≠ [] ->
  check_binary encode y p (CStr s) = Ok tt ->
  forallb is_str (s_values y) = true /\ forallb is_str p = true.
Proof.
  intros Hne. unfold check_binary. intros H. bind_ok H.
  unfold _check_targets, check_consistent_length in E.
  case_bool_decide as Hlen; [|done]. simpl in E.
  bind_ok E. bind_ok E.
  destruct (classification a0 && classification a1) eqn:Hcl; [|done]. simpl in E.
  apply andb_true_iff in Hcl as [Hc0 Hc1].
  destruct (s_values y) as [|v vs] eqn:Hvs; [done|].
  destruct p as [|w ws]; [done|].
  destruct (type_of_target_classified _ _ _ E0 Hc0) as [Hy|Hy];
    destruct (type_of_target_classified _ _ _ E1 Hc1) as [Hp|Hp]; [done| | |].
  - exfalso. rewrite Hy, (existsb_str_false_forallb _ _ Hp) in E.
    destruct a0, a1; simpl in E; simplify_eq; done.
  - exfalso. rewrite Hp, (existsb_str_false_forallb _ _ Hy) in E.
    destruct a0, a1; simpl in E; simplify_eq; done.
  - exfalso.
    assert (forall x, x ∈ distinct ((v :: vs) ++ w :: ws) -> is_str x = false) as Hnum.
    { intros x Hx. apply distinct_elem, elem_of_app in Hx as [Hx|Hx].
      - apply not_true_is_false. intros Hs.
        assert (existsb is_str (v :: vs) = true); [|congruence].
        apply existsb_exists. exists x. split; [by apply list_elem_of_In|done].
      - apply not_true_is_false. intros Hs.
        assert (existsb is_str (w :: ws) = true); [|congruence].
        apply existsb_exists. exists x. split; [by apply list_elem_of_In|done]. }
    destruct a; try done.
    rewrite (existsb_false (same_label (CStr s))) in H.
    2:{ intros x Hx. apply Hnum in Hx. by destruct x. }
    destruct (distinct ((v :: vs) ++ w :: ws)) as [|l [|l' ls]] eqn:Hd; [done| |done].
    assert (is_str l = false) as Hl by (apply Hnum, elem_of_cons; by left).
    unfold same_kind in H. simpl in H. rewrite Hl in H. simpl in H.
    specialize (encode_refuses s l Hl). by rewrite H in encode_refuses.
Qed.

Lemma count_pairs_constant vs w :
  count_pairs same_label vs (repeat w (length vs)) = count_label w vs.
Proof.
  unfold count_pairs, count_label.
  induction vs as [|x vs IH]; simpl; [done|].
  destruct (same_label x w); simpl; by rewrite IH.
Qed.

Lemma true_positives_constant vs w pos :
  true_positives vs (repeat w (length vs)) pos
  = if same_label w pos then count_label pos vs else 0.
Proof.
  unfold true_positives, count_pairs, count_label.
  induction vs as [|x vs IH]; simpl; [by destruct (same_label w pos)|].
  destruct (same_label w pos) eqn:Hw.
  - rewrite andb_true_r. destruct (same_label x pos); simpl; by rewrite IH.
  - rewrite andb_false_r. done.
Qed.

Lemma count_label_constant w pos n :
  count_label pos (repeat w n) = if same_label w pos then n else 0.
Proof.
  unfold count_label. induction n as [|n IH]; simpl; [by destruct (same_label w pos)|].
  destruct (same_label w pos) eqn:Hw; simpl; [by rewrite IH|done].
Qed.

Lemma occurrences_absent v l : v ∉ l -> occurrences v l = 0.
Proof.
  intros H. destruct (occurrences v l) eqn:E; [done|].
  exfalso. apply H, occurrences_elem. lia.
Qed.

Lemma ratio_nonzero num den z z' : den ≠ 0 -> ratio num den z = ratio num den z'.
Proof. intros H. unfold ratio. by rewrite bool_decide_eq_false_2. Qed.

End BaselineRow.

(** X11.  The first row of the table [visualize_performance_of_models]
    returns scores the baseline.  Provided scikit-learn refuses a positive
    label that is a string where the one label present is a number: when
    the function returns, the column
    [churn] holds strings alone; the baseline value is a most frequent
    one of them; the accuracy of the row is the share of the customers
    with that value; and when that value is "Yes" the precision is the
    same share and the recall is 1.0, otherwise precision and recall are
    both 0.0. *)
Theorem visualize_performance_of_models_baseline_row encode learned predict df models
    rows models' :
  (forall s l, model.is_str l = false -> is_ok (encode (CStr s) l) = false) ->
  model.visualize_performance_of_models encode learned predict df models
  = (Ok rows, models') ->
  exists churn v row,
    find_column "churn" df = Some churn /\
    rows !! 0 = Some row /\
    Forall (fun x => model.is_str x = true) (c_values churn) /\
    v ∈ c_values churn /\
    (forall w, model.occurrences w (c_values churn)
               ≤ model.occurrences v (c_values churn)) /\
    model.accuracy row
    = model.ratio (model.occurrences v (c_values churn)) (length (c_values churn))
        model.ScoreNaN /\
    if bool_decide (v = CStr "Yes")
    then model.precision row = model.accuracy row /\
         model.recall row = model.Score 1
    else model.precision row = model.Score 0 /\
         model.recall row = model.Score 0.
Proof.
  intros Hrefuse Hrun. apply visualize_performance_of_models_run in Hrun
    as (X & y & baseline & p1 & p2 & p3 & HX & Hb & -> & _ & _ & _ & Hm).
  unfold model.split_into_X_and_y in HX. bind_ok HX. bind_ok HX.
  injection HX as _ <-. apply getattr_ok in E0 as (churn & Hchurn & ->).
  cbn [to_series s_values] in *.
  pose proof (create_baseline_model_nonempty _ _ Hb) as Hne. simpl in Hne.
  rewrite create_baseline_model_head in Hb. simpl in Hb.
  destruct (head (model.mode (c_values churn))) as [v|] eqn:Hhead; [|done].
  injection Hb as <-. unfold model.size in Hm. simpl in Hm.
  apply score_rows_four in Hm as (r0 & r1 & r2 & r3 & -> & _ & H0 & _).
  2:{ destruct (model.keys _) eqn:Hk; [|done].
      exfalso. destruct models as [|[k e] models]; simpl in Hk; [done|].
      case_bool_decide; done. }
  apply score_row_ok in H0 as (_ & _ & Ha & Hp & Hr & Hcheck). simpl in *.
  apply check_binary_strings in Hcheck as [Hstr _]; [|done|done].
  assert (Forall (fun x => of_kind Strings x = true) (c_values churn)) as Hkind.
  { apply Forall_forall. intros x Hx. rewrite forallb_forall in Hstr.
    apply Hstr. by apply list_elem_of_In. }
  destruct (mode_head (c_values churn)) as (v' & Hv' & Hin & _ & Hmost & _).
  { destruct (c_values churn) as [|x xs]; [done|]. exists x. split.
    - apply elem_of_cons. by left.
    - apply Forall_cons in Hkind as [Hx _]. by destruct x. }
  rewrite Hhead in Hv'. injection Hv' as <-.
  assert (of_kind Strings v = true) as Hkv.
  { rewrite Forall_forall in Hkind. by apply Hkind. }
  assert (model.occurrences v (c_values churn) ≠ 0) as Hocc.
  { apply occurrences_elem in Hin. lia. }
  exists churn, v, r0.
  split; [done|]. split; [done|]. split; [exact Hkind|]. split; [done|]. split.
  { intros w. destruct (decide (w = CNaN)) as [->|Hw]; [|by apply Hmost].
    rewrite occurrences_absent; [lia|]. intros Hnan.
    rewrite Forall_forall in Hkind. by apply Hkind in Hnan. }
  rewrite count_pairs_constant, (count_label_occurrences Strings) in Ha by done.
  split; [done|].
  rewrite true_positives_constant, count_label_constant in Hp.
  rewrite true_positives_constant in Hr.
  rewrite (of_kind_same_label Strings v (CStr "Yes")) in Hp, Hr by done.
  case_bool_decide as HYes.
  - subst v. rewrite (count_label_occurrences Strings) in Hp, Hr by done.
    split.
    + rewrite Hp, Ha. apply ratio_nonzero. by destruct (c_values churn).
    + rewrite Hr. by apply ratio_same.
  - by rewrite Hp, Hr, !ratio_zero.
Qed.

(** X11 on the prepared sample: two of three customers have churned, the
    baseline predicts "Yes" throughout and its recall is 1.0. *)
Lemma visualize_performance_of_models_baseline_row_witness :
  exists rows models' row,
    model.visualize_performance_of_models samples.refuse_foreign_label
      unit samples.predict_no samples.prepared
      samples.models_24 = (Ok rows, models') /\
    rows !! 0 = Some row /\
    model.recall row = model.Score 1.
Proof.
  destruct (visualize_performance_of_models_baseline_row samples.refuse_foreign_label
              unit samples.predict_no samples.prepared samples.models_24 _ _
              ltac:(done) eq_refl)
    as (churn & v & row & Hchurn & Hrow & _ & Hin & Hmost & _ & Hscores).
  eexists _, _, row. split; [reflexivity|]. split; [exact Hrow|].
  injection Hchurn as <-.
  assert (v = CStr "Yes") as ->.
  { simpl in Hin.
    apply elem_of_cons in Hin as [->|Hin].
    - specialize (Hmost (CStr "Yes")). vm_compute in Hmost. lia.
    - apply elem_of_cons in Hin as [->|Hin]; [done|].
      apply elem_of_cons in Hin as [->|Hin]; [done|]. by apply elem_of_nil in Hin. }
  rewrite bool_decide_eq_true_2 in Hscores by done. apply Hscores.
Defined.

Lemma set_column_idempotent name d vs cs :
  set_column name d vs (set_column name d vs cs) = set_column name d vs cs.
Proof.
  induction cs as [|c cs IH]; simpl.
  - by rewrite bool_decide_eq_true_2.
  - case_bool_decide as Hn; simpl.
    + by rewrite bool_decide_eq_true_2.
    + rewrite bool_decide_eq_false_2 by done. by rewrite IH.
Qed.

(** X17.  The change [make_predictions_on_test] makes to [original_df]
    is made once: after a call that returned, a further call, on whatever
    test table and model, leaves the frame as the first call left it (the
    column "index" is overwritten with the same values, not added
    again). *)
Theorem make_predictions_on_test_twice encode learned predict predict_proba print_csv
    df1 model1 df2 model2 env :
  let run1 :=
    model.make_predictions_on_test encode learned predict predict_proba print_csv
      df1 model1 env in
  let run2 :=
    model.make_predictions_on_test encode learned predict predict_proba print_csv
      df2 model2 run1.2 in
  is_ok run1.1 = true ->
  model.customers run2.2 = model.customers run1.2.
Proof.
  intros run1 run2 Hok.
  destruct run1 as [res1 env1] eqn:H1. unfold run1 in H1.
  destruct run2 as [res2 env2] eqn:H2. unfold run2 in H2. simpl in *.
  apply make_predictions_on_test_env in H1, H2.
  destruct H1 as [[_ Hres]|[Hc1 _]]; [congruence|].
  destruct H2 as [[-> _]|[Hc2 _]]; [done|].
  rewrite Hc2, Hc1. unfold setitem. simpl. by rewrite set_column_idempotent.
Qed.

(** X17 on the sample: the frame has 25 columns after one call and after
    two. *)
Lemma make_predictions_on_test_twice_witness :
  let model_ := model.mkClassifier (model.KNeighborsClassifier 10 model.uniform) tt in
  let run1 :=
    model.make_predictions_on_test samples.refuse_foreign_label
      unit samples.predict_no samples.predict_proba_no
      samples.print_header samples.prepared model_ samples.env_0 in
  let run2 :=
    model.make_predictions_on_test samples.refuse_foreign_label
      unit samples.predict_no samples.predict_proba_no
      samples.print_header samples.prepared model_ run1.2 in
  length (columns (model.customers run1.2)) = 25 /\
  model.customers run2.2 = model.customers run1.2.
Proof.
  intros model_ run1 run2. split; [vm_compute; reflexivity|].
  apply (make_predictions_on_test_twice samples.refuse_foreign_label unit samples.predict_no
           samples.predict_proba_no samples.print_header samples.prepared model_
           samples.prepared model_ samples.env_0).
  vm_compute. reflexivity.
Defined.

Section MergeFacts.

Import model.

Lemma omap_cons_eq {A B} (f : A -> option B) x l :
  omap f (x :: l)
  = match f x with Some y => y :: omap f l | None => omap f l end.
Proof. reflexivity. Qed.

(** The merge loop over keyed positions. *)
Lemma matches_length (k : cell) (i : nat) (RP : list (nat * cell)) :
  length (omap (fun jk : nat * cell =>
                  if bool_decide (k = jk.2) then Some (i, jk.1) else None) RP)
  = length (List.filter (fun r => bool_decide (k = r)) (map snd RP)).
Proof.
  induction RP as [|[j r] RP IH]; [done|].
  rewrite omap_cons_eq. cbn [map snd fst List.filter].
  destruct (bool_decide (k = r)); cbn [length]; by rewrite IH.
Qed.

Lemma filter_elem_cons_length (k : cell) ks R :
  k ∉ ks ->
  length (List.filter (fun r => bool_decide (r ∈ k :: ks)) R)
  = length (List.filter (fun r => bool_decide (k = r)) R)
    + length (List.filter (fun r => bool_decide (r ∈ ks)) R).
Proof.
  intros Hk. induction R as [|r R IH]; simpl; [done|].
  destruct (decide (k = r)) as [<-|Hne].
  - rewrite (bool_decide_eq_true_2 (k ∈ k :: ks)) by (apply elem_of_cons; by left).
    rewrite (bool_decide_eq_true_2 (k = k)) by done.
    rewrite (bool_decide_eq_false_2 (k ∈ ks)) by done. simpl. lia.
  - rewrite (bool_decide_eq_false_2 (k = r)) by done.
    destruct (decide (r ∈ ks)) as [Hin|Hout].
    + rewrite (bool_decide_eq_true_2 (r ∈ k :: ks)) by (apply elem_of_cons; by right).
      rewrite (bool_decide_eq_true_2 (r ∈ ks)) by done. simpl. lia.
    + rewrite (bool_decide_eq_false_2 (r ∈ k :: ks)).
      * rewrite (bool_decide_eq_false_2 (r ∈ ks)) by done. simpl. lia.
      * intros Hin. apply elem_of_cons in Hin as [->|Hin]; done.
Qed.

Lemma keyed_matches_length (LP RP : list (nat * cell)) :
  NoDup (map snd LP) ->
  length (flat_map
            (fun ik : nat * cell =>
               omap (fun jk : nat * cell =>
                       if bool_decide (ik.2 = jk.2) then Some (ik.1, jk.1) else None)
                 RP) LP)
  = length (List.filter (fun r => bool_decide (r ∈ map snd LP)) (map snd RP)).
Proof.
  induction LP as [|[i k] LP IH]; intros Hnodup.
  - cbn [flat_map map length]. induction (map snd RP) as [|r R IHR]; [done|].
    cbn [List.filter]. rewrite bool_decide_eq_false_2; [done|]. apply not_elem_of_nil.
  - cbn [map snd] in Hnodup. apply NoDup_cons in Hnodup as [Hk Hnodup].
    cbn [flat_map map snd fst].
    rewrite length_app, (matches_length k i RP), (IH Hnodup).
    by rewrite filter_elem_cons_length.
Qed.

Lemma enumerate_snd {A} (l : list A) : map snd (enumerate l) = l.
Proof.
  unfold enumerate. generalize 0. induction l as [|x l IH]; intros k; simpl; [done|].
  by rewrite IH.
Qed.

Lemma matching_rows_length L R :
  NoDup L ->
  length (matching_rows L R)
  = length (List.filter (fun r => bool_decide (r ∈ L)) R).
Proof.
  intros Hnodup. unfold matching_rows.
  rewrite keyed_matches_length by (by rewrite enumerate_snd).
  by rewrite !enumerate_snd.
Qed.

Lemma filter_fmap_CInt (L R : list Z) :
  length (List.filter (fun r => bool_decide (r ∈ map CInt L)) (map CInt R))
  = length (List.filter (fun l => bool_decide (l ∈ L)) R).
Proof.
  induction R as [|r R IH]; simpl; [done|].
  destruct (decide (r ∈ L)) as [Hin|Hout].
  - rewrite (bool_decide_eq_true_2 (CInt r ∈ map CInt L)).
    + rewrite (bool_decide_eq_true_2 (r ∈ L)) by done. simpl. by rewrite IH.
    + by apply list_elem_of_fmap_2.
  - rewrite (bool_decide_eq_false_2 (CInt r ∈ map CInt L)).
    + by rewrite (bool_decide_eq_false_2 (r ∈ L)) by done.
    + intros Hin. apply list_elem_of_fmap in Hin as (z & [= ->] & Hz). done.
Qed.

End MergeFacts.

Lemma predictions_frame_ok idx probability prediction frame :
  model.predictions_frame idx probability prediction = Ok frame ->
  length idx = length probability /\ length idx = length prediction /\
  frame = mkDataFrame (RangeIndex (length idx))
            [mkColumn "index" int64 (map CInt idx);
             mkColumn "probability" float64 probability;
             mkColumn "prediction" (model.infer_dtype prediction) prediction].
Proof.
  unfold model.predictions_frame.
  destruct (bool_decide (length idx = length probability)) eqn:H1; [|done].
  destruct (bool_decide (length idx = length prediction)) eqn:H2; [|done].
  apply bool_decide_eq_true in H1, H2. simpl. by intros [= <-].
Qed.

Lemma write_predictions_to_file_run print_csv y prob pred env env' :
  model.write_predictions_to_file print_csv y prob pred env = (Ok tt, env') ->
  exists probability customer_id,
    model.second_column prob = Ok probability /\
    length (s_index y) = length probability /\
    length (s_index y) = length pred /\
    find_column "customer_id" (model.customers env') = Some customer_id /\
    model.customers env'
    = setitem (model.customers env) "index" int64
        (map CInt (index (model.customers env))) /\
    let pairs :=
      model.matching_rows (map CInt (index (model.customers env)))
        (map CInt (s_index y)) in
    model.files env'
    = <["predictions.csv" :=
          print_csv
            (mkDataFrame (RangeIndex (length pairs))
               [mkColumn "customer_id" (c_dtype customer_id)
                  (take (map fst pairs) (c_values customer_id));
                mkColumn "probability" float64 (take (map snd pairs) probability);
                mkColumn "prediction" (model.infer_dtype pred)
                  (take (map snd pairs) pred)])]>
        (model.files env).
Proof.
  unfold model.write_predictions_to_file, mbind, stateful_bind, lift, get_state,
    model.set_index_column, model.to_csv.
  destruct (model.second_column prob) as [probability|]; [|done].
  destruct (model.predictions_frame _ _ _) as [frame|] eqn:Hframe; [|done].
  apply predictions_frame_ok in Hframe as (Hl1 & Hl2 & ->).
  cbn [model.customers model.files].
  set (customers' := setitem (model.customers env) "index" int64
                       (map CInt (index (model.customers env)))).
  destruct (model.merge_on_index customers' _) as [merged|] eqn:Hmerge; [|done].
  intros [= <-]. cbn [model.customers model.files].
  unfold model.merge_on_index in Hmerge.
  assert (find_column "index" customers'
          = Some (mkColumn "index" int64 (map CInt (index (model.customers env)))))
    as Hleft by apply find_set_column_eq.
  rewrite Hleft in Hmerge. cbn [of_option mbind result_bind] in Hmerge.
  change (find_column "index" (mkDataFrame _ _)) with
    (Some (mkColumn "index" int64 (map CInt (s_index y)))) in Hmerge.
  cbn [of_option mbind result_bind] in Hmerge.
  destruct (find_column "customer_id" customers') as [cid|] eqn:Hcid; [|done].
  cbn [of_option mbind result_bind] in Hmerge.
  change (find_column "probability" (mkDataFrame _ _)) with
    (Some (mkColumn "probability" float64 probability)) in Hmerge.
  cbn [of_option mbind result_bind] in Hmerge.
  change (find_column "prediction" (mkDataFrame _ _)) with
    (Some (mkColumn "prediction" (model.infer_dtype pred) pred)) in Hmerge.
  cbn [of_option mbind result_bind] in Hmerge.
  case_bool_decide; [done|]. case_bool_decide; [done|].
  injection Hmerge as <-. exists probability, cid. done.
Qed.

Lemma RangeIndex_length n : length (RangeIndex n) = n.
Proof. unfold RangeIndex. by rewrite length_map, length_seq. Qed.

Lemma enumerate_elem {A} (l : list A) i x :
  (i, x) ∈ model.enumerate l -> i < length l.
Proof.
  intros H. apply list_elem_of_lookup in H as [n Hn].
  rewrite enumerate_lookup in Hn.
  destruct (l !! n) as [y|] eqn:Hy; [|done]. injection Hn as <- <-.
  by eapply lookup_lt_Some.
Qed.

Lemma matching_rows_bounds L R i j :
  (i, j) ∈ model.matching_rows L R -> i < length L /\ j < length R.
Proof.
  unfold model.matching_rows. intros H.
  apply list_elem_of_In, in_flat_map in H as ([i' k] & Hik & H).
  apply list_elem_of_In in Hik, H.
  apply list_elem_of_omap in H as ([j' k'] & Hjk & H). simpl in H.
  case_bool_decide; [|done]. injection H as <- <-.
  split; by eapply enumerate_elem.
Qed.

Lemma filter_all_length {A} (p : A -> bool) l :
  (forall x, x ∈ l -> p x = true) -> length (List.filter p l) = length l.
Proof.
  induction l as [|x l IH]; simpl; intros H; [done|].
  rewrite (H x) by (apply elem_of_cons; by left). simpl.
  rewrite IH; [done|]. intros y Hy. apply H, elem_of_cons. by right.
Qed.

(** X18.  The file that [write_predictions_to_file] writes, when the row
    labels of [customers] are distinct: a table with the three columns
    [customer_id], [probability], [prediction] and the row labels
    [0..n-1], holding one row for every row of the test set whose label is
    a row label of [customers].  Test rows whose label is not found are
    left out without an error; when all labels are found the file has as
    many rows as the test set.  The table is well formed when
    [customers] is. *)
Theorem write_predictions_to_file_rows print_csv y prob pred env env' :
  model.write_predictions_to_file print_csv y prob pred env = (Ok tt, env') ->
  NoDup (index (model.customers env)) ->
  exists predictions,
    model.files env'
    = <["predictions.csv" := print_csv predictions]> (model.files env) /\
    column_names predictions = ["customer_id"; "probability"; "prediction"] /\
    index predictions = RangeIndex (n_rows predictions) /\
    n_rows predictions
    = length (List.filter (fun l => bool_decide (l ∈ index (model.customers env)))
                (s_index y)) /\
    ((forall l, l ∈ s_index y -> l ∈ index (model.customers env)) ->
     n_rows predictions = length (s_index y)) /\
    (well_formed (model.customers env) -> well_formed predictions).
Proof.
  intros H Hnodup.
  apply write_predictions_to_file_run in H
    as (probability & cid & _ & Hl1 & Hl2 & Hcid & Hcust & Hfiles).
  set (pairs := model.matching_rows (map CInt (index (model.customers env)))
                  (map CInt (s_index y))) in *.
  assert (length pairs
          = length (List.filter
                      (fun l => bool_decide (l ∈ index (model.customers env)))
                      (s_index y))) as Hpairs.
  { unfold pairs. rewrite matching_rows_length.
    - apply filter_fmap_CInt.
    - apply NoDup_fmap; [|done]. by intros ?? [=]. }
  eexists. split; [exact Hfiles|]. split; [done|].
  unfold n_rows. cbn [index]. rewrite !RangeIndex_length.
  split; [done|]. split; [done|]. split.
  - intros Hall. rewrite Hpairs. apply filter_all_length.
    intros l Hl. apply bool_decide_eq_true. by apply Hall.
  - intros Hwf. unfold well_formed, n_rows. cbn [index columns].
    rewrite RangeIndex_length.
    assert (Forall (fun p => p < length (index (model.customers env)))
              (map fst pairs)) as Hfst.
    { apply Forall_forall. intros i Hi.
      apply list_elem_of_fmap in Hi as ([i' j] & -> & Hij).
      apply matching_rows_bounds in Hij as [Hi _]. by rewrite length_map in Hi. }
    assert (Forall (fun p => p < length (s_index y)) (map snd pairs)) as Hsnd.
    { apply Forall_forall. intros j Hj.
      apply list_elem_of_fmap in Hj as ([i j'] & -> & Hij).
      apply matching_rows_bounds in Hij as [_ Hj]. by rewrite length_map in Hj. }
    assert (length (c_values cid) = length (index (model.customers env))) as Hcidlen.
    { assert (well_formed (model.customers env')) as Hwf'.
      { rewrite Hcust. apply set_column_well_formed; [done|].
        unfold n_rows. by rewrite length_map. }
      unfold well_formed in Hwf'. rewrite Forall_forall in Hwf'.
      rewrite (Hwf' cid).
      - by rewrite Hcust.
      - unfold find_column in Hcid. apply find_some in Hcid as [? _].
        by apply list_elem_of_In. }
    repeat constructor; cbn [c_values];
      rewrite take_length; rewrite ?length_map; try done.
    + by rewrite Hcidlen.
    + by rewrite <- Hl1.
    + by rewrite <- Hl2.
Qed.

(** X18 on the sample: the three test rows, labelled 0, 2 and 3, are all
    customers of the frame, and the file has three rows. *)
Lemma write_predictions_to_file_rows_witness :
  let y := mkSeries [0; 2; 3]%Z object [CStr "No"; CStr "Yes"; CStr "Yes"] in
  let prob := repeat [Q2Qc (3 # 4); Q2Qc (1 # 4)] 3 in
  let pred := repeat (CStr "No") 3 in
  exists env' predictions,
    model.write_predictions_to_file samples.print_header y prob pred samples.env_0
    = (Ok tt, env') /\
    model.files env'
    = <["predictions.csv" := samples.print_header predictions]>
        (model.files samples.env_0) /\
    n_rows predictions = 3.
Proof.
  intros y prob pred. eexists.
  destruct (write_predictions_to_file_rows samples.print_header y prob pred
              samples.env_0 _ ltac:(vm_compute; reflexivity))
    as (predictions & Hfiles & _ & _ & _ & Hall & _).
  { apply (bool_decide_unpack _). vm_compute. exact I. }
  exists predictions. split; [reflexivity|]. split; [exact Hfiles|].
  apply Hall. intros l Hl. apply (bool_decide_unpack _).
  apply elem_of_cons in Hl as [->|Hl]; [vm_compute; exact I|].
  apply elem_of_cons in Hl as [->|Hl]; [vm_compute; exact I|].
  apply elem_of_cons in Hl as [->|Hl]; [vm_compute; exact I|].
  by apply elem_of_nil in Hl.
Defined.

Lemma set_column_names_any name d vs cs :
  map c_name (set_column name d vs cs)
  = if bool_decide (name ∈ map c_name cs) then map c_name cs
    else map c_name cs ++ [name].
Proof.
  induction cs as [|c cs IH].
  - reflexivity.
  - cbn [set_column map]. destruct (decide (c_name c = name)) as [Hc|Hc].
    + rewrite (bool_decide_eq_true_2 (c_name c = name)) by done.
      rewrite (bool_decide_eq_true_2 (name ∈ c_name c :: map c_name cs))
        by (apply elem_of_cons; by left).
      cbn [map c_name]. by rewrite Hc.
    + rewrite (bool_decide_eq_false_2 (c_name c = name)) by done.
      cbn [map]. rewrite IH.
      destruct (decide (name ∈ map c_name cs)) as [Hin|Hout].
      * rewrite (bool_decide_eq_true_2 (name ∈ map c_name cs)) by done.
        by rewrite (bool_decide_eq_true_2 (name ∈ c_name c :: map c_name cs))
          by (apply elem_of_cons; by right).
      * rewrite (bool_decide_eq_false_2 (name ∈ map c_name cs)) by done.
        rewrite (bool_decide_eq_false_2 (name ∈ c_name c :: map c_name cs)); [done|].
        intros H. apply elem_of_cons in H as [->|H]; done.
Qed.

Lemma setitem_names_any df name d vs :
  column_names (setitem df name d vs)
  = if bool_decide (name ∈ column_names df) then column_names df
    else column_names df ++ [name].
Proof. apply set_column_names_any. Qed.

Lemma second_column_length prob probability :
  model.second_column prob = Ok probability -> length probability = length prob.
Proof.
  unfold model.second_column.
  assert (forall acc out,
            for_each
              (fun acc (row : list Qc) =>
                 p ← of_option (row !! 1) (KeyError "1"); Ok (acc ++ [CFloat p]))
              acc prob = Ok out ->
            length out = length acc + length prob) as H.
  { induction prob as [|row prob IH]; simpl; intros acc out H.
    - injection H as <-. lia.
    - destruct (row !! 1) as [p|]; simpl in H; [|done].
      apply IH in H. rewrite length_app in H. simpl in H. lia. }
  intros Hs. by apply H in Hs.
Qed.

Lemma find_column_none name df :
  name ∉ column_names df -> find_column name df = None.
Proof.
  intros H. destruct (find_column name df) as [c|] eqn:Hf; [|done].
  exfalso. apply H. by eapply find_column_elem.
Qed.

(** X19.  How [write_predictions_to_file] fails.  When the probabilities
    have no second column, or the row labels of [y], the probabilities
    and the predictions differ in number, it raises before it has touched
    anything.  When these are in order but [customers] has no column
    [customer_id], it raises [KeyError] after it has set the column
    "index" of [customers], and it writes no file. *)
Theorem write_predictions_to_file_failures print_csv y prob pred env :
  let run := model.write_predictions_to_file print_csv y prob pred env in
  (is_ok (model.second_column prob) = false \/
   length (s_index y) ≠ length prob \/ length (s_index y) ≠ length pred ->
   is_ok run.1 = false /\ run.2 = env) /\
  (is_ok (model.second_column prob) = true ->
   length (s_index y) = length prob ->
   length (s_index y) = length pred ->
   "customer_id" ∉ column_names (model.customers env) ->
   run = (Err (KeyError "customer_id"),
          model.mkEnv
            (setitem (model.customers env) "index" int64
               (map CInt (index (model.customers env))))
            (model.files env))).
Proof.
  intros run. unfold run, model.write_predictions_to_file, mbind, stateful_bind, lift,
    get_state, model.set_index_column, model.to_csv.
  destruct (model.second_column prob) as [probability|] eqn:Hsecond.
  - assert (length probability = length prob) as Hlen.
    { by apply second_column_length in Hsecond. }
    split.
    + intros [H|[H|H]]; [done| |].
      * unfold model.predictions_frame.
        rewrite (bool_decide_eq_false_2 (length (s_index y) = length probability))
          by (by rewrite Hlen).
        done.
      * unfold model.predictions_frame.
        rewrite (bool_decide_eq_false_2 (length (s_index y) = length pred)) by done.
        by rewrite andb_false_r.
    + intros _ H1 H2 Hcid. unfold model.predictions_frame.
      rewrite !bool_decide_eq_true_2 by (by rewrite ?Hlen).
      cbn [andb model.customers model.files]. unfold model.merge_on_index.
      rewrite (find_set_column_eq "index" int64 _ _
               : find_column "index" (setitem _ "index" _ _) = _).
      cbn [of_option mbind result_bind].
      rewrite (find_column_none "customer_id" (setitem _ _ _ _)); [done|].
      rewrite setitem_names_any. intros Hin. apply Hcid.
      case_bool_decide as Hidx; [done|].
      apply elem_of_app in Hin as [Hin|Hin]; [done|].
      by apply list_elem_of_singleton in Hin.
  - split; [done|]. done.
Qed.

(** X19 on a frame that went through the preparation and so has lost its
    column [customer_id]: the call raises and nothing is written. *)
Lemma write_predictions_to_file_failures_witness :
  let y := mkSeries [0; 2; 3]%Z object [CStr "No"; CStr "Yes"; CStr "Yes"] in
  let prob := repeat [Q2Qc (3 # 4); Q2Qc (1 # 4)] 3 in
  let pred := repeat (CStr "No") 3 in
  let run :=
    model.write_predictions_to_file samples.print_header y prob pred
      (model.mkEnv samples.prepared ∅) in
  run.1 = Err (KeyError "customer_id") /\ model.files run.2 = ∅.
Proof.
  intros y prob pred run.
  assert (run
          = (Err (KeyError "customer_id"),
             model.mkEnv
               (setitem samples.prepared "index" int64
                  (map CInt (index samples.prepared)))
               ∅)) as ->; [|done].
  apply (proj2 (write_predictions_to_file_failures samples.print_header y prob pred
                  (model.mkEnv samples.prepared ∅))); try reflexivity.
  apply (bool_decide_unpack _). vm_compute. exact I.
Defined.

(** * Properties of util/explore.py *)

Section ExploreFacts.

Import explore.

Lemma churn_masks_disjoint vs {A} (l : list A) :
  length (mask_filter (map (fun x => py_eq x (CStr "No")) vs) l)
  + length (mask_filter (map (fun x => py_eq x (CStr "Yes")) vs) l)
  ≤ length l.
Proof.
  revert l. induction vs as [|x vs IH]; intros [|y l]; simpl; try lia.
  specialize (IH l).
  destruct x as [z|q|s|]; simpl; try lia.
  destruct (decide (s = "No")) as [->|Hno].
  - rewrite bool_decide_eq_true_2 by done.
    rewrite (bool_decide_eq_false_2 ("No" = "Yes")) by done. simpl. lia.
  - rewrite (bool_decide_eq_false_2 (s = "No")) by done.
    destruct (bool_decide (s = "Yes")); simpl; lia.
Qed.

Lemma churn_masks_cover vs {A} (l : list A) :
  length vs = length l ->
  Forall prepare.yes_or_no vs ->
  mask_filter (map (fun x => py_eq x (CStr "No")) vs) l
  ++ mask_filter (map (fun x => py_eq x (CStr "Yes")) vs) l ≡ₚ l.
Proof.
  revert l. induction vs as [|x vs IH]; intros [|y l]; simpl; try done.
  intros [= Hlen] Hall. apply Forall_cons in Hall as [[-> | ->] Hall].
  - change (py_eq (CStr "Yes") (CStr "No")) with false.
    change (py_eq (CStr "Yes") (CStr "Yes")) with true.
    rewrite <- Permutation_middle. constructor. by apply IH.
  - change (py_eq (CStr "No") (CStr "No")) with true.
    change (py_eq (CStr "No") (CStr "Yes")) with false.
    simpl. constructor. by apply IH.
Qed.

Lemma well_formed_column name df c :
  well_formed df -> find_column name df = Some c -> length (c_values c) = n_rows df.
Proof.
  intros Hwf Hc. unfold well_formed in Hwf. rewrite Forall_forall in Hwf.
  apply Hwf. unfold find_column in Hc. apply find_some in Hc as [? _].
  by apply list_elem_of_In.
Qed.

Lemma churn_rate_versus_run column title df out churn col :
  find_column "churn" df = Some churn ->
  find_column column df = Some col ->
  churn_rate_versus column title df out
  = (Ok tt,
     out ++
       [Histplot (mask_filter (map (fun x => py_eq x (CStr "No")) (c_values churn))
                    (c_values col))
          (Some "Not Churned") (Some "green");
        Histplot (mask_filter (map (fun x => py_eq x (CStr "Yes")) (c_values churn))
                    (c_values col))
          (Some "Churned") (Some "red");
        Title title; Legend; PltShow]).
Proof.
  intros Hchurn Hcol. unfold churn_rate_versus, mbind, stateful_bind, lift, emit.
  rewrite (getattr_find _ _ _ Hchurn). unfold eq_mask. cbn [s_values to_series].
  unfold getattr. rewrite !find_column_select_rows, Hcol. cbn.
  by rewrite <- !(assoc (++)).
Qed.

End ExploreFacts.

(** X20.  The three functions that set churned against not churned
    customers, for the contract type, the tech support and the tenure:
    on a well-formed table with the column [churn] and the column drawn,
    each draws the histogram of the not churned customers, then that of
    the churned ones, the title, the legend, and shows the figure.  No
    customer is in both histograms; a customer whose churn is neither
    "Yes" nor "No" is in none; and when every churn is "Yes" or "No" the
    two histograms together hold the column drawn, each customer once. *)
Theorem churn_histograms_partition df out churn :
  well_formed df ->
  find_column "churn" df = Some churn ->
  let draws (run : stateful (list explore.output) unit) (column : string) :=
    forall col,
      find_column column df = Some col ->
      exists not_churned churned title,
        run out
        = (Ok tt,
           out ++
             [explore.Histplot not_churned (Some "Not Churned") (Some "green");
              explore.Histplot churned (Some "Churned") (Some "red");
              explore.Title title; explore.Legend; explore.PltShow]) /\
        not_churned
        = mask_filter (map (fun x => py_eq x (CStr "No")) (c_values churn))
            (c_values col) /\
        churned
        = mask_filter (map (fun x => py_eq x (CStr "Yes")) (c_values churn))
            (c_values col) /\
        length not_churned + length churned ≤ n_rows df /\
        (Forall prepare.yes_or_no (c_values churn) ->
         not_churned ++ churned ≡ₚ c_values col) in
  draws (explore.visualize_churn_rate_versus_contract_type df) "contract_type" /\
  draws (explore.visualize_churn_rate_versus_tech_support df) "tech_support" /\
  draws (explore.visualize_churn_rate_versus_tenure df) "tenure".
Proof.
  intros Hwf Hchurn draws.
  assert (forall column title,
            draws (explore.churn_rate_versus column title df) column) as H.
  { intros column title col Hcol.
    eexists _, _, title. split; [by apply churn_rate_versus_run|].
    split; [done|]. split; [done|].
    pose proof (well_formed_column _ _ _ Hwf Hchurn) as Hlen1.
    pose proof (well_formed_column _ _ _ Hwf Hcol) as Hlen2.
    split.
    - rewrite <- Hlen2. apply churn_masks_disjoint.
    - intros Hall. apply churn_masks_cover; [|done]. by rewrite Hlen1, Hlen2. }
  split; [apply H|]. split; apply H.
Qed.

(** X20 on the sample: two customers have not churned, two have. *)
Lemma churn_histograms_partition_witness :
  exists not_churned churned,
    explore.visualize_churn_rate_versus_contract_type samples.telco_sample []
    = (Ok tt,
       [explore.Histplot not_churned (Some "Not Churned") (Some "green");
        explore.Histplot churned (Some "Churned") (Some "red");
        explore.Title
          "Most customers that are churning are on the month-to-month contract";
        explore.Legend; explore.PltShow]) /\
    length not_churned + length churned ≤ 4.
Proof.
  destruct (churn_histograms_partition samples.telco_sample [] _
              telco_sample_well_formed eq_refl) as [Hcontract _].
  destruct (Hcontract _ eq_refl) as (nc & ch & title & Hrun & -> & -> & Hlen & _).
  eexists _, _. split; [vm_compute; reflexivity|]. exact Hlen.
Defined.

Lemma mask_filter_count {A} (mask : list bool) (l : list A) :
  length mask = length l ->
  length (mask_filter mask l) = length (List.filter id mask).
Proof.
  revert l. induction mask as [|b mask IH]; intros [|x l]; simpl; try done.
  intros [= H]. destruct b; simpl; by rewrite (IH l H).
Qed.

(** X21.  [visualize_monthly_charges_versus_tenure] on a well-formed
    table: when it returns, the table has the columns [churn], [tenure]
    and [monthly_charges]; the customers drawn are the churned customers
    whose tenure is at most 24; the line printed gives their number
    divided by the number of churned customers ([nan] when no customer has
    churned); and a missing tenure counts as more than 24. *)
Theorem monthly_charges_versus_tenure_share
    (format_percent : model.score -> string) df out out' :
  well_formed df ->
  explore.visualize_monthly_charges_versus_tenure format_percent df out
  = (Ok tt, out') ->
  exists churn tenure mask,
    find_column "churn" df = Some churn /\
    find_column "tenure" df = Some tenure /\
    "monthly_charges" ∈ column_names df /\
    let churned :=
      select_rows (map (fun x => py_eq x (CStr "Yes")) (c_values churn)) df in
    let shown := select_rows mask churned in
    Forall2 (fun v b => explore.py_le v 24 = Ok b)
      (mask_filter (map (fun x => py_eq x (CStr "Yes")) (c_values churn))
         (c_values tenure))
      mask /\
    (forall v, explore.py_le v 24 = Ok true ->
               (exists z, v = CInt z /\ (z ≤ 24)%Z)
               \/ (exists q, v = CFloat q /\ (q ≤ Q2Qc (inject_Z 24))%Qc)) /\
    n_rows shown ≤ n_rows churned /\
    out'
    = out ++
        [explore.Printed
           ("Tenure less than or equal to 24, percentage of churn pop.: "
            +:+ format_percent
                  (model.ratio (n_rows shown) (n_rows churned) model.ScoreNaN));
         explore.HistplotOf shown "monthly_charges";
         explore.Title "Customers with 2 years or less of tenure that have churned";
         explore.PltShow].
Proof.
  intros Hwf. unfold explore.visualize_monthly_charges_versus_tenure.
  unfold mbind, stateful_bind, lift, explore.emit.
  destruct (getattr df "churn") as [s|e] eqn:Hchurn; [|done].
  apply getattr_ok in Hchurn as (churn & Hchurn & ->).
  unfold explore.eq_mask. cbn [s_values to_series].
  set (yes := map (fun x => py_eq x (CStr "Yes")) (c_values churn)).
  unfold getattr. rewrite find_column_select_rows.
  destruct (find_column "tenure" df) as [tenure|] eqn:Htenure; [|done].
  cbn [fmap option_fmap option_map of_option to_series s_values c_values].
  unfold explore.le_mask. cbn [s_values].
  match goal with
  | |- context [for_each ?f [] ?l] =>
      destruct (for_each f [] l) as [mask|e] eqn:Hmask; [|done]
  end.
  apply for_each_collect in Hmask as (mask' & -> & Hmask). simpl in Hmask.
  cbn [app].
  rewrite select_rows_names, select_rows_names.
  case_bool_decide as Hcharges; [|done].
  intros [= <-]. exists churn, tenure, mask'. fold yes.
  set (churned := select_rows yes df).
  set (shown := select_rows mask' churned).
  split; [done|]. split; [done|]. split; [done|]. split; [exact Hmask|].
  assert (length mask' = n_rows churned) as Hlen.
  { rewrite <- (Forall2_length _ _ _ Hmask). unfold churned, n_rows. simpl.
    apply mask_filter_length_eq. by apply (well_formed_column "tenure"). }
  split.
  { intros [z|q|s|]; simpl; intros [= H].
    - left. exists z. split; [done|]. by apply bool_decide_eq_true in H.
    - right. exists q. split; [done|]. by apply bool_decide_eq_true in H. }
  split; [apply select_rows_n_rows|].
  unfold explore.mean. rewrite <- !(assoc (++)). cbn [app].
  assert (n_rows shown = length (List.filter id mask')) as ->.
  { unfold shown, n_rows. simpl. by apply mask_filter_count. }
  by rewrite Hlen.
Qed.

(** X21 on the sample, whose two churned customers both have a tenure of
    at most 24. *)
Lemma monthly_charges_versus_tenure_share_witness :
  exists churn tenure mask,
    find_column "churn" samples.telco_sample = Some churn /\
    find_column "tenure" samples.telco_sample = Some tenure /\
    let churned :=
      select_rows (map (fun x => py_eq x (CStr "Yes")) (c_values churn))
        samples.telco_sample in
    let shown := select_rows mask churned in
    n_rows shown ≤ n_rows churned /\
    explore.visualize_monthly_charges_versus_tenure more_samples.format_share
      samples.telco_sample []
    = (Ok tt,
       [explore.Printed
          ("Tenure less than or equal to 24, percentage of churn pop.: "
           +:+ more_samples.format_share
                 (model.ratio (n_rows shown) (n_rows churned) model.ScoreNaN));
        explore.HistplotOf shown "monthly_charges";
        explore.Title "Customers with 2 years or less of tenure that have churned";
        explore.PltShow]).
Proof.
  destruct (monthly_charges_versus_tenure_share more_samples.format_share
              samples.telco_sample [] _ telco_sample_well_formed eq_refl)
    as (churn & tenure & mask & Hchurn & Htenure & _ & _ & _ & Hle & Hout).
  exists churn, tenure, mask.
  split; [exact Hchurn|]. split; [exact Htenure|]. split; [exact Hle|].
  exact (f_equal (pair (Ok tt)) Hout).
Defined.
